(** * Bouldering simulator: body constraint, stability, friction, fatigue
      and the per-frame tick, embedded in Rocq.

    The TypeScript sources compute on JavaScript numbers.  They are modelled
    here as real numbers with exact arithmetic: [Math.sqrt], [Math.cos],
    [Math.sin], [Math.acos] are the functions of the Reals library,
    [Math.atan2] and the [%] operator are defined below from [atan] and
    [Int_part].  Where the source can produce a non-finite number (a division
    by zero, [Math.acos] outside [-1,1]) and a property is about exactly that,
    the operation is written in an error monad ([solveIK]). *)

From Stdlib Require Import Reals Lra List String Bool.
Import ListNotations.

Open Scope R_scope.

(** ** Numbers *)

Module Num.

Definition ltb (a b : R) : bool := if Rlt_dec a b then true else false.
Definition leb (a b : R) : bool := if Rle_dec a b then true else false.
Definition gtb (a b : R) : bool := ltb b a.
Definition geb (a b : R) : bool := leb b a.
Definition eqb (a b : R) : bool := if Req_dec_T a b then true else false.

(** [a || d] on numbers: [0] is falsy. *)
Definition orElse (a d : R) : R := if eqb a 0 then d else a.

(** [Math.trunc], used by the remainder operator. *)
Definition trunc (r : R) : R :=
  if leb 0 r then IZR (Int_part r) else - IZR (Int_part (- r)).

(** [a % n]: the remainder has the sign of the dividend. *)
Definition fmod (a n : R) : R := a - n * trunc (a / n).

(** [Math.atan2 y x], signed zeros left aside. *)
Definition atan2 (y x : R) : R :=
  if ltb 0 x then atan (y / x)
  else if ltb x 0 then
    (if leb 0 y then atan (y / x) + PI else atan (y / x) - PI)
  else if ltb 0 y then PI / 2
  else if ltb y 0 then - (PI / 2)
  else 0.

End Num.

Declare Scope js_scope.
Delimit Scope js_scope with js.
Infix "<?" := Num.ltb (at level 70, no associativity) : js_scope.
Infix "<=?" := Num.leb (at level 70, no associativity) : js_scope.
Infix ">?" := Num.gtb (at level 70, no associativity) : js_scope.
Infix ">=?" := Num.geb (at level 70, no associativity) : js_scope.
Infix "=?" := Num.eqb (at level 70, no associativity) : js_scope.
Open Scope js_scope.

(** ** types.ts *)

Inductive HoldType := jug | crimp | sloper | pocket | volume | start | finish.

Record Point := mkPoint { x : R; y : R }.

Record Hold := mkHold {
  id : string;
  hx : R;
  hy : R;
  type : HoldType;
  rotation : R
}.

(** A non-null limb value: a bare [Point] (smearing) or an [AttachedLimb]
    (a point that carries a [holdId]). *)
Inductive LimbVal :=
| OnPoint (p : Point)
| OnHold (p : Point) (holdId : string).

Definition pos (v : LimbVal) : Point :=
  match v with OnPoint p => p | OnHold p _ => p end.

Inductive Limb := leftHand | rightHand | leftFoot | rightFoot.

(** [ClimberState['limbs']]: every key holds a limb value or [null].  The
    fields [lh], [rh], [lf], [rf] are the keys [leftHand], [rightHand],
    [leftFoot], [rightFoot], in the order in which the objects are built
    (the order of [Object.values] and [Object.entries]). *)
Record Limbs := mkLimbs {
  lh : option LimbVal;
  rh : option LimbVal;
  lf : option LimbVal;
  rf : option LimbVal
}.

Definition limb_get (ls : Limbs) (l : Limb) : option LimbVal :=
  match l with
  | leftHand => lh ls | rightHand => rh ls
  | leftFoot => lf ls | rightFoot => rf ls
  end.

Definition limb_set (ls : Limbs) (l : Limb) (v : option LimbVal) : Limbs :=
  match l with
  | leftHand => mkLimbs v (rh ls) (lf ls) (rf ls)
  | rightHand => mkLimbs (lh ls) v (lf ls) (rf ls)
  | leftFoot => mkLimbs (lh ls) (rh ls) v (rf ls)
  | rightFoot => mkLimbs (lh ls) (rh ls) (lf ls) v
  end.

Definition noLimbs : Limbs := mkLimbs None None None None.

Inductive Status := idle | climbing | falling | topped.

Definition Status_eqb (a b : Status) : bool :=
  match a, b with
  | idle, idle | climbing, climbing | falling, falling | topped, topped => true
  | _, _ => false
  end.

Record ArmPump := mkPump { left : R; right : R }.

Record ClimberState := mkClimber {
  limbs : Limbs;
  stamina : R;
  armPump : ArmPump;
  chalk : R;
  balance : R;
  status : Status;
  centerOfMass : Point;
  velocity : Point
}.

Record Level := mkLevel {
  holds : list Hold;
  angle : R;
  height : option R
}.

(** ** constants.ts *)

Module ANATOMY.
Definition torsoHeight : R := 11.
Definition shoulderWidth : R := 6.5.
Definition hipWidth : R := 3.5.
Definition armUpper : R := 6.5.
Definition armLower : R := 6.5.
Definition legUpper : R := 8.
Definition legLower : R := 8.
Definition headRadius : R := 2.2.
End ANATOMY.

Module MAX_REACH.
Definition hand : R := ANATOMY.armUpper + ANATOMY.armLower.
Definition foot : R := ANATOMY.legUpper + ANATOMY.legLower.
End MAX_REACH.

Definition INITIAL_STAMINA : R := 100.
Definition INITIAL_CHALK : R := 100.
Definition climberWeightKg : R := 65.

Definition HOLD_STAMINA_DRAIN (t : HoldType) : R :=
  match t with
  | jug => 0.005 | start => 0 | finish => 0.005 | volume => 0.01
  | pocket => 0.04 | sloper => 0.05 | crimp => 0.1
  end.

Definition HOLD_FRICTION (t : HoldType) : R :=
  match t with
  | jug => 1 | start => 1 | finish => 1 | crimp => 0.9
  | pocket => 0.9 | volume => 0.3 | sloper => 0.2
  end.

(** ** utils/gameUtils.ts *)

Definition isAttached (v : option LimbVal) : bool :=
  match v with Some (OnHold _ _) => true | _ => false end.

Definition isSmearing (v : option LimbVal) : bool :=
  match v with Some (OnPoint _) => true | _ => false end.

Definition calculateDistance (p1 p2 : Point) : R :=
  sqrt ((x p2 - x p1) ^ 2 + (y p2 - y p1) ^ 2).

Definition isReachable (shoulderPoint target : Point) (maxReach : R) : bool :=
  calculateDistance shoulderPoint target <=? maxReach.

Definition getAngle (p1 p2 : Point) : R :=
  let dy := y p2 - y p1 in
  let dx := x p2 - x p1 in
  let theta := Num.atan2 dy dx * (180 / PI) in
  if theta <? 0 then 360 + theta else theta.

Definition getAngleDiff (a b : R) : R :=
  let diff := Rabs (a - b) in
  if diff >? 180 then 360 - diff else diff.

(** [holds.find(h => h.id === holdId)] *)
Definition findHold (hs : list Hold) (holdId : string) : option Hold :=
  find (fun h => String.eqb (id h) holdId) hs.

(** [[a, b].filter(l => l !== null)] and [Object.values(limbs).filter(...)] *)
Fixpoint nonNull (l : list (option LimbVal)) : list LimbVal :=
  match l with
  | [] => []
  | Some v :: r => v :: nonNull r
  | None :: r => nonNull r
  end.

Definition values (ls : Limbs) : list (option LimbVal) :=
  [lh ls; rh ls; lf ls; rf ls].

Definition entries (ls : Limbs) : list (Limb * option LimbVal) :=
  [(leftHand, lh ls); (rightHand, rh ls); (leftFoot, lf ls); (rightFoot, rf ls)].

Definition len {A} (l : list A) : R := INR (List.length l).

Record DrainResult := mkDrain { core : R; leftPump : R; rightPump : R }.

Section TickDrain.

Variable state : ClimberState.
Variable holdList : list Hold.
Variable holdDrains : HoldType -> R.
Variable wallAngle : R.
Variable realismMode : bool.

Definition feetAttached : nat :=
  List.length (nonNull [lf (limbs state); rf (limbs state)]).

(** The inner closure of [calculateTickDrain]; its second parameter
    ([currentPump]) is not used by the source. *)
Definition calculateArmPump (limb : Limb) : R :=
  match limb_get (limbs state) limb with
  | Some (OnHold p holdId) =>
      match findHold holdList holdId with
      | None => 0
      | Some hold =>
          let difficulty := Num.orElse (holdDrains (type hold)) 0.05 in
          let difficulty :=
            if realismMode then
              let handPos := p in
              let bodyPos := mkPoint (x (centerOfMass state))
                                     (y (centerOfMass state) - 8) in
              let pullAngle := getAngle handPos bodyPos in
              let idealAngle :=
                match type hold with
                | crimp | sloper => Num.fmod (rotation hold + 90) 360
                | _ => 90
                end in
              let diff := getAngleDiff pullAngle idealAngle in
              if diff >? 45 then difficulty * (1.5 + diff / 45)
              else difficulty
            else difficulty in
          if (match type hold with jug | start | finish => true | _ => false end)
             && (balance state <? 40) && (wallAngle <? 30)
          then - 0.03
          else
            let overhangMult :=
              if wallAngle >? 0 then 1 + wallAngle / 30 else 1 in
            let footSupportMult :=
              if Nat.eqb feetAttached 0 then 2.5 else 1 in
            difficulty * overhangMult * footSupportMult * 0.8
      end
  | _ => - 0.05
  end.

(** [loadFactor] is computed by the source and never read; it is left out. *)
Definition calculateTickDrain : DrainResult :=
  let coreDrain := 0.005 in
  let activeLimbsCount := List.length (nonNull (values (limbs state))) in
  if Nat.eqb activeLimbsCount 0 then mkDrain 0 (- 0.1) (- 0.1)
  else
    let instabilityCost :=
      balance state / 100 * (if realismMode then 0.05 else 0.03) in
    let anglePenalty :=
      if wallAngle >? 0 then wallAngle / 45 * 0.06 else 0 in
    let coreDrain := coreDrain + anglePenalty in
    let coreDrain := coreDrain + instabilityCost in
    let coreDrain :=
      if Nat.eqb feetAttached 0 && (wallAngle >? 0)
      then coreDrain + (if realismMode then 0.25 else 0.15)
      else coreDrain in
    mkDrain coreDrain (calculateArmPump leftHand) (calculateArmPump rightHand).

End TickDrain.

Section Friction.

Variable state : ClimberState.
Variable holdList : list Hold.
Variable wallAngle : R.
Variable realismMode : bool.

(** Body of [feet.forEach]: the penalty one foot adds. *)
Definition footPenalty (foot : LimbVal) : R :=
  let rad := wallAngle * (PI / 180) in
  let normalForceRatio := cos rad in
  match foot with
  | OnHold _ holdId =>
      match findHold holdList holdId with
      | Some hold =>
          let friction :=
            HOLD_FRICTION (type hold)
            * (if wallAngle <? 0 then 1.2 else normalForceRatio) in
          if friction <? 0.3 then (0.3 - friction) * 50 else 0
      | None => 0
      end
  | OnPoint _ =>
      if wallAngle <? 0 then 2
      else if wallAngle <=? 10 then 10
      else (if realismMode then 45 else 30) + wallAngle * 1.5
  end.

(** The [switch (hold.type)] of the hand loop: ideal pull angle and
    tolerance. *)
Definition pullWindow (hold : Hold) : R * R :=
  let strictness := if realismMode then 0.5 else 1 in
  let rot := Num.fmod (rotation hold + 90) 360 in
  match type hold with
  | jug => (rot, 160)
  | crimp => (rot, 60 * strictness)
  | sloper => (rot, 40 * strictness)
  | pocket => (rot, 70 * strictness)
  | volume => (rot, 80 * strictness)
  | start | finish => (90, 180)
  end.

(** Body of [hands.forEach]: the penalty one hand adds. *)
Definition handPenalty (hand : LimbVal) : R :=
  match hand with
  | OnPoint _ => 0
  | OnHold p holdId =>
      match findHold holdList holdId with
      | None => 0
      | Some hold =>
          let handPos := p in
          let bodyPullPoint := mkPoint (x (centerOfMass state))
                                       (y (centerOfMass state) - 10) in
          let pullAngle := getAngle handPos bodyPullPoint in
          let '(idealPullAngle, tolerance) := pullWindow hold in
          let diff := getAngleDiff pullAngle idealPullAngle in
          if diff >? tolerance then
            let errorFactor := (diff - tolerance) / (180 - tolerance) in
            let penaltyMult := if realismMode then 80 else 40 in
            errorFactor * penaltyMult
          else 0
      end
  end.

Definition chalkPenalty : R :=
  Rmax 0 (30 - chalk state) * (if realismMode then 0.8 else 0.5).

Definition getFrictionPenalty : R :=
  let totalPenalty := 0 in
  let totalPenalty := totalPenalty + chalkPenalty in
  let feet := nonNull [lf (limbs state); rf (limbs state)] in
  let hands := nonNull [lh (limbs state); rh (limbs state)] in
  let totalPenalty :=
    if Nat.eqb (List.length feet) 0 then
      if Nat.ltb 0 (List.length hands) then
        let noFeetPenaltyBase := if wallAngle <? 0 then 150 else 30 in
        let overhangCampusPenalty := Rmax 0 (wallAngle - 10) * 0.8 in
        totalPenalty + (noFeetPenaltyBase + overhangCampusPenalty)
      else totalPenalty
    else fold_left (fun acc foot => acc + footPenalty foot) feet totalPenalty in
  let totalPenalty :=
    fold_left (fun acc hand => acc + handPenalty hand) hands totalPenalty in
  Rmax 0 totalPenalty.

End Friction.

Definition sumX (l : list LimbVal) : R :=
  fold_left (fun sum v => sum + x (pos v)) l 0.

Definition calculateStability (state : ClimberState) (holdList : list Hold)
    (wallAngle : R) (realismMode : bool) : R :=
  let activeLimbs := nonNull (values (limbs state)) in
  if Nat.eqb (List.length activeLimbs) 0 then 0
  else
    let velocityMag :=
      sqrt (x (velocity state) ^ 2 + y (velocity state) ^ 2) in
    let dynamicFactor := 1 / (1 + velocityMag * 3) in
    let supportX := sumX activeLimbs / len activeLimbs in
    let BODY_WEIGHT := 0.6 in
    let LIMB_WEIGHT := 0.1 in
    let comX := x (centerOfMass state) in
    let '(systemMomentX, totalWeight) :=
      fold_left
        (fun '(moment, weight) '(limbName, val) =>
           let lx :=
             match val with
             | Some v => x (pos v)
             | None =>
                 match limbName with
                 | leftHand => comX + (- 6)
                 | rightHand => comX + 6
                 | _ => comX
                 end
             end in
           (moment + lx * LIMB_WEIGHT, weight + LIMB_WEIGHT))
        (entries (limbs state)) (comX * BODY_WEIGHT, BODY_WEIGHT) in
    let systemCOM_X := systemMomentX / totalWeight in
    let deviation := Rabs (systemCOM_X - supportX) in
    let deviation :=
      if wallAngle >? 0 then
        let hands := nonNull [lh (limbs state); rh (limbs state)] in
        let feet := nonNull [lf (limbs state); rf (limbs state)] in
        match hands with
        | [hand] =>
            let footSpread :=
              match feet with
              | [] => 0
              | f0 :: _ => Rabs (x (pos f0) - x (pos (last feet f0)))
              end in
            let isMovingSideways := Rabs (x (velocity state)) >? 0.1 in
            let deviation :=
              if (footSpread <? 10) && isMovingSideways
              then deviation * (if realismMode then 4 else 3)
              else deviation in
            let swingDist := Rabs (x (pos hand) - systemCOM_X) in
            deviation + swingDist * (if realismMode then 2 else 1.5)
        | _ => deviation
        end
      else deviation in
    let deviation :=
      if wallAngle <? 0 then
        let feet := nonNull [lf (limbs state); rf (limbs state)] in
        if Nat.ltb 0 (List.length feet) then
          let avgFootX := sumX feet / len feet in
          let slabDeviation := Rabs (systemCOM_X - avgFootX) in
          deviation * 0.5 + slabDeviation * 2.5
        else deviation
      else deviation in
    let deviation := deviation * dynamicFactor in
    let lateralVelocity := Rabs (x (velocity state)) in
    let swingPenalty := lateralVelocity * (if wallAngle >? 0 then 25 else 10) in
    let frictionPenalty :=
      getFrictionPenalty state holdList wallAngle realismMode in
    let score := frictionPenalty + swingPenalty + deviation * 2.5 in
    Rmin 100 (Rmax 0 score).

(** [applyConstraint]: [val] is the limb value or [null]. *)
Definition applyConstraint (currentCOM : Point) (val : option LimbVal)
    (maxLen : R) (offsetFromCOM : Point) (minLen : R) : Point :=
  match val with
  | None => currentCOM
  | Some v =>
      let anchorX := x currentCOM + x offsetFromCOM in
      let anchorY := y currentCOM + y offsetFromCOM in
      let dx := x (pos v) - anchorX in
      let dy := y (pos v) - anchorY in
      let dist := sqrt (dx * dx + dy * dy) in
      if dist >? maxLen then
        let scale := maxLen / dist in
        let targetAnchorX := x (pos v) - dx * scale in
        let targetAnchorY := y (pos v) - dy * scale in
        mkPoint (targetAnchorX - x offsetFromCOM)
                (targetAnchorY - y offsetFromCOM)
      else if (dist <? minLen) && (dist >? 0.1) then
        let scale := minLen / dist in
        let targetAnchorX := x (pos v) - dx * scale in
        let targetAnchorY := y (pos v) - dy * scale in
        mkPoint (targetAnchorX - x offsetFromCOM)
                (targetAnchorY - y offsetFromCOM)
      else currentCOM
  end.

(** The fixed anchor offsets of the four limbs, as written at each call. *)
Definition anchorOffset (l : Limb) : Point :=
  match l with
  | leftHand => mkPoint (- ANATOMY.shoulderWidth / 2) (- ANATOMY.torsoHeight * 0.85)
  | rightHand => mkPoint (ANATOMY.shoulderWidth / 2) (- ANATOMY.torsoHeight * 0.85)
  | leftFoot => mkPoint (- ANATOMY.hipWidth / 2) 1.5
  | rightFoot => mkPoint (ANATOMY.hipWidth / 2) 1.5
  end.

Definition HAND_REACH : R := MAX_REACH.hand * 0.99.
Definition FOOT_REACH : R := MAX_REACH.foot * 0.99.
Definition MIN_COMPRESSION : R := 3.

(** One pass of the [for] loop body: the four limbs in source order. *)
Definition constrainPass (ls : Limbs) (result : Point) : Point :=
  let result := applyConstraint result (lh ls) HAND_REACH (anchorOffset leftHand) MIN_COMPRESSION in
  let result := applyConstraint result (rh ls) HAND_REACH (anchorOffset rightHand) MIN_COMPRESSION in
  let result := applyConstraint result (lf ls) FOOT_REACH (anchorOffset leftFoot) MIN_COMPRESSION in
  let result := applyConstraint result (rf ls) FOOT_REACH (anchorOffset rightFoot) MIN_COMPRESSION in
  result.

Definition ITERATIONS : nat := 4.

Definition constrainBodyPosition (proposedCOM : Point) (ls : Limbs)
    (holdList : list Hold) : Point :=
  Nat.iter ITERATIONS (constrainPass ls) proposedCOM.

(** *** solveIK

    The result is [None] when the computation would go through a non-finite
    number: a division by zero or [Math.acos] outside [-1,1].  The guard
    [!p1 || !p2 || isNaN(p1.x) || isNaN(p2.x)] of the source never fires on
    points with real coordinates. *)

Definition bind {A B} (m : option A) (k : A -> option B) : option B :=
  match m with Some a => k a | None => None end.

Notation "v <- m ;; k" := (bind m (fun v => k))
  (at level 61, m at next level, right associativity).

Definition divF (a b : R) : option R :=
  if b =? 0 then None else Some (a / b).

Definition acosF (c : R) : option R :=
  if (-1 <=? c) && (c <=? 1) then Some (acos c) else None.

Definition solveIK (p1 p2 : Point) (length1 length2 : R) (bendRight : bool)
  : option Point :=
  let dist := calculateDistance p1 p2 in
  if dist >=? length1 + length2 - 0.1 then
    ratio <- divF length1 (length1 + length2) ;;
    Some (mkPoint (x p1 + (x p2 - x p1) * ratio)
                  (y p1 + (y p2 - y p1) * ratio))
  else
    let safeDist := Rmax dist 1 in
    q <- divF (safeDist * safeDist + length1 * length1 - length2 * length2)
              (2 * safeDist * length1) ;;
    let cosAngle := Rmax (-1) (Rmin 1 q) in
    angle <- acosF cosAngle ;;
    let baseAngle := Num.atan2 (y p2 - y p1) (x p2 - x p1) in
    let totalAngle := if bendRight then baseAngle + angle else baseAngle - angle in
    Some (mkPoint (x p1 + cos totalAngle * length1)
                  (y p1 + sin totalAngle * length1)).

(** ** App.tsx: the frame loop and the limb-placement handler *)

Definition set_limbs (s : ClimberState) (v : Limbs) : ClimberState :=
  mkClimber v (stamina s) (armPump s) (chalk s) (balance s) (status s)
            (centerOfMass s) (velocity s).
Definition set_stamina (s : ClimberState) (v : R) : ClimberState :=
  mkClimber (limbs s) v (armPump s) (chalk s) (balance s) (status s)
            (centerOfMass s) (velocity s).
Definition set_armPump (s : ClimberState) (v : ArmPump) : ClimberState :=
  mkClimber (limbs s) (stamina s) v (chalk s) (balance s) (status s)
            (centerOfMass s) (velocity s).
Definition set_chalk (s : ClimberState) (v : R) : ClimberState :=
  mkClimber (limbs s) (stamina s) (armPump s) v (balance s) (status s)
            (centerOfMass s) (velocity s).
Definition set_balance (s : ClimberState) (v : R) : ClimberState :=
  mkClimber (limbs s) (stamina s) (armPump s) (chalk s) v (status s)
            (centerOfMass s) (velocity s).
Definition set_status (s : ClimberState) (v : Status) : ClimberState :=
  mkClimber (limbs s) (stamina s) (armPump s) (chalk s) (balance s) v
            (centerOfMass s) (velocity s).
Definition set_centerOfMass (s : ClimberState) (v : Point) : ClimberState :=
  mkClimber (limbs s) (stamina s) (armPump s) (chalk s) (balance s) (status s)
            v (velocity s).
Definition set_velocity (s : ClimberState) (v : Point) : ClimberState :=
  mkClimber (limbs s) (stamina s) (armPump s) (chalk s) (balance s) (status s)
            (centerOfMass s) v.
Definition set_comX (s : ClimberState) (v : R) : ClimberState :=
  set_centerOfMass s (mkPoint v (y (centerOfMass s))).
Definition set_comY (s : ClimberState) (v : R) : ClimberState :=
  set_centerOfMass s (mkPoint (x (centerOfMass s)) v).

(** What the effect closes over: the level and the three mode flags. *)
Record Env := mkEnv {
  level : Level;
  infiniteStamina : bool;
  realismMode : bool;
  isUserDragging : bool
}.

(** The climber together with the refs and the flag the updater writes. *)
Record Sim := mkSim {
  climber : ClimberState;
  staminaAccumulator : R;
  prevCOM : Point;
  isSlipping : bool
}.

Definition getGroundY (lvl : Level) : R :=
  match height lvl with
  | Some h => Num.orElse h 100
  | None => 100
  end.

Definition getStartCom (lvl : Level) : Point :=
  mkPoint 50 (getGroundY lvl - 14).

Definition getStartLimbs (lvl : Level) : Limbs :=
  mkLimbs None None
          (Some (OnPoint (mkPoint 46 (getGroundY lvl))))
          (Some (OnPoint (mkPoint 54 (getGroundY lvl)))).

Definition initialClimber (lvl : Level) : ClimberState :=
  mkClimber (getStartLimbs lvl) INITIAL_STAMINA (mkPump 0 0) INITIAL_CHALK 0
            idle (getStartCom lvl) (mkPoint 0 0).

(** [level.angle || 0] *)
Definition wallAngleOf (lvl : Level) : R := Num.orElse (angle lvl) 0.

Definition handCount (ls : Limbs) : nat :=
  List.length (filter isAttached [lh ls; rh ls]).

Section Tick.

Variable env : Env.
Variable safeDt : R.

Let lvl := level env.
Let groundY := getGroundY (level env).

(** --- 0. Falling Physics --- *)
Definition fallingPhysics (s : ClimberState) : ClimberState :=
  let s := set_limbs s noLimbs in
  if y (centerOfMass s) <? groundY - 5 then
    let s := set_comY s (y (centerOfMass s) + 1.5) in
    let s := set_comX s (x (centerOfMass s) + x (velocity s) * 0.95) in
    let s := if x (centerOfMass s) <? 0 then set_comX s 0 else s in
    let s := if x (centerOfMass s) >? 100 then set_comX s 100 else s in
    s
  else
    let s := set_status s idle in
    let s := set_comY s (groundY - 14) in
    let s := set_limbs s (getStartLimbs lvl) in
    let s := set_stamina s 50 in
    s.

(** --- Check if Standing on Ground --- (the branch taken when grounded
    and not dragging) *)
Definition groundedStep (s : ClimberState) : ClimberState :=
  let vx := x (velocity s) in
  let vy := y (velocity s) in
  let s := set_balance s 0 in
  let s := set_stamina s (Rmin 100 (stamina s + 0.5)) in
  let s := set_armPump s (mkPump 0 0) in
  let s := if negb (Status_eqb (status s) idle) then set_status s idle else s in
  let s :=
    if (vx =? 0) && (vy =? 0)
    then set_comY s (y (centerOfMass s) * 0.9 + (groundY - 14) * 0.1)
    else s in
  let s :=
    if y (centerOfMass s) >? groundY - 12 then set_comY s (groundY - 12) else s in
  let s :=
    match lf (limbs s) with
    | None =>
        set_limbs s (limb_set (limbs s) leftFoot
          (Some (OnPoint (mkPoint (x (centerOfMass s) - 4) groundY))))
    | Some _ => s
    end in
  let s :=
    match rf (limbs s) with
    | None =>
        set_limbs s (limb_set (limbs s) rightFoot
          (Some (OnPoint (mkPoint (x (centerOfMass s) + 4) groundY))))
    | Some _ => s
    end in
  s.

(** The closure [checkAndDetach] over [nextLimbs] and [proposedCOM]. *)
Definition checkAndDetach (proposedCOM : Point) (nextLimbs : Limbs)
    (limb : Limb) (offset : Point) (maxR : R) : Limbs :=
  match limb_get nextLimbs limb with
  | Some v =>
      let anchor := mkPoint (x proposedCOM + x offset) (y proposedCOM + y offset) in
      if calculateDistance anchor (pos v) >? maxR * 1.05
      then limb_set nextLimbs limb None
      else nextLimbs
  | None => nextLimbs
  end.

Definition sumY (l : list LimbVal) : R :=
  fold_left (fun sum v => sum + y (pos v)) l 0.

(** --- 1. Climbing Physics --- (the body of [if (!isUserDragging)]) *)
Definition proposeCOM (s : ClimberState) : Point :=
  let vx := x (velocity s) in
  let vy := y (velocity s) in
  let gravity := 0.2 in
  let damping := 0.92 in
  let activeFootLimbs := nonNull [lf (limbs s); rf (limbs s)] in
  let gravity :=
    if Nat.ltb 0 (List.length activeFootLimbs) then
      let avgFootY := sumY activeFootLimbs / len activeFootLimbs in
      if y (centerOfMass s) <? avgFootY + 5 then
        let angleRad := wallAngleOf lvl * (PI / 180) in
        let gravity := 0.2 * sin angleRad in
        if angle lvl <? 0 then 0.05 else gravity
      else gravity
    else gravity in
  let '(gravity, damping) :=
    if Nat.ltb 0 (handCount (limbs s)) && (stamina s >? 5) then
      let velocityMag := sqrt (vx * vx + vy * vy) in
      if velocityMag <? 1 then
        let muscleStrength := Rmin 1 (stamina s / 20) in
        (gravity * (1 - 0.9 * muscleStrength),
         0.92 * (1 - 0.15 * muscleStrength))
      else (gravity, damping)
    else (gravity, damping) in
  mkPoint (x (centerOfMass s) + x (velocity s) * damping)
          (y (centerOfMass s) + y (velocity s) * damping + gravity).

Definition autoDetach (proposedCOM : Point) (ls : Limbs) : Limbs :=
  let nextLimbs := ls in
  let nextLimbs := checkAndDetach proposedCOM nextLimbs leftHand
                     (anchorOffset leftHand) MAX_REACH.hand in
  let nextLimbs := checkAndDetach proposedCOM nextLimbs rightHand
                     (anchorOffset rightHand) MAX_REACH.hand in
  let nextLimbs := checkAndDetach proposedCOM nextLimbs leftFoot
                     (anchorOffset leftFoot) MAX_REACH.foot in
  let nextLimbs := checkAndDetach proposedCOM nextLimbs rightFoot
                     (anchorOffset rightFoot) MAX_REACH.foot in
  nextLimbs.

Definition climbingPhysics (s : ClimberState) : ClimberState :=
  let proposedCOM := proposeCOM s in
  let s := set_limbs s (autoDetach proposedCOM (limbs s)) in
  set_centerOfMass s (constrainBodyPosition proposedCOM (limbs s) (holds lvl)).

(** The body run when the drain interval triggers. *)
Definition drainStep (s : ClimberState) : ClimberState * bool :=
  let wallAngle := wallAngleOf lvl in
  let balanceScore := calculateStability s (holds lvl) wallAngle (realismMode env) in
  let s := set_balance s balanceScore in
  let frictionPenalty := getFrictionPenalty s (holds lvl) wallAngle (realismMode env) in
  let slipThreshold := if realismMode env then 15 else 20 in
  let slipping := frictionPenalty >? slipThreshold in
  let s :=
    if (balanceScore >=? 100) && negb (infiniteStamina env) then
      let s := set_balance s 100 in
      let s := set_status s falling in
      set_limbs s noLimbs
    else s in
  let drains := calculateTickDrain s (holds lvl) HOLD_STAMINA_DRAIN wallAngle
                                   (realismMode env) in
  let s :=
    if negb (infiniteStamina env) then
      let s := set_stamina s (Rmax 0 (stamina s - core drains)) in
      let s := set_armPump s
                 (mkPump (Rmax 0 (Rmin 100 (left (armPump s) + leftPump drains)))
                         (Rmax 0 (Rmin 100 (right (armPump s) + rightPump drains)))) in
      let s := set_chalk s (Rmax 0 (chalk s - 0.02)) in
      let s := if left (armPump s) >=? 100
               then set_limbs s (limb_set (limbs s) leftHand None) else s in
      let s := if right (armPump s) >=? 100
               then set_limbs s (limb_set (limbs s) rightHand None) else s in
      if stamina s <=? 0 then
        let s := set_status s falling in
        set_limbs s noLimbs
      else s
    else s in
  (s, slipping).

(** --- 2. Game Logic (Stamina & Balance) --- *)
Definition gameLogic (sim : Sim) : Sim :=
  let s := climber sim in
  if Status_eqb (status s) climbing && negb (isUserDragging env) then
    let acc := staminaAccumulator sim + safeDt in
    if acc >? 100 then
      let '(s, slipping) := drainStep s in
      mkSim s 0 (prevCOM sim) slipping
    else mkSim s acc (prevCOM sim) (isSlipping sim)
  else
    mkSim (set_balance s 0) (staminaAccumulator sim) (prevCOM sim) false.

(** --- 3. Check Fall --- *)
Definition checkFall (s : ClimberState) : ClimberState :=
  if negb (isUserDragging env) && Nat.eqb (handCount (limbs s)) 0
     && (y (centerOfMass s) <? groundY - 18)
  then
    let s := set_comY s (y (centerOfMass s) + 1) in
    if Status_eqb (status s) climbing then
      let s := set_status s falling in
      set_limbs s noLimbs
    else s
  else s.

(** The updater passed to [setClimber] when [safeDt > 0]. *)
Definition isGrounded (s : ClimberState) : bool :=
  y (centerOfMass s) >=? groundY - 16.

Definition updater (sim : Sim) : Sim :=
  let prev := climber sim in
  let vx := (x (centerOfMass prev) - x (prevCOM sim)) * (16 / safeDt) in
  let vy := (y (centerOfMass prev) - y (prevCOM sim)) * (16 / safeDt) in
  let nextState := set_velocity prev (mkPoint vx vy) in
  let sim := mkSim nextState (staminaAccumulator sim) (centerOfMass prev)
                   (isSlipping sim) in
  if Status_eqb (status nextState) falling then
    mkSim (fallingPhysics nextState) (staminaAccumulator sim) (prevCOM sim)
          (isSlipping sim)
  else if isGrounded nextState && negb (isUserDragging env) then
    mkSim (groundedStep nextState) (staminaAccumulator sim) (prevCOM sim) false
  else
    let nextState :=
      if negb (isUserDragging env) then climbingPhysics nextState
      else nextState in
    let sim := gameLogic (mkSim nextState (staminaAccumulator sim)
                                (prevCOM sim) (isSlipping sim)) in
    mkSim (checkFall (climber sim)) (staminaAccumulator sim) (prevCOM sim)
          (isSlipping sim).

End Tick.

(** One animation frame: [dt] is [time - lastTime]. *)
Definition loop (env : Env) (dt : R) (sim : Sim) : Sim :=
  let safeDt := Rmin dt 50 in
  if safeDt >? 0 then updater env safeDt sim else sim.

(** [handlePlaceLimb(val, limb)] *)
Definition handlePlaceLimb (lvl : Level) (val : option LimbVal) (limb : Limb)
    (prev : ClimberState) : ClimberState :=
  let nextLimbs := limb_set (limbs prev) limb val in
  let st := status prev in
  let lhVal := match limb with leftHand => val | _ => lh nextLimbs end in
  let rhVal := match limb with rightHand => val | _ => rh nextLimbs end in
  let st :=
    match lhVal, rhVal with
    | Some (OnHold _ lhId), Some (OnHold _ rhId) =>
        match findHold (holds lvl) lhId, findHold (holds lvl) rhId with
        | Some lhHold, Some rhHold =>
            match type lhHold, type rhHold with
            | finish, finish => topped
            | _, _ => st
            end
        | _, _ => st
        end
    | _, _ => st
    end in
  let st :=
    if Status_eqb st idle
       && (isAttached val || match val with Some _ => true | None => false end)
    then climbing else st in
  set_status (set_limbs prev nextLimbs) st.

(** [handleUpdateCOM] *)
Definition handleUpdateCOM (newCOM : Point) (prev : ClimberState) : ClimberState :=
  set_centerOfMass prev newCOM.

(** The updater of the chalk key handler; it is installed for a climbing
    climber. *)
Definition chalkUp (prev : ClimberState) : ClimberState :=
  if chalk prev >=? 100 then prev
  else set_stamina (set_chalk prev (Rmin 100 (chalk prev + 5)))
                   (Rmax 0 (stamina prev - 1)).

(** ** Reachable simulations

    The climber starts from the reset pose and is changed only by animation
    frames, limb placements, centre-of-mass drags, chalking up and resets.
    The level and the mode flags may differ from one event to the next. *)

Definition with_climber (sim : Sim) (c : ClimberState) : Sim :=
  mkSim c (staminaAccumulator sim) (prevCOM sim) (isSlipping sim).

Inductive reachable : Sim -> Prop :=
| reach_init lvl :
    reachable (mkSim (initialClimber lvl) 0 (getStartCom lvl) false)
| reach_reset lvl sim :
    reachable sim ->
    reachable (mkSim (initialClimber lvl) (staminaAccumulator sim)
                     (getStartCom lvl) false)
| reach_tick env dt sim :
    reachable sim -> reachable (loop env dt sim)
| reach_place lvl val limb sim :
    reachable sim ->
    reachable (with_climber sim (handlePlaceLimb lvl val limb (climber sim)))
| reach_drag newCOM sim :
    reachable sim ->
    reachable (with_climber sim (handleUpdateCOM newCOM (climber sim)))
| reach_chalk sim :
    reachable sim ->
    reachable (with_climber sim (chalkUp (climber sim))).

(** ** Concrete inputs used below *)

Definition lvl0 : Level := mkLevel [] 0 None.
Definition envPlay : Env := mkEnv lvl0 false false false.

(** From the reset pose: a foot is placed (the climb starts), both feet are
    lifted, the body is dragged up to [y = 10] and released. *)
Definition simAirborne : Sim :=
  let sim := mkSim (initialClimber lvl0) 0 (getStartCom lvl0) false in
  let sim := with_climber sim
    (handlePlaceLimb lvl0 (Some (OnPoint (mkPoint 46 100))) leftFoot (climber sim)) in
  let sim := with_climber sim (handlePlaceLimb lvl0 None leftFoot (climber sim)) in
  let sim := with_climber sim (handlePlaceLimb lvl0 None rightFoot (climber sim)) in
  with_climber sim (handleUpdateCOM (mkPoint 50 10) (climber sim)).

(** The next frame finds no hand on the wall: the climber falls.  A foot
    placed during the fall stays in [limbs]. *)
Definition simFallingWithFoot : Sim :=
  let sim := loop envPlay 16 simAirborne in
  with_climber sim
    (handlePlaceLimb lvl0 (Some (OnPoint (mkPoint 50 (-50)))) leftFoot (climber sim)).

(** A level whose two finish holds are within reach of a standing climber,
    and a climber who topped it from the ground with some stamina spent. *)
Definition lvlLowFinish : Level :=
  mkLevel [mkHold "f1" 45 75 finish 0; mkHold "f2" 55 75 finish 0] 0 None.

Definition simToppedStanding : Sim :=
  mkSim (mkClimber
           (mkLimbs (Some (OnHold (mkPoint 45 75) "f1"))
                    (Some (OnHold (mkPoint 55 75) "f2"))
                    (Some (OnPoint (mkPoint 46 100)))
                    (Some (OnPoint (mkPoint 54 100))))
           90 (mkPump 20 20) 80 0 topped (mkPoint 50 86) (mkPoint 0 0))
        0 (mkPoint 50 86) false.

(** ** Auxiliary definitions for the statements *)

(** What [getFrictionPenalty] accumulates after the chalk term: the feet
    analysis and the hand directionality loop, started from 0. *)
Definition supportPenalty (state : ClimberState) (holdList : list Hold)
    (wallAngle : R) (realism : bool) : R :=
  let feet := nonNull [lf (limbs state); rf (limbs state)] in
  let hands := nonNull [lh (limbs state); rh (limbs state)] in
  (if Nat.eqb (List.length feet) 0 then
     if Nat.ltb 0 (List.length hands) then
       (if wallAngle <? 0 then 150 else 30) + Rmax 0 (wallAngle - 10) * 0.8
     else 0
   else fold_left (fun acc foot =>
                     acc + footPenalty holdList wallAngle realism foot) feet 0)
  + fold_left (fun acc hand =>
                 acc + handPenalty state holdList realism hand) hands 0.

(** The limbs invariant of a falling climber. *)
Definition detachedWhenFalling (s : ClimberState) : Prop :=
  status s = falling -> limbs s = noLimbs.

(** The four clamped fields of a climber. *)
Definition within (v : R) : Prop := 0 <= v <= 100.

Definition clamped (s : ClimberState) : Prop :=
  within (stamina s) /\ within (chalk s)
  /\ within (left (armPump s)) /\ within (right (armPump s))
  /\ within (balance s).

(** The velocity a frame derives, and the climber the drain interval looks
    at when the user is not dragging: the state after the climbing physics
    of that frame. *)
Definition frameVelocity (safeDt : R) (sim : Sim) : Point :=
  mkPoint ((x (centerOfMass (climber sim)) - x (prevCOM sim)) * (16 / safeDt))
          ((y (centerOfMass (climber sim)) - y (prevCOM sim)) * (16 / safeDt)).

Definition drainInput (env : Env) (safeDt : R) (sim : Sim) : ClimberState :=
  climbingPhysics env (set_velocity (climber sim) (frameVelocity safeDt sim)).

(** A slab with one jug, and a climber hanging from it by the left hand with
    both feet off the wall; the drain interval is about to trigger. *)
Definition lvlSlab : Level :=
  mkLevel [mkHold "j1" 46.75 35.67 jug 0] (-10) None.

Definition simCampus : Sim :=
  mkSim (mkClimber
           (mkLimbs (Some (OnHold (mkPoint 46.75 35.67) "j1")) None None None)
           100 (mkPump 0 0) 100 0 climbing (mkPoint 50 50) (mkPoint 0 0))
        90 (mkPoint 50 50) false.

(** The shoulder or hip of a limb for a given centre of mass, its reach, and
    the limb the constraint loop handles last among those that are placed. *)
Definition anchorOf (c : Point) (l : Limb) : Point :=
  mkPoint (x c + x (anchorOffset l)) (y c + y (anchorOffset l)).

Definition maxReachOf (l : Limb) : R :=
  match l with
  | leftHand | rightHand => MAX_REACH.hand
  | leftFoot | rightFoot => MAX_REACH.foot
  end.

Definition lastPlaced (ls : Limbs) : option Limb :=
  match rf ls, lf ls, rh ls, lh ls with
  | Some _, _, _, _ => Some rightFoot
  | None, Some _, _, _ => Some leftFoot
  | None, None, Some _, _ => Some rightHand
  | None, None, None, Some _ => Some leftHand
  | None, None, None, None => None
  end.

(** Two hands on holds 40 units apart at shoulder height: further apart
    than two arms and the shoulders span. *)
Definition limbsWide : Limbs :=
  mkLimbs (Some (OnHold (mkPoint 30 40.65) "a"))
          (Some (OnHold (mkPoint 70 40.65) "b")) None None.

(** A climber whose only placed limb is a left hand attached to a hold that
    is not in the (empty) hold list, and the same climber with that hand
    detached. *)
Definition sDangling : ClimberState :=
  mkClimber (mkLimbs (Some (OnHold (mkPoint 30 40.65) "gone")) None None None)
            100 (mkPump 0 0) 100 0 climbing (mkPoint 50 50) (mkPoint 0 0).


(** [dist] as [applyConstraint] computes it: the length of the vector from
    the limb's anchor to the limb. *)
Definition anchorDist (c : Point) (v : LimbVal) (off : Point) : R :=
  sqrt ((x (pos v) - (x c + x off)) * (x (pos v) - (x c + x off))
        + (y (pos v) - (y c + y off)) * (y (pos v) - (y c + y off))).

(** The reach passed to [applyConstraint] for each limb. *)
Definition reachOf (l : Limb) : R :=
  match l with
  | leftHand | rightHand => HAND_REACH
  | leftFoot | rightFoot => FOOT_REACH
  end.

(** The test of the shake-out branch of [calculateArmPump]. *)
Definition shakeOut (s : ClimberState) (hold : Hold) (wallAngle : R) : bool :=
  (match type hold with jug | start | finish => true | _ => false end)
  && (balance s <? 40) && (wallAngle <? 30).

(** A climber with the feet replaced. *)
Definition withFeet (s : ClimberState) (f1 f2 : option LimbVal) : ClimberState :=
  set_limbs s (mkLimbs (lh (limbs s)) (rh (limbs s)) f1 f2).

(** A limb value after a step that can only release it. *)
Definition keptOrLost (before after : option LimbVal) : Prop :=
  after = before \/ after = None.

(** The climber is standing: the test [isGrounded] of the frame. *)
Definition standing (env : Env) (s : ClimberState) : Prop :=
  getGroundY (level env) - 16 <= y (centerOfMass s).

(** The climber of [simCampus] with no stamina left. *)
Definition simExhausted : Sim :=
  with_climber simCampus (set_stamina (climber simCampus) 0).

(** The test [handlePlaceLimb] makes on each hand: attached to a hold that
    is found in the level and is a finish hold. *)
Definition onFinish (lvl : Level) (v : option LimbVal) : bool :=
  match v with
  | Some (OnHold _ holdId) =>
      match findHold (holds lvl) holdId with
      | Some h => match type h with finish => true | _ => false end
      | None => false
      end
  | _ => false
  end.

(** ** components/BoulderingWall.tsx: releasing a dragged limb

    [handleMouseUp] reads the pointer position [p], the level and the
    climber it was rendered with, and calls [onPlaceLimb] (the handler
    [handlePlaceLimb] of App.tsx) with the limb value it computes. *)

(** [dragTarget]: ['COM'], a limb name or [null] (here [None]). *)
Inductive DragTarget := DragCOM | DragLimb (l : Limb).

(** [dragTarget.includes('Hand')] *)
Definition isHand (l : Limb) : bool :=
  match l with leftHand | rightHand => true | _ => false end.

(** [origin] and [maxLen] of [handleMouseUp] *)
Definition releaseOrigin (com : Point) (dragTarget : Limb) : Point :=
  if isHand dragTarget then
    mkPoint (match dragTarget with
             | leftHand => x com - ANATOMY.shoulderWidth / 2
             | _ => x com + ANATOMY.shoulderWidth / 2
             end)
            (y com - ANATOMY.torsoHeight * 0.85)
  else
    mkPoint (match dragTarget with
             | leftFoot => x com - ANATOMY.hipWidth / 2
             | _ => x com + ANATOMY.hipWidth / 2
             end)
            (y com + 1.5).

Definition releaseMaxLen (dragTarget : Limb) : R :=
  if isHand dragTarget then MAX_REACH.hand else MAX_REACH.foot.

Definition holdCentre (h : Hold) : Point := mkPoint (hx h) (hy h).

(** [level.holds.find(h => calculateDistance(p, {x: h.x, y: h.y}) < 6)] *)
Definition closestHold (hs : list Hold) (p : Point) : option Hold :=
  find (fun h => calculateDistance p (holdCentre h) <? 6) hs.

Definition holdRadius (h : Hold) : R :=
  match type h with volume => 5 | jug => 3 | _ => 2 end.

(** The value [handleMouseUp] passes to [onPlaceLimb] for a dragged limb. *)
Definition releasedLimb (lvl : Level) (com : Point) (dragTarget : Limb)
    (p : Point) : option LimbVal :=
  let origin := releaseOrigin com dragTarget in
  let maxLen := releaseMaxLen dragTarget in
  match closestHold (holds lvl) p with
  | Some closest =>
      let dx := x p - hx closest in
      let dy := y p - hy closest in
      let dist := sqrt (dx * dx + dy * dy) in
      let targetPoint :=
        if dist >? holdRadius closest then
          let ratio := holdRadius closest / dist in
          mkPoint (hx closest + dx * ratio) (hy closest + dy * ratio)
        else mkPoint (x p) (y p) in
      if isReachable origin targetPoint (maxLen * 1.2)
      then Some (OnHold targetPoint (id closest))
      else None
  | None =>
      if negb (isHand dragTarget) && isReachable origin (mkPoint (x p) (y p)) maxLen
      then Some (OnPoint (mkPoint (x p) (y p)))
      else None
  end.

(** [handleMouseUp], as the update of the climber it causes; the component
    is rendered with the climber the update is applied to. *)
Definition handleMouseUp (lvl : Level) (dragTarget : option DragTarget)
    (p : Point) (prev : ClimberState) : ClimberState :=
  match dragTarget with
  | Some (DragLimb l) =>
      handlePlaceLimb lvl (releasedLimb lvl (centerOfMass prev) l p) l prev
  | _ => prev
  end.

(** What a released limb may end up as: on a hold within 6 of the pointer,
    at a point of the hold's disc and within 1.2 times the limb's length of
    its anchor; or, for a foot only, smearing at the pointer, with no hold
    within 6 of it, within the limb's length of its anchor; or free. *)
Definition wellPlaced (lvl : Level) (com : Point) (l : Limb) (p : Point)
    (v : option LimbVal) : Prop :=
  match v with
  | Some (OnHold q holdId) =>
      exists h, In h (holds lvl) /\ id h = holdId
        /\ calculateDistance p (holdCentre h) < 6
        /\ calculateDistance (holdCentre h) q <= holdRadius h
        /\ (calculateDistance p (holdCentre h) <= holdRadius h -> q = p)
        /\ calculateDistance (anchorOf com l) q <= maxReachOf l * 1.2
  | Some (OnPoint q) =>
      isHand l = false /\ q = p
      /\ (forall h, In h (holds lvl) -> 6 <= calculateDistance p (holdCentre h))
      /\ calculateDistance (anchorOf com l) p <= maxReachOf l
  | None => True
  end.

(** ** components/BoulderingWall.tsx: dragging the body or a limb *)

(** [Object.values(climberState.limbs).filter(isAttached).length] *)
Definition attachedCount (ls : Limbs) : nat :=
  List.length (filter isAttached (values ls)).

(** [handleBodyDragStart]: the new [dragTarget] and [dragOffset], or [None]
    when the handler returns without starting a drag. *)
Definition handleBodyDragStart (lvl : Level) (isEditorMode : bool) (p : Point)
    (climberState : ClimberState) : option (DragTarget * Point) :=
  if isEditorMode || Status_eqb (status climberState) topped
     || Status_eqb (status climberState) falling
  then None
  else
    let groundY := getGroundY lvl - 14 in
    let isGrounded := y (centerOfMass climberState) >=? groundY - 2 in
    if Nat.eqb (attachedCount (limbs climberState)) 0 && negb isGrounded
    then None
    else
      let com := centerOfMass climberState in
      Some (DragCOM, mkPoint (x com - x p) (y com - y p)).

(** The auto-detach test of a body drag, for one entry of [limbs]. *)
Definition pulledOff (com : Point) (entry : Limb * option LimbVal) : bool :=
  match entry with
  | (limb, Some (OnHold q _)) =>
      let anchorPos := mkPoint (x com + x (anchorOffset limb))
                               (y com + y (anchorOffset limb)) in
      calculateDistance anchorPos (mkPoint (x q) (y q)) >? maxReachOf limb * 1.05
  | _ => false
  end.

(** [handleMouseMove]: the climber after the updates the handler issues
    ([onPlaceLimb(null, limb)] for each limb pulled off, then [onUpdateCOM]),
    and the [dragTarget] it leaves. *)
Definition handleMouseMove (lvl : Level) (dragTarget : option DragTarget)
    (dragOffset p : Point) (climberState : ClimberState)
  : ClimberState * option DragTarget :=
  match dragTarget with
  | None => (climberState, None)
  | Some DragCOM =>
      let floorY := getGroundY lvl in
      if Nat.eqb (attachedCount (limbs climberState)) 0 then
        if y (centerOfMass climberState) <? floorY - 16 then
          (climberState, None)
        else
          let standingHeight := floorY - 14 in
          let walkCOM := mkPoint (x p + x dragOffset) standingHeight in
          let walkCOM :=
            constrainBodyPosition walkCOM (limbs climberState) (holds lvl) in
          let walkCOM := mkPoint (x walkCOM) standingHeight in
          (handleUpdateCOM walkCOM climberState, Some DragCOM)
      else
        let com := mkPoint (x p + x dragOffset) (y p + y dragOffset) in
        let released :=
          fold_left
            (fun s entry =>
               if pulledOff com entry
               then handlePlaceLimb lvl None (fst entry) s else s)
            (entries (limbs climberState)) climberState in
        let constrainedCOM :=
          constrainBodyPosition com (limbs climberState) (holds lvl) in
        (handleUpdateCOM constrainedCOM released, Some DragCOM)
  | Some (DragLimb limb) =>
      let com := centerOfMass climberState in
      let anchorOffset := anchorOffset limb in
      let maxLen := maxReachOf limb in
      let anchorPos := mkPoint (x com + x anchorOffset) (y com + y anchorOffset) in
      let dist := calculateDistance anchorPos p in
      let PULL_THRESHOLD := 0.9 in
      let pullLimit := maxLen * PULL_THRESHOLD in
      if dist >? pullLimit then
        let dx := x anchorPos - x p in
        let dy := y anchorPos - y p in
        let currentDist := sqrt (dx * dx + dy * dy) in
        let ratio := pullLimit / currentDist in
        let newAnchorX := x p + dx * ratio in
        let newAnchorY := y p + dy * ratio in
        let newCOM := mkPoint (newAnchorX - x anchorOffset)
                              (newAnchorY - y anchorOffset) in
        let draggingLimbsOverride :=
          limb_set (limbs climberState) limb
                   (Some (OnPoint (mkPoint (x p) (y p)))) in
        let newCOM :=
          constrainBodyPosition newCOM draggingLimbsOverride (holds lvl) in
        (handleUpdateCOM newCOM climberState, Some (DragLimb limb))
      else (climberState, Some (DragLimb limb))
  end.

(** ** App.tsx: the level editor

    The updaters passed to [setLevel].  [newId] stands for the identifier
    drawn by [Math.random().toString(36).substr(2, 9)]; the colour of a hold
    is not part of [Hold] here. *)
Definition handleEditorCanvasClick (newId : string) (x y : R)
    (editorTool : HoldType) (prev : Level) : Level :=
  let newHold := mkHold newId x y editorTool 0 in
  mkLevel (holds prev ++ [newHold]) (angle prev) (height prev).

Definition handleEditorHoldClick (hold : Hold) (prev : Level) : Level :=
  mkLevel (filter (fun h => negb (String.eqb (id h) (id hold))) (holds prev))
          (angle prev) (height prev).

(** ** components/ClimberAvatar.tsx: where the limbs are drawn *)

Definition Limb_eqb (a b : Limb) : bool :=
  match a, b with
  | leftHand, leftHand | rightHand, rightHand
  | leftFoot, leftFoot | rightFoot, rightFoot => true
  | _, _ => false
  end.

(** [defaults[limb]] of [resolveTarget] *)
Definition defaults (com : Point) (limb : Limb) : Point :=
  match limb with
  | leftHand => mkPoint (x com - ANATOMY.shoulderWidth)
                        (y com - ANATOMY.torsoHeight * 0.8)
  | rightHand => mkPoint (x com + ANATOMY.shoulderWidth)
                         (y com - ANATOMY.torsoHeight * 0.8)
  | leftFoot => mkPoint (x com - ANATOMY.hipWidth)
                        (y com + ANATOMY.legUpper + ANATOMY.legLower * 0.5)
  | rightFoot => mkPoint (x com + ANATOMY.hipWidth)
                         (y com + ANATOMY.legUpper + ANATOMY.legLower * 0.5)
  end.

Definition resolveTarget (state : ClimberState) (draggingLimb : option Limb)
    (dragPos : option Point) (limb : Limb) (anchor : Point) (maxR : R) : Point :=
  let com := centerOfMass state in
  let dragged :=
    match draggingLimb, dragPos with
    | Some d, Some dp => if Limb_eqb d limb then Some dp else None
    | _, _ => None
    end in
  match dragged with
  | Some dp => dp
  | None =>
      match limb_get (limbs state) limb with
      | Some val => mkPoint (x (pos val)) (y (pos val))
      | None =>
          let target := defaults com limb in
          let dx := x target - x anchor in
          let dy := y target - y anchor in
          let dist := sqrt (dx * dx + dy * dy) in
          if dist >? maxR then
            let ratio := maxR / dist in
            mkPoint (x anchor + dx * ratio) (y anchor + dy * ratio)
          else target
      end
  end.

(** The body anchors [shoulderL], [shoulderR], [hipL], [hipR]. *)
Definition bodyAnchor (com : Point) (limb : Limb) : Point :=
  let neckBase := mkPoint (x com) (y com - ANATOMY.torsoHeight * 0.85) in
  let hipCenter := mkPoint (x com) (y com + 1.5) in
  match limb with
  | leftHand => mkPoint (x neckBase - ANATOMY.shoulderWidth / 2) (y neckBase)
  | rightHand => mkPoint (x neckBase + ANATOMY.shoulderWidth / 2) (y neckBase)
  | leftFoot => mkPoint (x hipCenter - ANATOMY.hipWidth / 2) (y hipCenter)
  | rightFoot => mkPoint (x hipCenter + ANATOMY.hipWidth / 2) (y hipCenter)
  end.

(** [lhTarget], [rhTarget], [lfTarget], [rfTarget] *)
Definition limbTarget (state : ClimberState) (draggingLimb : option Limb)
    (dragPos : option Point) (limb : Limb) : Point :=
  resolveTarget state draggingLimb dragPos limb
                (bodyAnchor (centerOfMass state) limb) (maxReachOf limb).

(** The upper segment of a limb, and [elbowL], [elbowR], [kneeL], [kneeR]. *)
Definition upperLength (limb : Limb) : R :=
  match limb with
  | leftHand | rightHand => ANATOMY.armUpper
  | leftFoot | rightFoot => ANATOMY.legUpper
  end.

Definition limbJoint (state : ClimberState) (draggingLimb : option Limb)
    (dragPos : option Point) (limb : Limb) : option Point :=
  let anchor := bodyAnchor (centerOfMass state) limb in
  let target := limbTarget state draggingLimb dragPos limb in
  match limb with
  | leftHand => solveIK anchor target ANATOMY.armUpper ANATOMY.armLower false
  | rightHand => solveIK anchor target ANATOMY.armUpper ANATOMY.armLower true
  | leftFoot => solveIK anchor target ANATOMY.legUpper ANATOMY.legLower true
  | rightFoot => solveIK anchor target ANATOMY.legUpper ANATOMY.legLower false
  end.

(** ** Facts about the number tests *)

Module NumFacts.
Import Num.

Lemma ltb_true a b : ltb a b = true <-> a < b.
Proof. unfold ltb; destruct (Rlt_dec a b); split; intros; try easy. Qed.

Lemma ltb_false a b : ltb a b = false <-> b <= a.
Proof.
  unfold ltb; destruct (Rlt_dec a b); split; intros; try easy; lra.
Qed.

Lemma leb_true a b : leb a b = true <-> a <= b.
Proof. unfold leb; destruct (Rle_dec a b); split; intros; try easy. Qed.

Lemma leb_false a b : leb a b = false <-> b < a.
Proof.
  unfold leb; destruct (Rle_dec a b); split; intros; try easy; lra.
Qed.

Lemma gtb_true a b : gtb a b = true <-> b < a.
Proof. apply ltb_true. Qed.

Lemma gtb_false a b : gtb a b = false <-> a <= b.
Proof. apply ltb_false. Qed.

Lemma geb_true a b : geb a b = true <-> b <= a.
Proof. apply leb_true. Qed.

Lemma geb_false a b : geb a b = false <-> a < b.
Proof. apply leb_false. Qed.

Lemma eqb_true a b : eqb a b = true <-> a = b.
Proof. unfold eqb; destruct (Req_dec_T a b); split; intros; try easy. Qed.

Lemma eqb_false a b : eqb a b = false <-> a <> b.
Proof. unfold eqb; destruct (Req_dec_T a b); split; intros; try easy. Qed.

End NumFacts.

(** ** Proof tools *)

Ltac num_hyp H :=
  first
    [ apply NumFacts.gtb_true in H | apply NumFacts.gtb_false in H
    | apply NumFacts.geb_true in H | apply NumFacts.geb_false in H
    | apply NumFacts.ltb_true in H | apply NumFacts.ltb_false in H
    | apply NumFacts.leb_true in H | apply NumFacts.leb_false in H
    | apply NumFacts.eqb_true in H | apply NumFacts.eqb_false in H ].

(** Split on the first test of the goal. *)
Ltac split_if :=
  match goal with
  | |- context [if ?c then _ else _] =>
      let H := fresh "Hc" in
      destruct c eqn:H; try num_hyp H
  end.

Ltac split_ifs := repeat (split_if; cbn in *).

(** ** Falling climbers *)

Lemma fallingPhysics_detached env s : detachedWhenFalling (fallingPhysics env s).
Proof.
  unfold detachedWhenFalling, fallingPhysics; cbn.
  split_ifs; cbn; intros; congruence.
Qed.

(** Read one field through the setters and branches of a step, outermost
    first. *)
Ltac field_step :=
  cbn [set_balance set_stamina set_armPump set_status set_comY set_comX
       set_centerOfMass set_limbs set_chalk set_velocity
       limbs stamina armPump chalk balance status centerOfMass velocity];
  try match goal with
      | |- context [match ?c with _ => _ end] => destruct c eqn:?
      end.

Ltac read_field := repeat (progress field_step).

Lemma groundedStep_status env s : status (groundedStep env s) = idle.
Proof.
  unfold groundedStep; cbv zeta. read_field;
    try reflexivity; destruct (status s); try discriminate; reflexivity.
Qed.

Lemma climbingPhysics_status env s :
  status (climbingPhysics env s) = status s.
Proof. reflexivity. Qed.

Lemma drainStep_detached env s :
  detachedWhenFalling s -> detachedWhenFalling (fst (drainStep env s)).
Proof.
  unfold detachedWhenFalling, drainStep; cbn.
  intros Hs.
  destruct (infiniteStamina env); cbn;
    split_ifs; cbn; intros Hf; try reflexivity; try congruence;
    rewrite (Hs Hf); reflexivity.
Qed.

Lemma gameLogic_detached env safeDt sim :
  detachedWhenFalling (climber sim) ->
  detachedWhenFalling (climber (gameLogic env safeDt sim)).
Proof.
  intros Hs. unfold gameLogic.
  destruct (Status_eqb (status (climber sim)) climbing && negb (isUserDragging env)).
  - destruct (staminaAccumulator sim + safeDt >? 100).
    + pose proof (drainStep_detached env (climber sim) Hs) as Hd.
      destruct (drainStep env (climber sim)) as [s' b]; exact Hd.
    + exact Hs.
  - exact Hs.
Qed.

Lemma checkFall_detached env s :
  detachedWhenFalling s -> detachedWhenFalling (checkFall env s).
Proof.
  unfold detachedWhenFalling, checkFall; intros Hs.
  split_ifs; cbn; intros Hf; auto.
Qed.

Lemma updater_detached env safeDt sim :
  detachedWhenFalling (climber (updater env safeDt sim)).
Proof.
  unfold updater; cbn.
  destruct (Status_eqb (status (climber sim)) falling) eqn:Hst; cbn.
  - apply fallingPhysics_detached.
  - destruct (isGrounded env _ && negb (isUserDragging env)); cbn.
    + intros Hf. rewrite groundedStep_status in Hf. discriminate.
    + apply checkFall_detached, gameLogic_detached; cbn.
      assert (Hnf : status (climber sim) <> falling)
        by (destruct (status (climber sim)); cbn in Hst; congruence).
      destruct (negb (isUserDragging env)); intros Hf; cbn in Hf; congruence.
Qed.

(** Evaluation of the model at concrete inputs: projections and setters are
    reduced, the real-number operations are kept, and each test is settled by
    linear arithmetic.  The functions of the model are unfolded one at a
    time, innermost call first. *)

Ltac eval_test :=
  match goal with
  | |- context [Num.gtb ?a ?b] =>
      first [ rewrite (proj2 (NumFacts.gtb_true a b)) by lra
            | rewrite (proj2 (NumFacts.gtb_false a b)) by lra ]
  | |- context [Num.geb ?a ?b] =>
      first [ rewrite (proj2 (NumFacts.geb_true a b)) by lra
            | rewrite (proj2 (NumFacts.geb_false a b)) by lra ]
  | |- context [Num.ltb ?a ?b] =>
      first [ rewrite (proj2 (NumFacts.ltb_true a b)) by lra
            | rewrite (proj2 (NumFacts.ltb_false a b)) by lra ]
  | |- context [Num.leb ?a ?b] =>
      first [ rewrite (proj2 (NumFacts.leb_true a b)) by lra
            | rewrite (proj2 (NumFacts.leb_false a b)) by lra ]
  | |- context [Num.eqb ?a ?b] =>
      first [ rewrite (proj2 (NumFacts.eqb_true a b)) by lra
            | rewrite (proj2 (NumFacts.eqb_false a b)) by lra ]
  | |- context [Rmin ?a ?b] =>
      first [ rewrite (Rmin_left a b) by lra | rewrite (Rmin_right a b) by lra ]
  | |- context [Rmax ?a ?b] =>
      first [ rewrite (Rmax_left a b) by lra | rewrite (Rmax_right a b) by lra ]
  end.

Ltac simp_rec :=
  cbv beta iota zeta delta
      [x y pos lh rh lf rf limb_get limb_set noLimbs Status_eqb left right
       limbs stamina armPump chalk balance status centerOfMass velocity
       holds angle height id hx hy type rotation
       isAttached isSmearing findHold find nonNull values entries
       core leftPump rightPump
       set_limbs set_stamina set_armPump set_chalk set_balance set_status
       set_centerOfMass set_velocity set_comX set_comY
       level infiniteStamina realismMode isUserDragging
       climber staminaAccumulator prevCOM isSlipping with_climber
       getGroundY getStartCom getStartLimbs initialClimber wallAngleOf
       handCount filter List.length Nat.eqb Nat.ltb Nat.leb
       fst snd negb andb orb fold_left
       anchorOffset lvl0 envPlay INITIAL_STAMINA INITIAL_CHALK].

Ltac ev := repeat (simp_rec; try eval_test).

(** *** Limbs that are all detached *)

Lemma applyConstraint_null c maxLen off minLen :
  applyConstraint c None maxLen off minLen = c.
Proof. reflexivity. Qed.

Lemma constrainBodyPosition_noLimbs c hs :
  constrainBodyPosition c noLimbs hs = c.
Proof. reflexivity. Qed.

Lemma autoDetach_noLimbs c : autoDetach c noLimbs = noLimbs.
Proof. reflexivity. Qed.

(** *** C5: a limb placed during a fall *)

Lemma simFallingWithFoot_reachable : reachable simFallingWithFoot.
Proof.
  unfold simFallingWithFoot, simAirborne; cbv zeta.
  apply reach_place, reach_tick, reach_drag.
  do 3 apply reach_place.
  apply reach_init.
Qed.

Lemma simAirborne_value :
  simAirborne
  = mkSim (mkClimber noLimbs 100 (mkPump 0 0) 100 0 climbing
                     (mkPoint 50 10) (mkPoint 0 0))
          0 (mkPoint 50 (100 - 14)) false.
Proof. reflexivity. Qed.

Lemma tick_airborne_falls :
  status (climber (loop envPlay 16 simAirborne)) = falling
  /\ limbs (climber (loop envPlay 16 simAirborne)) = noLimbs.
Proof.
  rewrite simAirborne_value.
  unfold loop; ev.
  unfold updater, isGrounded; ev.
  unfold climbingPhysics; simp_rec.
  rewrite autoDetach_noLimbs, constrainBodyPosition_noLimbs.
  unfold proposeCOM; ev.
  unfold gameLogic; ev.
  unfold checkFall; ev.
  split; reflexivity.
Qed.

(** C5, as stated, fails: this reachable simulation is falling with its left
    foot still placed. *)
Lemma falling_with_limb_counterexample :
  reachable simFallingWithFoot
  /\ status (climber simFallingWithFoot) = falling
  /\ limbs (climber simFallingWithFoot) <> noLimbs.
Proof.
  split; [apply simFallingWithFoot_reachable|].
  unfold simFallingWithFoot; cbv zeta.
  destruct tick_airborne_falls as [Hst Hls].
  destruct (loop envPlay 16 simAirborne) as [[ls st ap ch bal sta com vel] a p sl].
  cbn in Hst, Hls; subst sta ls.
  unfold handlePlaceLimb; simp_rec.
  split; [reflexivity | discriminate].
Qed.

(** C5 (amended): after every animation frame that runs, whatever the state
    before it, a climber whose status is [falling] has all four limbs
    detached. *)
Theorem falling_after_tick_all_detached env dt sim :
  0 < dt ->
  status (climber (loop env dt sim)) = falling ->
  limbs (climber (loop env dt sim)) = noLimbs.
Proof.
  intros Hdt. unfold loop; cbv zeta.
  assert (H : (Rmin dt 50 >? 0) = true).
  { apply NumFacts.gtb_true. unfold Rmin. destruct (Rle_dec dt 50); lra. }
  rewrite H. apply updater_detached.
Qed.

Lemma falling_after_tick_all_detached_witness :
  limbs (climber (loop envPlay 16 simAirborne)) = noLimbs.
Proof.
  apply (falling_after_tick_all_detached envPlay 16 simAirborne);
    [lra | apply tick_airborne_falls].
Defined.


(** *** C10: the hold list is not consulted by the body constraint *)

(** C10: for every proposed centre of mass, limbs mapping and two hold
    lists, [constrainBodyPosition] gives the same point. *)
Theorem constrainBodyPosition_ignores_holds (com : Point) (ls : Limbs)
    (h1 h2 : list Hold) :
  constrainBodyPosition com ls h1 = constrainBodyPosition com ls h2.
Proof. reflexivity. Qed.

(** *** C2: frames of a topped climber *)

Lemma loop_runs env dt sim :
  0 < dt -> loop env dt sim = updater env (Rmin dt 50) sim.
Proof.
  intros Hdt. unfold loop; cbv zeta.
  assert (H : (Rmin dt 50 >? 0) = true).
  { apply NumFacts.gtb_true. unfold Rmin. destruct (Rle_dec dt 50); lra. }
  now rewrite H.
Qed.

Lemma checkAndDetach_keeps c ls l off maxR l' :
  limb_get (checkAndDetach c ls l off maxR) l' = limb_get ls l'
  \/ limb_get (checkAndDetach c ls l off maxR) l' = None.
Proof.
  unfold checkAndDetach.
  destruct (limb_get ls l) as [v|]; [|now left].
  destruct (_ >? _); [|now left].
  destruct l, l'; cbn; auto.
Qed.

Lemma autoDetach_keeps c ls l :
  limb_get (autoDetach c ls) l = limb_get ls l
  \/ limb_get (autoDetach c ls) l = None.
Proof.
  unfold autoDetach; cbv zeta.
  repeat match goal with
  | |- context [checkAndDetach c ?a ?b ?o ?m] =>
      let H := fresh in
      destruct (checkAndDetach_keeps c a b o m l) as [H|H];
      [rewrite H | now right]
  end.
  now left.
Qed.

Lemma groundedStep_fields env s :
  stamina (groundedStep env s) = Rmin 100 (stamina s + 0.5)
  /\ armPump (groundedStep env s) = mkPump 0 0
  /\ balance (groundedStep env s) = 0
  /\ chalk (groundedStep env s) = chalk s.
Proof.
  repeat split; unfold groundedStep; cbv zeta; read_field; reflexivity.
Qed.

Lemma updater_grounded env safeDt sim :
  status (climber sim) <> falling ->
  isUserDragging env = false ->
  getGroundY (level env) - 16 <= y (centerOfMass (climber sim)) ->
  exists v, climber (updater env safeDt sim)
            = groundedStep env (set_velocity (climber sim) v).
Proof.
  intros Hst Hd Hy. unfold updater; cbv zeta.
  cbn [status set_velocity climber].
  destruct (status (climber sim)) eqn:E; try congruence; cbn [Status_eqb];
    unfold isGrounded; cbn [centerOfMass set_velocity];
    rewrite (proj2 (NumFacts.geb_true _ _) Hy), Hd; cbn [negb andb climber];
    eexists; reflexivity.
Qed.

(** C2, as stated, fails: a topped climber standing on the ground recovers
    stamina and has the arm pump cleared. *)
Lemma topped_tick_counterexample :
  status (climber simToppedStanding) = topped
  /\ stamina (climber (loop (mkEnv lvlLowFinish false false false) 16
                            simToppedStanding))
     <> stamina (climber simToppedStanding)
  /\ armPump (climber (loop (mkEnv lvlLowFinish false false false) 16
                            simToppedStanding))
     <> armPump (climber simToppedStanding).
Proof.
  split; [reflexivity|].
  rewrite loop_runs by lra.
  destruct (updater_grounded (mkEnv lvlLowFinish false false false)
              (Rmin 16 50) simToppedStanding) as [v ->];
    [discriminate | reflexivity | cbn; lra |].
  destruct (groundedStep_fields (mkEnv lvlLowFinish false false false)
              (set_velocity (climber simToppedStanding) v)) as (-> & -> & _).
  cbn [stamina armPump set_velocity climber simToppedStanding].
  split.
  - rewrite Rmin_right by lra. lra.
  - intros H. injection H as H _. lra.
Qed.

(** Fields the climbing physics leaves alone. *)
Lemma climbingPhysics_frame env s :
  stamina (climbingPhysics env s) = stamina s
  /\ armPump (climbingPhysics env s) = armPump s
  /\ chalk (climbingPhysics env s) = chalk s
  /\ balance (climbingPhysics env s) = balance s
  /\ status (climbingPhysics env s) = status s
  /\ limbs (climbingPhysics env s) = autoDetach (proposeCOM env s) (limbs s).
Proof. repeat split. Qed.

Lemma gameLogic_not_climbing env safeDt sim :
  status (climber sim) <> climbing ->
  climber (gameLogic env safeDt sim) = set_balance (climber sim) 0.
Proof.
  intros Hst. unfold gameLogic.
  destruct (status (climber sim)) eqn:E; try congruence; reflexivity.
Qed.

Lemma checkFall_not_climbing env s :
  status s <> climbing ->
  exists c, checkFall env s = set_centerOfMass s c.
Proof.
  intros Hst. unfold checkFall.
  destruct (_ && _ && _).
  - cbv zeta. cbn [status set_comY set_centerOfMass].
    destruct (status s) eqn:E; try congruence; cbn [Status_eqb]; eexists; reflexivity.
  - exists (centerOfMass s). now destruct s.
Qed.

(** C2 (amended): a frame never changes the chalk of a topped climber.  When
    the climber is off the ground ([centerOfMass.y < groundY - 16]) or the
    user is dragging, the frame also leaves stamina and arm pump unchanged
    and keeps the status [topped]; it sets [balance] to 0, and every limb is
    either unchanged or detached (unchanged when the user is dragging). *)
Theorem topped_tick_frame env dt sim :
  0 < dt ->
  status (climber sim) = topped ->
  let s := climber sim in
  let s' := climber (loop env dt sim) in
  chalk s' = chalk s
  /\ (y (centerOfMass s) < getGroundY (level env) - 16
      \/ isUserDragging env = true ->
      stamina s' = stamina s
      /\ armPump s' = armPump s
      /\ status s' = topped
      /\ balance s' = 0
      /\ (forall l, limb_get (limbs s') l = limb_get (limbs s) l
                    \/ limb_get (limbs s') l = None)
      /\ (isUserDragging env = true -> limbs s' = limbs s)).
Proof.
  intros Hdt Hst s s'. subst s s'.
  rewrite loop_runs by exact Hdt.
  unfold updater; cbv zeta.
  set (v := mkPoint _ _).
  cbn [status set_velocity climber staminaAccumulator prevCOM isSlipping].
  rewrite Hst; cbn [Status_eqb].
  set (s0 := set_velocity (climber sim) v).
  set (s1 := if negb (isUserDragging env) then climbingPhysics env s0 else s0).
  assert (H1 : stamina s1 = stamina (climber sim)
               /\ armPump s1 = armPump (climber sim)
               /\ chalk s1 = chalk (climber sim)
               /\ status s1 = topped
               /\ (forall l, limb_get (limbs s1) l = limb_get (limbs (climber sim)) l
                             \/ limb_get (limbs s1) l = None)
               /\ (isUserDragging env = true -> limbs s1 = limbs (climber sim))).
  { subst s1. destruct (isUserDragging env); cbn [negb].
    - repeat split; auto.
    - destruct (climbingPhysics_frame env s0) as (-> & -> & -> & _ & -> & ->).
      repeat split; auto; try discriminate.
      intros l. apply autoDetach_keeps. }
  destruct H1 as (Hsta & Hap & Hch & Hst1 & Hls & Hdrag).
  set (sim1 := mkSim s1 _ _ _).
  assert (Hnc : status (climber sim1) <> climbing) by (cbn; congruence).
  pose proof (gameLogic_not_climbing env (Rmin dt 50) sim1 Hnc) as Hg.
  assert (Hnc2 : status (climber (gameLogic env (Rmin dt 50) sim1)) <> climbing)
    by (rewrite Hg; cbn; congruence).
  destruct (checkFall_not_climbing env _ Hnc2) as [c Hc].
  assert (Hfinal : climber (mkSim (checkFall env (climber (gameLogic env (Rmin dt 50) sim1)))
                     (staminaAccumulator (gameLogic env (Rmin dt 50) sim1))
                     (prevCOM (gameLogic env (Rmin dt 50) sim1))
                     (isSlipping (gameLogic env (Rmin dt 50) sim1)))
                   = set_centerOfMass (set_balance s1 0) c).
  { cbn [climber]. rewrite Hc, Hg. reflexivity. }
  split.
  - destruct (isGrounded env s0 && negb (isUserDragging env)).
    + cbn [climber]. destruct (groundedStep_fields env s0) as (_ & _ & _ & ->). reflexivity.
    + rewrite Hfinal. cbn. exact Hch.
  - intros Hoff.
    assert (Hgr : isGrounded env s0 && negb (isUserDragging env) = false).
    { destruct Hoff as [Hy | Hd].
      - apply andb_false_iff; left. apply NumFacts.geb_false. exact Hy.
      - rewrite Hd. apply andb_false_r. }
    rewrite Hgr, Hfinal. cbn.
    repeat split; auto.
Qed.

Lemma topped_tick_frame_witness :
  let env := mkEnv lvlLowFinish false false true in
  let s := climber simToppedStanding in
  let s' := climber (loop env 16 simToppedStanding) in
  chalk s' = chalk s /\ stamina s' = stamina s /\ armPump s' = armPump s
  /\ status s' = topped /\ balance s' = 0 /\ limbs s' = limbs s.
Proof.
  destruct (topped_tick_frame (mkEnv lvlLowFinish false false true) 16
                              simToppedStanding) as [Hc H];
    [lra | reflexivity |].
  destruct (H (or_intror eq_refl)) as (H1 & H2 & H3 & H4 & _ & H5).
  repeat split; auto.
Defined.


(** *** Friction *)

Lemma fold_left_add_shift {A} (g : A -> R) (l : list A) (a : R) :
  fold_left (fun acc v => acc + g v) l a
  = a + fold_left (fun acc v => acc + g v) l 0.
Proof.
  revert a; induction l as [|v l IH]; intros a; cbn.
  - lra.
  - rewrite IH, (IH (0 + g v)). lra.
Qed.

Lemma fold_left_add_nonneg {A} (g : A -> R) (l : list A) :
  (forall v, 0 <= g v) -> 0 <= fold_left (fun acc v => acc + g v) l 0.
Proof.
  intros Hg; induction l as [|v l IH]; cbn.
  - lra.
  - rewrite fold_left_add_shift. specialize (Hg v). lra.
Qed.

Lemma getAngleDiff_le_180 a b : getAngleDiff a b <= 180.
Proof.
  unfold getAngleDiff; cbv zeta.
  destruct (Rabs (a - b) >? 180) eqn:H; num_hyp H; lra.
Qed.

Lemma footPenalty_nonneg hs wallAngle realism foot :
  0 <= footPenalty hs wallAngle realism foot.
Proof.
  unfold footPenalty; cbv zeta.
  destruct foot as [p | p holdId].
  - destruct (wallAngle <? 0); [lra|].
    destruct (wallAngle <=? 10) eqn:H; [lra|]. num_hyp H.
    destruct realism; lra.
  - destruct (findHold hs holdId) as [hold|]; [|lra].
    destruct (_ <? 0.3) eqn:H; [|lra]. num_hyp H. lra.
Qed.

Lemma error_term_nonneg diff tol m :
  diff <= 180 -> 0 <= m ->
  0 <= (if diff >? tol then (diff - tol) / (180 - tol) * m else 0).
Proof.
  intros Hd Hm. destruct (diff >? tol) eqn:H; [|lra]. num_hyp H.
  apply Rmult_le_pos; [|exact Hm].
  apply Rlt_le, Rdiv_lt_0_compat; lra.
Qed.

Lemma handPenalty_nonneg s hs realism hand :
  0 <= handPenalty s hs realism hand.
Proof.
  unfold handPenalty; cbv zeta.
  destruct hand as [p | p holdId]; [lra|].
  destruct (findHold hs holdId) as [hold|]; [|lra].
  destruct (pullWindow realism hold) as [ideal tol].
  apply error_term_nonneg; [apply getAngleDiff_le_180|].
  destruct realism; lra.
Qed.

Lemma chalkPenalty_nonneg s realism : 0 <= chalkPenalty s realism.
Proof.
  unfold chalkPenalty. apply Rmult_le_pos; [apply Rmax_l|].
  destruct realism; lra.
Qed.

Lemma supportPenalty_nonneg s hs wallAngle realism :
  0 <= supportPenalty s hs wallAngle realism.
Proof.
  unfold supportPenalty; cbv zeta.
  apply Rplus_le_le_0_compat.
  - destruct (Nat.eqb _ 0).
    + destruct (Nat.ltb 0 _); [|lra].
      pose proof (Rmax_l 0 (wallAngle - 10)).
      destruct (wallAngle <? 0); lra.
    + apply fold_left_add_nonneg. intros v. apply footPenalty_nonneg.
  - apply fold_left_add_nonneg. intros v. apply handPenalty_nonneg.
Qed.

Lemma getFrictionPenalty_split s hs wallAngle realism :
  getFrictionPenalty s hs wallAngle realism
  = Rmax 0 (chalkPenalty s realism + supportPenalty s hs wallAngle realism).
Proof.
  unfold getFrictionPenalty, supportPenalty; cbv zeta.
  f_equal.
  rewrite fold_left_add_shift.
  destruct (Nat.eqb _ 0).
  - destruct (Nat.ltb 0 _); lra.
  - rewrite (fold_left_add_shift _ _ (0 + _)). lra.
Qed.

Lemma getFrictionPenalty_value s hs wallAngle realism :
  getFrictionPenalty s hs wallAngle realism
  = chalkPenalty s realism + supportPenalty s hs wallAngle realism.
Proof.
  rewrite getFrictionPenalty_split. apply Rmax_right.
  pose proof (chalkPenalty_nonneg s realism).
  pose proof (supportPenalty_nonneg s hs wallAngle realism). lra.
Qed.

Lemma supportPenalty_set_chalk s c hs wallAngle realism :
  supportPenalty (set_chalk s c) hs wallAngle realism
  = supportPenalty s hs wallAngle realism.
Proof. reflexivity. Qed.

(** C9: the chalk term of [getFrictionPenalty] is
    [max(0, 30 - chalk) * (0.8 in realism mode, 0.5 otherwise)], added to
    terms that do not read [chalk]; and on a vertical wall a state with
    chalk 0 has a strictly larger friction penalty than the same state with
    chalk 100. *)
Theorem chalk_term_and_depletion (s : ClimberState) (hs : list Hold)
    (realism : bool) :
  (forall wallAngle c,
      getFrictionPenalty (set_chalk s c) hs wallAngle realism
      = Rmax 0 (Rmax 0 (30 - c) * (if realism then 0.8 else 0.5)
                + supportPenalty s hs wallAngle realism))
  /\ getFrictionPenalty (set_chalk s 100) hs 0 realism
     < getFrictionPenalty (set_chalk s 0) hs 0 realism.
Proof.
  split.
  - intros wallAngle c. rewrite getFrictionPenalty_split.
    rewrite supportPenalty_set_chalk. reflexivity.
  - rewrite !getFrictionPenalty_value, !supportPenalty_set_chalk.
    unfold chalkPenalty; cbn [chalk set_chalk].
    rewrite (Rmax_left 0 (30 - 100)) by lra.
    rewrite (Rmax_right 0 (30 - 0)) by lra.
    destruct realism; lra.
Qed.


(** *** Stability *)

Lemma calculateStability_range s hs wallAngle realism :
  0 <= calculateStability s hs wallAngle realism <= 100.
Proof.
  unfold calculateStability; cbv zeta.
  destruct (Nat.eqb _ 0); [lra|].
  destruct (fold_left _ _ _) as [m w].
  set (score := _ + _ + _).
  unfold Rmin, Rmax.
  destruct (Rle_dec 0 score); destruct (Rle_dec 100 _); lra.
Qed.

(** *** Fatigue *)

Lemma calculateTickDrain_core_nonneg s hs drains wallAngle realism :
  0 <= balance s ->
  0 <= core (calculateTickDrain s hs drains wallAngle realism).
Proof.
  intros Hb. unfold calculateTickDrain; cbv zeta.
  destruct (Nat.eqb _ 0); cbn [core]; [lra|].
  assert (Hi : 0 <= balance s / 100 * (if realism then 0.05 else 0.03))
    by (destruct realism; lra).
  assert (Ha : 0 <= (if wallAngle >? 0 then wallAngle / 45 * 0.06 else 0)).
  { destruct (wallAngle >? 0) eqn:H; [|lra]. num_hyp H. lra. }
  destruct (Nat.eqb _ 0 && _); cbn [core]; destruct realism; lra.
Qed.

(** *** C3: the clamped fields *)

Lemma within_clamp v : within (Rmax 0 (Rmin 100 v)).
Proof.
  unfold within, Rmin, Rmax.
  destruct (Rle_dec 100 v); destruct (Rle_dec 0 _); lra.
Qed.

Lemma fallingPhysics_clamped env s :
  clamped s -> clamped (fallingPhysics env s).
Proof.
  unfold clamped, within, fallingPhysics; cbv zeta.
  intros H. split_ifs; cbn; lra.
Qed.

Lemma groundedStep_clamped env s :
  clamped s -> clamped (groundedStep env s).
Proof.
  unfold clamped, within. intros H.
  destruct (groundedStep_fields env s) as (-> & -> & -> & ->).
  cbn [left right]. unfold Rmin. destruct (Rle_dec 100 _); lra.
Qed.

Lemma drainStep_clamped env s :
  clamped s -> clamped (fst (drainStep env s)).
Proof.
  unfold clamped, within. intros H.
  unfold drainStep; cbv zeta.
  set (score := calculateStability _ _ _ _).
  pose proof (calculateStability_range s (holds (level env))
                (wallAngleOf (level env)) (realismMode env)) as Hs.
  fold score in Hs.
  set (s1 := if (score >=? 100) && negb (infiniteStamina env) then _ else _).
  assert (H1 : stamina s1 = stamina s /\ chalk s1 = chalk s
               /\ armPump s1 = armPump s /\ 0 <= balance s1 <= 100).
  { subst s1. destruct (_ && _); cbn; repeat split; lra. }
  destruct H1 as (Hst & Hch & Hap & Hbal).
  set (d := calculateTickDrain s1 _ _ _ _).
  assert (Hd : 0 <= core d) by (apply calculateTickDrain_core_nonneg; lra).
  cbn [fst].
  destruct (negb (infiniteStamina env)).
  - pose proof (within_clamp (left (armPump s1) + leftPump d)) as Hl.
    pose proof (within_clamp (right (armPump s1) + rightPump d)) as Hr.
    unfold within in Hl, Hr.
    assert (Hsm : 0 <= Rmax 0 (stamina s1 - core d) <= 100).
    { unfold Rmax; destruct (Rle_dec 0 _); lra. }
    assert (Hcm : 0 <= Rmax 0 (chalk s1 - 0.02) <= 100).
    { unfold Rmax; destruct (Rle_dec 0 _); lra. }
    cbn [set_stamina set_armPump set_chalk set_limbs set_status
         stamina armPump chalk balance limbs status left right].
    split_ifs; cbn [set_stamina set_armPump set_chalk set_limbs set_status
         stamina armPump chalk balance limbs status left right];
      repeat split; lra.
  - rewrite Hst, Hch, Hap. repeat split; lra.
Qed.

Lemma gameLogic_clamped env safeDt sim :
  clamped (climber sim) -> clamped (climber (gameLogic env safeDt sim)).
Proof.
  intros H. unfold gameLogic; cbv zeta.
  destruct (_ && _).
  - destruct (_ >? 100).
    + pose proof (drainStep_clamped env (climber sim) H) as Hd.
      destruct (drainStep env (climber sim)) as [s' b]. exact Hd.
    + exact H.
  - unfold clamped, within in *. cbn. lra.
Qed.

Lemma checkFall_clamped env s : clamped s -> clamped (checkFall env s).
Proof.
  unfold clamped, within, checkFall. intros H.
  destruct (_ && _ && _); [|exact H].
  cbv zeta. destruct (Status_eqb _ _); cbn; lra.
Qed.

Lemma updater_clamped env safeDt sim :
  clamped (climber sim) -> clamped (climber (updater env safeDt sim)).
Proof.
  intros H. unfold updater; cbv zeta.
  set (v := mkPoint _ _).
  assert (H0 : clamped (set_velocity (climber sim) v)) by exact H.
  destruct (Status_eqb _ falling).
  - apply fallingPhysics_clamped, H0.
  - destruct (isGrounded env _ && _).
    + apply groundedStep_clamped, H0.
    + cbn [climber]. apply checkFall_clamped, gameLogic_clamped. cbn [climber].
      destruct (negb (isUserDragging env)); [|exact H0].
      destruct (climbingPhysics_frame env (set_velocity (climber sim) v))
        as (Hs & Ha & Hc & Hb & _).
      unfold clamped. rewrite Hs, Ha, Hc, Hb. exact H0.
Qed.

Lemma loop_clamped env dt sim :
  clamped (climber sim) -> clamped (climber (loop env dt sim)).
Proof.
  intros H. unfold loop; cbv zeta.
  destruct (_ >? 0); [apply updater_clamped|]; exact H.
Qed.

Lemma initialClimber_clamped lvl : clamped (initialClimber lvl).
Proof.
  unfold clamped, within, initialClimber, INITIAL_STAMINA, INITIAL_CHALK; cbn.
  lra.
Qed.

Lemma chalkUp_clamped s : clamped s -> clamped (chalkUp s).
Proof.
  unfold clamped, within, chalkUp. intros H.
  destruct (chalk s >=? 100); [exact H|].
  cbn. unfold Rmin, Rmax.
  destruct (Rle_dec 100 (chalk s + 5)); destruct (Rle_dec 0 (stamina s - 1)); lra.
Qed.

Lemma reachable_clamped sim : reachable sim -> clamped (climber sim).
Proof.
  induction 1 as [lvl | lvl sim _ _ | env dt sim _ IH | lvl val limb sim _ IH
                 | newCOM sim _ IH | sim _ IH].
  - apply initialClimber_clamped.
  - apply initialClimber_clamped.
  - apply loop_clamped, IH.
  - exact IH.
  - exact IH.
  - apply chalkUp_clamped, IH.
Qed.

(** C3: for every reachable simulation and every animation frame, stamina,
    chalk, both arm pumps and balance lie in [0,100] after the frame. *)
Theorem tick_keeps_fields_clamped env dt sim :
  reachable sim ->
  let s' := climber (loop env dt sim) in
  0 <= stamina s' <= 100 /\ 0 <= chalk s' <= 100
  /\ 0 <= left (armPump s') <= 100 /\ 0 <= right (armPump s') <= 100
  /\ 0 <= balance s' <= 100.
Proof.
  intros Hr. apply (reachable_clamped _ (reach_tick env dt sim Hr)).
Qed.

Lemma tick_keeps_fields_clamped_witness :
  let s' := climber (loop envPlay 16 simAirborne) in
  0 <= stamina s' <= 100 /\ 0 <= chalk s' <= 100
  /\ 0 <= left (armPump s') <= 100 /\ 0 <= right (armPump s') <= 100
  /\ 0 <= balance s' <= 100.
Proof.
  apply (tick_keeps_fields_clamped envPlay 16 simAirborne).
  unfold simAirborne; cbv zeta.
  apply reach_drag. do 3 apply reach_place. apply reach_init.
Defined.


(** *** The airborne path of a frame *)

Lemma updater_airborne env safeDt sim :
  status (climber sim) <> falling ->
  isUserDragging env = false ->
  y (centerOfMass (climber sim)) < getGroundY (level env) - 16 ->
  climber (updater env safeDt sim)
  = checkFall env
      (climber (gameLogic env safeDt
                  (mkSim (drainInput env safeDt sim) (staminaAccumulator sim)
                         (centerOfMass (climber sim)) (isSlipping sim)))).
Proof.
  intros Hst Hd Hy. unfold updater; cbv zeta.
  cbn [status set_velocity climber staminaAccumulator prevCOM isSlipping].
  assert (Hg : isGrounded env
                 (set_velocity (climber sim)
                    (mkPoint ((x (centerOfMass (climber sim)) - x (prevCOM sim))
                              * (16 / safeDt))
                             ((y (centerOfMass (climber sim)) - y (prevCOM sim))
                              * (16 / safeDt)))) = false).
  { apply NumFacts.geb_false. exact Hy. }
  rewrite Hg, Hd. cbn [negb andb].
  destruct (status (climber sim)) eqn:E; try congruence; reflexivity.
Qed.

Lemma gameLogic_drain env safeDt sim :
  status (climber sim) = climbing ->
  isUserDragging env = false ->
  100 < staminaAccumulator sim + safeDt ->
  climber (gameLogic env safeDt sim) = fst (drainStep env (climber sim)).
Proof.
  intros Hst Hd Hacc. unfold gameLogic; cbv zeta.
  rewrite Hst, Hd. cbn [Status_eqb negb andb].
  rewrite (proj2 (NumFacts.gtb_true _ _) Hacc).
  destruct (drainStep env (climber sim)); reflexivity.
Qed.

Lemma drainStep_infinite env s :
  infiniteStamina env = true ->
  fst (drainStep env s)
  = set_balance s (calculateStability s (holds (level env))
                     (wallAngleOf (level env)) (realismMode env)).
Proof.
  intros Hi. unfold drainStep; cbv zeta.
  rewrite Hi. cbn [negb fst]. rewrite andb_false_r. reflexivity.
Qed.

Lemma drainStep_balance_fall env s :
  infiniteStamina env = false ->
  100 <= calculateStability s (holds (level env)) (wallAngleOf (level env))
           (realismMode env) ->
  status (fst (drainStep env s)) = falling
  /\ limbs (fst (drainStep env s)) = noLimbs.
Proof.
  intros Hi Hs. unfold drainStep; cbv zeta.
  rewrite Hi, (proj2 (NumFacts.geb_true _ _) Hs). cbn [negb andb fst].
  cbn [set_stamina set_armPump set_chalk set_limbs set_status set_balance
       stamina armPump chalk balance limbs status left right].
  split_ifs; split; reflexivity.
Qed.

Lemma checkFall_hand env s :
  handCount (limbs s) <> 0%nat -> checkFall env s = s.
Proof.
  intros H. unfold checkFall.
  destruct (Nat.eqb (handCount (limbs s)) 0) eqn:E.
  - apply Nat.eqb_eq in E. contradiction.
  - rewrite andb_false_r. reflexivity.
Qed.

Lemma checkFall_falling env s :
  status s = falling -> limbs s = noLimbs ->
  status (checkFall env s) = falling /\ limbs (checkFall env s) = noLimbs.
Proof.
  intros Hst Hl. unfold checkFall.
  destruct (_ && _ && _); [|now split].
  cbv zeta. cbn [status set_comY set_centerOfMass]. rewrite Hst.
  cbn. now split.
Qed.

(** *** Stability saturates with the friction penalty *)

Lemma calculateStability_lower s hs wallAngle realism f :
  nonNull (values (limbs s)) <> [] ->
  f <= getFrictionPenalty s hs wallAngle realism ->
  f <= 100 ->
  f <= calculateStability s hs wallAngle realism.
Proof.
  intros Hact Hf Hf100. unfold calculateStability; cbv zeta.
  destruct (nonNull (values (limbs s))) as [|a l] eqn:Ea; [congruence|].
  cbn [List.length Nat.eqb].
  destruct (fold_left _ _ _) as [m w].
  set (sysX := m / w).
  set (dev0 := Rabs (sysX - _)).
  assert (H0 : 0 <= dev0) by apply Rabs_pos.
  set (dev1 := if wallAngle >? 0 then _ else dev0).
  assert (H1 : 0 <= dev1).
  { subst dev1. destruct (wallAngle >? 0); [|exact H0].
    destruct (nonNull [lh (limbs s); rh (limbs s)]) as [|h [|h' t]]; try exact H0.
    set (sw := Rabs (x (pos h) - sysX)).
    assert (0 <= sw) by apply Rabs_pos.
    destruct (_ && _); destruct realism; nra. }
  set (dev2 := if wallAngle <? 0 then _ else dev1).
  assert (H2 : 0 <= dev2).
  { subst dev2. destruct (wallAngle <? 0); [|exact H1].
    destruct (Nat.ltb 0 _); [|exact H1].
    set (sl := Rabs _). assert (0 <= sl) by apply Rabs_pos. lra. }
  set (vm := sqrt _).
  assert (Hvm : 0 <= vm) by apply sqrt_pos.
  assert (Hdf : 0 <= 1 / (1 + vm * 3)).
  { apply Rlt_le, Rdiv_lt_0_compat; lra. }
  assert (Hsw : 0 <= Rabs (x (velocity s)) * (if wallAngle >? 0 then 25 else 10)).
  { apply Rmult_le_pos; [apply Rabs_pos|]. destruct (_ >? _); lra. }
  assert (Hd : 0 <= dev2 * (1 / (1 + vm * 3))) by (apply Rmult_le_pos; assumption).
  pose proof (getFrictionPenalty_value s hs wallAngle realism) as Hv.
  pose proof (chalkPenalty_nonneg s realism).
  pose proof (supportPenalty_nonneg s hs wallAngle realism).
  rewrite (Rmax_right 0) by lra.
  apply Rmin_glb; lra.
Qed.

Lemma calculateStability_saturates s hs wallAngle realism :
  nonNull (values (limbs s)) <> [] ->
  100 <= getFrictionPenalty s hs wallAngle realism ->
  calculateStability s hs wallAngle realism = 100.
Proof.
  intros Hact Hf.
  pose proof (calculateStability_range s hs wallAngle realism).
  pose proof (calculateStability_lower s hs wallAngle realism 100 Hact Hf).
  lra.
Qed.

Lemma campus_slab_friction s hs wallAngle realism :
  lf (limbs s) = None -> rf (limbs s) = None ->
  nonNull [lh (limbs s); rh (limbs s)] <> [] ->
  wallAngle < 0 ->
  150 <= getFrictionPenalty s hs wallAngle realism.
Proof.
  intros Hlf Hrf Hh Hw.
  rewrite getFrictionPenalty_value.
  pose proof (chalkPenalty_nonneg s realism) as Hc.
  unfold supportPenalty; cbv zeta.
  rewrite Hlf, Hrf.
  destruct (nonNull [lh (limbs s); rh (limbs s)]) as [|h t] eqn:E; [congruence|].
  cbn [nonNull List.length Nat.eqb Nat.ltb Nat.leb].
  rewrite (proj2 (NumFacts.ltb_true _ _) Hw).
  pose proof (Rmax_l 0 (wallAngle - 10)).
  pose proof (fold_left_add_nonneg (handPenalty s hs realism) (h :: t)
                (handPenalty_nonneg s hs realism)).
  lra.
Qed.


(** *** Auto-detach *)

Lemma sqrt_le_bound e b : 0 <= b -> e <= b * b -> sqrt e <= b.
Proof.
  intros Hb He.
  destruct (Rle_dec 0 e) as [H0|H0].
  - rewrite <- (sqrt_square b Hb). now apply sqrt_le_1_alt.
  - rewrite sqrt_neg_0 by lra. exact Hb.
Qed.

Lemma checkAndDetach_null c ls l off maxR :
  limb_get ls l = None -> checkAndDetach c ls l off maxR = ls.
Proof. intros H. unfold checkAndDetach. now rewrite H. Qed.

Lemma checkAndDetach_within c ls l off maxR v :
  limb_get ls l = Some v ->
  calculateDistance (mkPoint (x c + x off) (y c + y off)) (pos v)
  <= maxR * 1.05 ->
  checkAndDetach c ls l off maxR = ls.
Proof.
  intros H Hd. unfold checkAndDetach. rewrite H; cbv zeta.
  now rewrite (proj2 (NumFacts.gtb_false _ _) Hd).
Qed.

(** *** C4: the campus climber on the slab *)

Lemma simCampus_velocity :
  frameVelocity (Rmin 16 50) simCampus = mkPoint 0 0.
Proof.
  unfold frameVelocity; cbn [simCampus climber centerOfMass prevCOM x y].
  rewrite Rmin_left by lra. f_equal; lra.
Qed.

Lemma simCampus_proposeCOM infinite :
  proposeCOM (mkEnv lvlSlab infinite false false)
    (set_velocity (climber simCampus) (mkPoint 0 0))
  = mkPoint (50 + 0 * (0.92 * (1 - 0.15 * 1)))
            (50 + 0 * (0.92 * (1 - 0.15 * 1)) + 0.2 * (1 - 0.9 * 1)).
Proof.
  unfold proposeCOM; cbv zeta.
  cbn [simCampus climber set_velocity limbs stamina velocity centerOfMass
       lf rf lh rh x y nonNull List.length Nat.ltb Nat.leb handCount filter
       isAttached andb].
  replace (0 * 0 + 0 * 0) with 0 by lra. rewrite sqrt_0.
  ev. reflexivity.
Qed.

Lemma simCampus_drainInput_limbs infinite :
  limbs (drainInput (mkEnv lvlSlab infinite false false) (Rmin 16 50) simCampus)
  = limbs (climber simCampus).
Proof.
  unfold drainInput. rewrite simCampus_velocity.
  destruct (climbingPhysics_frame (mkEnv lvlSlab infinite false false)
              (set_velocity (climber simCampus) (mkPoint 0 0)))
    as (_ & _ & _ & _ & _ & ->).
  rewrite simCampus_proposeCOM.
  unfold autoDetach; cbv zeta.
  rewrite (checkAndDetach_within _ _ leftHand _ _
             (OnHold (mkPoint 46.75 35.67) "j1")); [| reflexivity |].
  - rewrite !checkAndDetach_null by reflexivity. reflexivity.
  - unfold calculateDistance, MAX_REACH.hand, ANATOMY.armUpper, ANATOMY.armLower.
    cbn [anchorOffset x y pos].
    unfold ANATOMY.shoulderWidth, ANATOMY.torsoHeight.
    apply sqrt_le_bound; lra.
Qed.

Lemma simCampus_stability infinite :
  calculateStability
    (drainInput (mkEnv lvlSlab infinite false false) (Rmin 16 50) simCampus)
    (holds lvlSlab) (wallAngleOf lvlSlab) false = 100.
Proof.
  assert (Hw : wallAngleOf lvlSlab = -10).
  { unfold wallAngleOf, Num.orElse; cbn [lvlSlab angle].
    rewrite (proj2 (NumFacts.eqb_false _ _)) by lra. reflexivity. }
  pose proof (simCampus_drainInput_limbs infinite) as Hl.
  apply calculateStability_saturates.
  - rewrite Hl. discriminate.
  - assert (150 <= getFrictionPenalty
              (drainInput (mkEnv lvlSlab infinite false false) (Rmin 16 50) simCampus)
              (holds lvlSlab) (wallAngleOf lvlSlab) false); [|lra].
    apply campus_slab_friction; rewrite ?Hl; try reflexivity;
      [discriminate | rewrite Hw; lra].
Qed.

Lemma set_balance_frame s b :
  status (set_balance s b) = status s /\ limbs (set_balance s b) = limbs s.
Proof. split; reflexivity. Qed.

Lemma drainInput_status env safeDt sim :
  status (drainInput env safeDt sim) = status (climber sim).
Proof. reflexivity. Qed.

(** C4, as stated, fails: with the infinite-stamina override on, the drain
    interval triggers on a climbing climber, the fresh stability score is
    100, and the climber is still climbing, hand on the hold, after the
    frame. *)
Lemma balance_fall_counterexample :
  let env := mkEnv lvlSlab true false false in
  status (climber simCampus) = climbing
  /\ isUserDragging env = false
  /\ 100 < staminaAccumulator simCampus + Rmin 16 50
  /\ 100 <= calculateStability (drainInput env (Rmin 16 50) simCampus)
              (holds (level env)) (wallAngleOf (level env)) (realismMode env)
  /\ status (climber (loop env 16 simCampus)) = climbing
  /\ lh (limbs (climber (loop env 16 simCampus))) <> None.
Proof.
  cbv zeta.
  split; [reflexivity|]. split; [reflexivity|].
  split; [rewrite Rmin_left by lra; cbn [staminaAccumulator simCampus]; lra|].
  split; [cbn [level realismMode]; rewrite simCampus_stability; lra|].
  rewrite loop_runs by lra.
  rewrite updater_airborne;
    [| discriminate | reflexivity
     | cbn [simCampus climber centerOfMass y level lvlSlab getGroundY height]; lra].
  rewrite gameLogic_drain;
    [| cbn [climber]; rewrite drainInput_status; reflexivity | reflexivity
     | cbn [staminaAccumulator simCampus]; rewrite Rmin_left by lra; lra].
  cbn [climber]. rewrite drainStep_infinite by reflexivity.
  rewrite checkFall_hand.
  - rewrite (proj1 (set_balance_frame _ _)), (proj2 (set_balance_frame _ _)).
    rewrite drainInput_status, simCampus_drainInput_limbs.
    split; [reflexivity | discriminate].
  - rewrite (proj2 (set_balance_frame _ _)), simCampus_drainInput_limbs.
    discriminate.
Qed.

(** C4 (amended): when the drain interval triggers on a climbing climber
    who is off the ground and not dragged, the infinite-stamina override is
    off, and the fresh stability score is 100 or more, the frame ends with
    status [falling] and all four limbs detached. *)
Theorem balance_fall env dt sim :
  0 < dt ->
  status (climber sim) = climbing ->
  isUserDragging env = false ->
  y (centerOfMass (climber sim)) < getGroundY (level env) - 16 ->
  100 < staminaAccumulator sim + Rmin dt 50 ->
  infiniteStamina env = false ->
  100 <= calculateStability (drainInput env (Rmin dt 50) sim)
           (holds (level env)) (wallAngleOf (level env)) (realismMode env) ->
  status (climber (loop env dt sim)) = falling
  /\ limbs (climber (loop env dt sim)) = noLimbs.
Proof.
  intros Hdt Hst Hd Hy Hacc Hinf Hscore.
  rewrite loop_runs by exact Hdt.
  rewrite updater_airborne; [| congruence | exact Hd | exact Hy].
  rewrite gameLogic_drain; [| exact Hst | exact Hd | exact Hacc].
  cbn [climber].
  destruct (drainStep_balance_fall env _ Hinf Hscore) as [Hf Hl].
  now apply checkFall_falling.
Qed.

Lemma balance_fall_witness :
  status (climber (loop (mkEnv lvlSlab false false false) 16 simCampus)) = falling
  /\ limbs (climber (loop (mkEnv lvlSlab false false false) 16 simCampus)) = noLimbs.
Proof.
  apply (balance_fall (mkEnv lvlSlab false false false) 16 simCampus).
  - lra.
  - reflexivity.
  - reflexivity.
  - cbn [simCampus climber centerOfMass y level lvlSlab getGroundY height]. lra.
  - cbn [simCampus staminaAccumulator]. rewrite Rmin_left by lra. lra.
  - reflexivity.
  - cbn [level realismMode]. rewrite simCampus_stability. lra.
Defined.


(** *** The body constraint *)

Lemma scaled_norm dx dy s :
  0 <= s -> sqrt ((dx * s) ^ 2 + (dy * s) ^ 2) = s * sqrt (dx * dx + dy * dy).
Proof.
  intros Hs.
  replace ((dx * s) ^ 2 + (dy * s) ^ 2) with (s * s * (dx * dx + dy * dy)) by ring.
  rewrite sqrt_mult_alt by nra.
  now rewrite sqrt_square.
Qed.

(** After [applyConstraint] on a placed limb, that limb is within [maxLen]
    of its anchor. *)
Lemma applyConstraint_reach c v maxLen off minLen :
  0 < maxLen -> minLen <= maxLen ->
  let c' := applyConstraint c (Some v) maxLen off minLen in
  calculateDistance (mkPoint (x c' + x off) (y c' + y off)) (pos v) <= maxLen.
Proof.
  intros Hmax Hmin. unfold applyConstraint; cbv zeta.
  set (dx := x (pos v) - (x c + x off)).
  set (dy := y (pos v) - (y c + y off)).
  set (dist := sqrt (dx * dx + dy * dy)).
  assert (Hscaled : forall len, 0 < dist -> 0 <= len ->
    calculateDistance
      (mkPoint (x (pos v) - dx * (len / dist) - x off + x off)
               (y (pos v) - dy * (len / dist) - y off + y off)) (pos v) = len).
  { intros len Hd Hlen. unfold calculateDistance; cbn [x y].
    replace (x (pos v) - (x (pos v) - dx * (len / dist) - x off + x off))
      with (dx * (len / dist)) by ring.
    replace (y (pos v) - (y (pos v) - dy * (len / dist) - y off + y off))
      with (dy * (len / dist)) by ring.
    rewrite scaled_norm
      by (unfold Rdiv; apply Rmult_le_pos;
          [lra | apply Rlt_le, Rinv_0_lt_compat; lra]).
    fold dist. field. lra. }
  destruct (dist >? maxLen) eqn:H1; num_hyp H1.
  - cbn [x y]. rewrite Hscaled; lra.
  - destruct ((dist <? minLen) && (dist >? 0.1)) eqn:H2.
    + apply andb_true_iff in H2 as [H2 H3]. num_hyp H2. num_hyp H3.
      cbn [x y]. rewrite Hscaled; lra.
    + unfold calculateDistance; cbn [x y].
      replace ((x (pos v) - (x c + x off)) ^ 2 + (y (pos v) - (y c + y off)) ^ 2)
        with (dx * dx + dy * dy) by (subst dx dy; ring).
      exact H1.
Qed.

Lemma HAND_REACH_pos : 0 < HAND_REACH /\ MIN_COMPRESSION <= HAND_REACH.
Proof.
  unfold HAND_REACH, MIN_COMPRESSION, MAX_REACH.hand, ANATOMY.armUpper,
    ANATOMY.armLower. lra.
Qed.

Lemma FOOT_REACH_pos : 0 < FOOT_REACH /\ MIN_COMPRESSION <= FOOT_REACH.
Proof.
  unfold FOOT_REACH, MIN_COMPRESSION, MAX_REACH.foot, ANATOMY.legUpper,
    ANATOMY.legLower. lra.
Qed.

Lemma constrainBodyPosition_last_pass com ls hs :
  constrainBodyPosition com ls hs
  = constrainPass ls (Nat.iter 3 (constrainPass ls) com).
Proof. reflexivity. Qed.

Lemma constrainPass_reach_last ls c l v :
  lastPlaced ls = Some l -> limb_get ls l = Some v ->
  calculateDistance (anchorOf (constrainPass ls c) l) (pos v)
  <= maxReachOf l * 0.99.
Proof.
  destruct HAND_REACH_pos as [Hh Hhm]. destruct FOOT_REACH_pos as [Hf Hfm].
  destruct ls as [l1 l2 l3 l4]. unfold lastPlaced, constrainPass, anchorOf.
  cbn [lh rh lf rf]; cbv zeta.
  intros Hlast Hget.
  destruct l4 as [v4|].
  { injection Hlast as <-. cbn in Hget. injection Hget as <-.
    apply (applyConstraint_reach _ v4 FOOT_REACH); assumption. }
  rewrite (applyConstraint_null _ FOOT_REACH (anchorOffset rightFoot)).
  destruct l3 as [v3|].
  { injection Hlast as <-. cbn in Hget. injection Hget as <-.
    apply (applyConstraint_reach _ v3 FOOT_REACH); assumption. }
  rewrite (applyConstraint_null _ FOOT_REACH (anchorOffset leftFoot)).
  destruct l2 as [v2|].
  { injection Hlast as <-. cbn in Hget. injection Hget as <-.
    apply (applyConstraint_reach _ v2 HAND_REACH); assumption. }
  rewrite (applyConstraint_null _ HAND_REACH (anchorOffset rightHand)).
  destruct l1 as [v1|]; [|discriminate].
  injection Hlast as <-. cbn in Hget. injection Hget as <-.
  apply (applyConstraint_reach _ v1 HAND_REACH); assumption.
Qed.

(** C1 (amended): after [constrainBodyPosition] returns, the placed limb
    that the loop handles last (right foot, else left foot, else right hand,
    else left hand) is within [maxReach * 1.001] of its anchor, the bound and
    the tolerance of the specification.  Nothing is claimed for the other
    placed limbs. *)
Theorem reach_of_last_placed_limb com ls hs l v :
  lastPlaced ls = Some l ->
  limb_get ls l = Some v ->
  calculateDistance (anchorOf (constrainBodyPosition com ls hs) l) (pos v)
  <= maxReachOf l * 1.001.
Proof.
  intros Hlast Hget.
  rewrite constrainBodyPosition_last_pass.
  pose proof (constrainPass_reach_last ls (Nat.iter 3 (constrainPass ls) com)
                l v Hlast Hget) as H.
  assert (0 < maxReachOf l).
  { destruct l; unfold maxReachOf, MAX_REACH.hand, MAX_REACH.foot,
      ANATOMY.armUpper, ANATOMY.armLower, ANATOMY.legUpper, ANATOMY.legLower; lra. }
  lra.
Qed.

Lemma reach_of_last_placed_limb_witness :
  calculateDistance
    (anchorOf (constrainBodyPosition (mkPoint 50 50) limbsWide []) rightHand)
    (mkPoint 70 40.65)
  <= maxReachOf rightHand * 1.001.
Proof.
  apply (reach_of_last_placed_limb (mkPoint 50 50) limbsWide [] rightHand
           (OnHold (mkPoint 70 40.65) "b")); reflexivity.
Defined.


(** *** C1: two hands too far apart *)

(** A limb level with its anchor and further than [maxLen] to the right
    pulls the centre of mass horizontally until the anchor is [maxLen] left
    of the limb; symmetrically to the left. *)
Lemma applyConstraint_pull_right c v maxLen off minLen :
  y (pos v) = y c + y off ->
  0 < maxLen ->
  maxLen < x (pos v) - (x c + x off) ->
  applyConstraint c (Some v) maxLen off minLen
  = mkPoint (x (pos v) - maxLen - x off) (y c).
Proof.
  intros Hy Hmax Hdx. unfold applyConstraint; cbv zeta.
  set (dx := x (pos v) - (x c + x off)) in *.
  replace (y (pos v) - (y c + y off)) with 0 by lra.
  replace (dx * dx + 0 * 0) with (dx * dx) by ring.
  rewrite sqrt_square by lra.
  rewrite (proj2 (NumFacts.gtb_true _ _) Hdx).
  f_equal; [field; lra | lra].
Qed.

Lemma applyConstraint_pull_left c v maxLen off minLen :
  y (pos v) = y c + y off ->
  0 < maxLen ->
  x (pos v) - (x c + x off) < - maxLen ->
  applyConstraint c (Some v) maxLen off minLen
  = mkPoint (x (pos v) + maxLen - x off) (y c).
Proof.
  intros Hy Hmax Hdx. unfold applyConstraint; cbv zeta.
  set (dx := x (pos v) - (x c + x off)) in *.
  replace (y (pos v) - (y c + y off)) with 0 by lra.
  replace (dx * dx + 0 * 0) with ((- dx) * (- dx)) by ring.
  rewrite sqrt_square by lra.
  rewrite (proj2 (NumFacts.gtb_true (- dx) maxLen)) by lra.
  f_equal; [field; lra | lra].
Qed.

Lemma constants_value :
  HAND_REACH = 12.87 /\ x (anchorOffset leftHand) = -3.25
  /\ x (anchorOffset rightHand) = 3.25
  /\ y (anchorOffset leftHand) = -9.35 /\ y (anchorOffset rightHand) = -9.35.
Proof.
  unfold HAND_REACH, MAX_REACH.hand, ANATOMY.armUpper, ANATOMY.armLower.
  cbn [anchorOffset x y].
  unfold ANATOMY.shoulderWidth, ANATOMY.torsoHeight.
  repeat split; lra.
Qed.

Lemma constrainPass_limbsWide c :
  46.12 < x c -> y c = 50 ->
  x (constrainPass limbsWide c) = 53.88 /\ y (constrainPass limbsWide c) = 50.
Proof.
  intros Hx Hy.
  destruct constants_value as (Hr & Hlx & Hrx & Hly & Hry).
  unfold constrainPass; cbv zeta. cbn [limbsWide lh rh lf rf].
  rewrite !applyConstraint_null.
  rewrite (applyConstraint_pull_left c);
    [| cbn [pos y]; lra | lra | cbn [pos x]; lra].
  rewrite applyConstraint_pull_right;
    [| cbn [pos x y]; lra | lra | cbn [pos x y]; lra].
  cbn [pos x y]. split; lra.
Qed.

Lemma constrainBodyPosition_limbsWide hs :
  x (constrainBodyPosition (mkPoint 50 50) limbsWide hs) = 53.88
  /\ y (constrainBodyPosition (mkPoint 50 50) limbsWide hs) = 50.
Proof.
  rewrite constrainBodyPosition_last_pass.
  change (Nat.iter 3 (constrainPass limbsWide) (mkPoint 50 50))
    with (constrainPass limbsWide
            (constrainPass limbsWide
               (constrainPass limbsWide (mkPoint 50 50)))).
  destruct (constrainPass_limbsWide (mkPoint 50 50)) as [H1 H1'];
    [cbn; lra | reflexivity |].
  destruct (constrainPass_limbsWide _ ltac:(rewrite H1; lra) H1') as [H2 H2'].
  destruct (constrainPass_limbsWide _ ltac:(rewrite H2; lra) H2') as [H3 H3'].
  apply constrainPass_limbsWide; [rewrite H3; lra | exact H3'].
Qed.

(** C1, as stated, fails: with the hands 40 units apart the left hand ends
    20.63 units from the left shoulder, beyond [MAX_REACH.hand * 1.001]. *)
Lemma reach_invariant_counterexample :
  lh limbsWide = Some (OnHold (mkPoint 30 40.65) "a")
  /\ MAX_REACH.hand * 1.001
     < calculateDistance
         (anchorOf (constrainBodyPosition (mkPoint 50 50) limbsWide []) leftHand)
         (mkPoint 30 40.65).
Proof.
  split; [reflexivity|].
  destruct (constrainBodyPosition_limbsWide []) as [Hx Hy].
  destruct constants_value as (_ & Hlx & _ & Hly & _).
  unfold calculateDistance, anchorOf. cbn [x y].
  rewrite Hx, Hy, Hlx, Hly.
  replace ((30 - (53.88 + -3.25)) ^ 2 + (40.65 - (50 + -9.35)) ^ 2)
    with (20.63 * 20.63) by lra.
  rewrite sqrt_square by lra.
  unfold MAX_REACH.hand, ANATOMY.armUpper, ANATOMY.armLower. lra.
Qed.


(** *** solveIK *)

Lemma calculateDistance_self p : calculateDistance p p = 0.
Proof.
  unfold calculateDistance.
  replace ((x p - x p) ^ 2 + (y p - y p) ^ 2) with 0 by ring.
  apply sqrt_0.
Qed.

Lemma calculateDistance_nonneg p q : 0 <= calculateDistance p q.
Proof. apply sqrt_pos. Qed.

Lemma atan2_origin : Num.atan2 0 0 = 0.
Proof.
  unfold Num.atan2.
  rewrite (proj2 (NumFacts.ltb_false 0 0)) by lra. reflexivity.
Qed.

(** The extended branch: the joint is put at the fraction
    [length1 / (length1 + length2)] of the segment from root to target. *)
Lemma solveIK_extended p1 p2 length1 length2 bendRight :
  length1 + length2 <> 0 ->
  length1 + length2 - 0.1 <= calculateDistance p1 p2 ->
  solveIK p1 p2 length1 length2 bendRight
  = Some (mkPoint (x p1 + (x p2 - x p1) * (length1 / (length1 + length2)))
                  (y p1 + (y p2 - y p1) * (length1 / (length1 + length2)))).
Proof.
  intros Hsum Hd. unfold solveIK; cbv zeta.
  rewrite (proj2 (NumFacts.geb_true _ _) Hd).
  unfold divF. rewrite (proj2 (NumFacts.eqb_false _ _) Hsum).
  reflexivity.
Qed.

(** C6, as stated, fails: for root (0,0), target (20,0) and lengths 5 and 5
    the result is (10,0), the midpoint of the segment, not (5,0). *)
Lemma solveIK_extended_counterexample :
  5 + 5 <= calculateDistance (mkPoint 0 0) (mkPoint 20 0)
  /\ solveIK (mkPoint 0 0) (mkPoint 20 0) 5 5 true = Some (mkPoint 10 0)
  /\ solveIK (mkPoint 0 0) (mkPoint 20 0) 5 5 true <> Some (mkPoint 5 0).
Proof.
  assert (Hd : calculateDistance (mkPoint 0 0) (mkPoint 20 0) = 20).
  { unfold calculateDistance; cbn [x y].
    replace ((20 - 0) ^ 2 + (0 - 0) ^ 2) with (20 * 20) by ring.
    apply sqrt_square; lra. }
  rewrite solveIK_extended by (rewrite ?Hd; lra).
  cbn [x y]. rewrite Hd.
  split; [lra|]. split.
  - do 2 f_equal; lra.
  - intros H. injection H as H _. lra.
Qed.

(** C6 (amended): when the distance from root to target is at least
    [len1 + len2 - 0.1] (lengths positive), [solveIK] returns the point of
    the segment from [p1] to [p2] at the fraction [len1 / (len1 + len2)];
    its distance from [p1] is that fraction of the distance to the target,
    which is [len1] when the target is exactly [len1 + len2] away. *)
Theorem solveIK_extended_result p1 p2 len1 len2 bend :
  0 < len1 -> 0 < len2 ->
  len1 + len2 - 0.1 <= calculateDistance p1 p2 ->
  let q := mkPoint (x p1 + (x p2 - x p1) * (len1 / (len1 + len2)))
                   (y p1 + (y p2 - y p1) * (len1 / (len1 + len2))) in
  solveIK p1 p2 len1 len2 bend = Some q
  /\ calculateDistance p1 q
     = calculateDistance p1 p2 * (len1 / (len1 + len2))
  /\ (calculateDistance p1 p2 = len1 + len2 -> calculateDistance p1 q = len1).
Proof.
  intros H1 H2 Hd q.
  assert (Hq : calculateDistance p1 q
               = calculateDistance p1 p2 * (len1 / (len1 + len2))).
  { unfold calculateDistance, q; cbn [x y].
    set (r := len1 / (len1 + len2)).
    assert (Hr : 0 <= r) by (apply Rlt_le, Rdiv_lt_0_compat; lra).
    replace (x p1 + (x p2 - x p1) * r - x p1) with ((x p2 - x p1) * r) by ring.
    replace (y p1 + (y p2 - y p1) * r - y p1) with ((y p2 - y p1) * r) by ring.
    rewrite scaled_norm by exact Hr.
    replace ((x p2 - x p1) ^ 2 + (y p2 - y p1) ^ 2)
      with ((x p2 - x p1) * (x p2 - x p1) + (y p2 - y p1) * (y p2 - y p1))
      by ring.
    ring. }
  split; [apply solveIK_extended; lra|].
  split; [exact Hq|].
  intros He. rewrite Hq, He. field. lra.
Qed.

Lemma solveIK_extended_result_witness :
  solveIK (mkPoint 0 0) (mkPoint 10 0) 5 5 true
  = Some (mkPoint (0 + (10 - 0) * (5 / (5 + 5))) (0 + (0 - 0) * (5 / (5 + 5)))).
Proof.
  apply (solveIK_extended_result (mkPoint 0 0) (mkPoint 10 0) 5 5 true);
    [lra | lra |].
  unfold calculateDistance. simpl x. simpl y.
  replace ((10 - 0) ^ 2 + (0 - 0) ^ 2) with (10 * 10) by ring.
  rewrite sqrt_square; lra.
Defined.

(** C8: when root and target coincide and both lengths are 5, the distance
    used by the law of cosines is floored at 1, the divisor is 10, the
    cosine is 1/10, and [solveIK] returns a point: half a unit to the right
    of the root, above or below it according to the bend. *)
Theorem solveIK_degenerate (p : Point) (bend : bool) :
  Rmax (calculateDistance p p) 1 = 1
  /\ divF (1 * 1 + 5 * 5 - 5 * 5) (2 * 1 * 5) = Some (1 / 10)
  /\ solveIK p p 5 5 bend
     = Some (mkPoint (x p + 1 / 10 * 5)
                     (y p + (if bend then sin (acos (1 / 10))
                             else - sin (acos (1 / 10))) * 5)).
Proof.
  assert (Hfloor : Rmax (calculateDistance p p) 1 = 1).
  { rewrite calculateDistance_self. apply Rmax_right; lra. }
  assert (Hdiv : divF (1 * 1 + 5 * 5 - 5 * 5) (2 * 1 * 5) = Some (1 / 10)).
  { unfold divF. rewrite (proj2 (NumFacts.eqb_false _ _)) by lra.
    f_equal; lra. }
  split; [exact Hfloor|]. split; [exact Hdiv|].
  unfold solveIK; cbv zeta.
  rewrite Hfloor, calculateDistance_self.
  rewrite (proj2 (NumFacts.geb_false _ _)) by lra.
  rewrite Hdiv. unfold bind.
  rewrite (Rmin_right 1 (1 / 10)) by lra.
  rewrite (Rmax_right (-1) (1 / 10)) by lra.
  unfold acosF.
  rewrite (proj2 (NumFacts.leb_true (-1) (1 / 10))) by lra.
  rewrite (proj2 (NumFacts.leb_true (1 / 10) 1)) by lra.
  cbn [andb].
  replace (y p - y p) with 0 by ring.
  replace (x p - x p) with 0 by ring.
  rewrite atan2_origin.
  destruct bend.
  - rewrite Rplus_0_l, cos_acos by lra. reflexivity.
  - replace (0 - acos (1 / 10)) with (- acos (1 / 10)) by ring.
    rewrite cos_neg, sin_neg, cos_acos by lra. reflexivity.
Qed.


(** *** C7: attachments whose hold is gone *)



Lemma applyConstraint_position c v maxLen off minLen :
  applyConstraint c (Some v) maxLen off minLen
  = applyConstraint c (Some (OnPoint (pos v))) maxLen off minLen.
Proof. destruct v; reflexivity. Qed.








(** ** Further properties of utils/gameUtils.ts *)

(** *** Angles *)

Lemma atan2_range dy dx : - PI < Num.atan2 dy dx <= PI.
Proof.
  pose proof PI_RGT_0 as Hpi.
  unfold Num.atan2.
  destruct (Num.ltb 0 dx) eqn:H1; num_hyp H1.
  { pose proof (atan_bound (dy / dx)). lra. }
  destruct (Num.ltb dx 0) eqn:H2; num_hyp H2.
  { destruct (Num.leb 0 dy) eqn:H3; num_hyp H3.
    - assert (Hq : dy / dx <= 0).
      { unfold Rdiv. assert (/ dx < 0) by (apply Rinv_lt_0_compat; lra). nra. }
      pose proof (atan_bound (dy / dx)).
      assert (atan (dy / dx) <= 0).
      { destruct Hq as [Hq | Hq].
        - apply Rlt_le. rewrite <- atan_0. now apply atan_increasing.
        - rewrite Hq, atan_0. lra. }
      lra.
    - assert (Hq : 0 < dy / dx).
      { unfold Rdiv. assert (/ dx < 0) by (apply Rinv_lt_0_compat; lra). nra. }
      pose proof (atan_bound (dy / dx)).
      assert (0 < atan (dy / dx)) by (rewrite <- atan_0; now apply atan_increasing).
      lra. }
  destruct (Num.ltb 0 dy); [lra|].
  destruct (Num.ltb dy 0); lra.
Qed.

(** X1: [getAngle] returns an angle in degrees between 0 and 360, both
    included: a negative angle [theta] is returned as [360 + theta], which
    the program's rounding can bring to 360. *)
Theorem getAngle_range (p1 p2 : Point) : 0 <= getAngle p1 p2 <= 360.
Proof.
  pose proof PI_RGT_0 as Hpi.
  unfold getAngle; cbv zeta.
  set (a := Num.atan2 _ _).
  destruct (atan2_range (y p2 - y p1) (x p2 - x p1)) as [Hlo Hhi]. fold a in Hlo, Hhi.
  assert (Hk : 0 < 180 / PI) by (apply Rdiv_lt_0_compat; lra).
  assert (H180 : PI * (180 / PI) = 180) by (field; lra).
  assert (Hup : a * (180 / PI) <= 180) by nra.
  assert (Hdn : -180 < a * (180 / PI)) by nra.
  destruct (_ <? 0) eqn:H; num_hyp H; lra.
Qed.

(** X2: for two angles in [0, 360) [getAngleDiff] is the unsigned angular
    distance: it lies in [0, 180], does not depend on the order of its
    arguments, and is 0 exactly when the angles are equal. *)
Theorem getAngleDiff_distance (a b : R) :
  0 <= a < 360 -> 0 <= b < 360 ->
  0 <= getAngleDiff a b <= 180
  /\ getAngleDiff a b = getAngleDiff b a
  /\ (getAngleDiff a b = 0 <-> a = b).
Proof.
  intros Ha Hb. unfold getAngleDiff; cbv zeta.
  rewrite (Rabs_minus_sym b a).
  assert (Habs : 0 <= Rabs (a - b) < 360).
  { unfold Rabs. destruct (Rcase_abs (a - b)); lra. }
  split; [|split].
  - destruct (_ >? 180) eqn:H; num_hyp H; lra.
  - reflexivity.
  - destruct (_ >? 180) eqn:H; num_hyp H.
    + split; intros E; [lra|]. subst. rewrite Rminus_diag, Rabs_R0 in H. lra.
    + split; intros E.
      * unfold Rabs in E. destruct (Rcase_abs (a - b)); lra.
      * subst. now rewrite Rminus_diag, Rabs_R0.
Qed.

Lemma getAngleDiff_distance_witness :
  0 <= getAngleDiff 350 10 <= 180
  /\ getAngleDiff 350 10 = getAngleDiff 10 350
  /\ (getAngleDiff 350 10 = 0 <-> 350 = 10).
Proof.
  apply (getAngleDiff_distance 350 10); lra.
Defined.

(** *** Scores *)

(** X3: the stability score is always in [0, 100], and it is 0 for a climber
    with no placed limb. *)
Theorem calculateStability_score (s : ClimberState) (hs : list Hold)
    (wallAngle : R) (realism : bool) :
  0 <= calculateStability s hs wallAngle realism <= 100
  /\ (limbs s = noLimbs -> calculateStability s hs wallAngle realism = 0).
Proof.
  split; [apply calculateStability_range|].
  intros H. unfold calculateStability; cbv zeta. now rewrite H.
Qed.

(** X4: the terms [getFrictionPenalty] accumulates are all non-negative, so
    its final clamp at 0 never acts: the penalty is the chalk term plus the
    feet and hand terms, and it is at least the chalk term. *)
Theorem getFrictionPenalty_sum (s : ClimberState) (hs : list Hold)
    (wallAngle : R) (realism : bool) :
  getFrictionPenalty s hs wallAngle realism
  = chalkPenalty s realism + supportPenalty s hs wallAngle realism
  /\ 0 <= chalkPenalty s realism
  /\ 0 <= supportPenalty s hs wallAngle realism.
Proof.
  split; [apply getFrictionPenalty_value|].
  split; [apply chalkPenalty_nonneg | apply supportPenalty_nonneg].
Qed.

(** X5: the friction penalty never grows with chalk, and realism mode never
    lowers the chalk term. *)
Theorem getFrictionPenalty_chalk_monotone (s : ClimberState) (hs : list Hold)
    (wallAngle : R) (realism : bool) (c1 c2 : R) :
  c1 <= c2 ->
  getFrictionPenalty (set_chalk s c2) hs wallAngle realism
  <= getFrictionPenalty (set_chalk s c1) hs wallAngle realism
  /\ chalkPenalty s false <= chalkPenalty s true.
Proof.
  intros Hc. split.
  - rewrite !getFrictionPenalty_value, !supportPenalty_set_chalk.
    unfold chalkPenalty; cbn [chalk set_chalk].
    assert (Rmax 0 (30 - c2) <= Rmax 0 (30 - c1)).
    { apply Rmax_lub; [apply Rmax_l|].
      apply Rle_trans with (30 - c1); [lra | apply Rmax_r]. }
    destruct realism; lra.
  - unfold chalkPenalty. pose proof (Rmax_l 0 (30 - chalk s)). lra.
Qed.

Lemma getFrictionPenalty_chalk_monotone_witness :
  getFrictionPenalty (set_chalk sDangling 40) [] 0 false
  <= getFrictionPenalty (set_chalk sDangling 10) [] 0 false
  /\ chalkPenalty sDangling false <= chalkPenalty sDangling true.
Proof.
  apply (getFrictionPenalty_chalk_monotone sDangling [] 0 false 10 40). lra.
Defined.


(** *** The three cases of [applyConstraint] *)




Lemma applyConstraint_within c v maxLen off minLen :
  anchorDist c v off <= maxLen ->
  minLen <= anchorDist c v off \/ anchorDist c v off <= 0.1 ->
  applyConstraint c (Some v) maxLen off minLen = c.
Proof.
  intros H1 H2. unfold applyConstraint; cbv zeta.
  fold (anchorDist c v off).
  rewrite (proj2 (NumFacts.gtb_false _ _) H1).
  destruct H2 as [H2 | H2].
  - now rewrite (proj2 (NumFacts.ltb_false _ _) H2).
  - rewrite (proj2 (NumFacts.gtb_false _ _) H2). now rewrite andb_false_r.
Qed.


(** *** One placed limb *)





(** X8: a proposed centre of mass that already satisfies the constraint of
    every placed limb (within reach, and not compressed unless within 0.1 of
    the anchor) is returned unchanged. *)
Theorem constrainBodyPosition_fixed_point (com : Point) (ls : Limbs)
    (hs : list Hold) :
  (forall l v, limb_get ls l = Some v ->
     anchorDist com v (anchorOffset l) <= reachOf l
     /\ (MIN_COMPRESSION <= anchorDist com v (anchorOffset l)
         \/ anchorDist com v (anchorOffset l) <= 0.1)) ->
  constrainBodyPosition com ls hs = com.
Proof.
  intros H.
  assert (Hpass : constrainPass ls com = com).
  { unfold constrainPass; cbv zeta.
    assert (Hone : forall l, applyConstraint com (limb_get ls l) (reachOf l)
                               (anchorOffset l) MIN_COMPRESSION = com).
    { intros l. destruct (limb_get ls l) as [v|] eqn:E; [|reflexivity].
      destruct (H l v E). now apply applyConstraint_within. }
    pose proof (Hone leftHand) as H1. pose proof (Hone rightHand) as H2.
    pose proof (Hone leftFoot) as H3. pose proof (Hone rightFoot) as H4.
    cbn [limb_get reachOf] in H1, H2, H3, H4.
    now rewrite H1, H2, H3, H4. }
  unfold constrainBodyPosition.
  change (Nat.iter ITERATIONS (constrainPass ls) com)
    with (constrainPass ls (constrainPass ls (constrainPass ls
            (constrainPass ls com)))).
  now rewrite !Hpass.
Qed.

Lemma constrainBodyPosition_fixed_point_witness :
  constrainBodyPosition (mkPoint 50 50)
    (mkLimbs (Some (OnPoint (mkPoint 46.75 35.65))) None None None) []
  = mkPoint 50 50.
Proof.
  apply (constrainBodyPosition_fixed_point (mkPoint 50 50)
           (mkLimbs (Some (OnPoint (mkPoint 46.75 35.65))) None None None) []).
  intros l v H. destruct l; try discriminate H.
  injection H as <-.
  assert (Hd : anchorDist (mkPoint 50 50) (OnPoint (mkPoint 46.75 35.65))
                 (anchorOffset leftHand) = 5).
  { unfold anchorDist. simpl pos. simpl x. simpl y.
    unfold ANATOMY.shoulderWidth, ANATOMY.torsoHeight.
    match goal with
    | |- sqrt ?e = _ => replace e with (5 * 5) by lra
    end.
    apply sqrt_square; lra. }
  rewrite Hd.
  unfold reachOf, HAND_REACH, MIN_COMPRESSION, MAX_REACH.hand,
    ANATOMY.armUpper, ANATOMY.armLower.
  split; [lra | left; lra].
Defined.

(** *** solveIK beyond the claims *)

Lemma unit_circle_norm t len :
  0 <= len -> sqrt ((cos t * len) ^ 2 + (sin t * len) ^ 2) = len.
Proof.
  intros H. rewrite scaled_norm by exact H.
  replace (cos t * cos t + sin t * sin t) with 1.
  - rewrite sqrt_1. ring.
  - pose proof (sin2_cos2 t) as E. unfold Rsqr in E. lra.
Qed.

Lemma solveIK_bent p1 p2 length1 length2 bendRight :
  0 < length1 ->
  calculateDistance p1 p2 < length1 + length2 - 0.1 ->
  exists q,
    solveIK p1 p2 length1 length2 bendRight = Some q
    /\ calculateDistance p1 q = length1.
Proof.
  intros H1 Hd. unfold solveIK; cbv zeta.
  rewrite (proj2 (NumFacts.geb_false _ _) Hd).
  set (safeDist := Rmax (calculateDistance p1 p2) 1).
  assert (Hs : 1 <= safeDist) by apply Rmax_r.
  unfold divF.
  rewrite (proj2 (NumFacts.eqb_false (2 * safeDist * length1) 0)) by nra.
  cbn [bind].
  set (q := _ / _).
  set (cosAngle := Rmax (-1) (Rmin 1 q)).
  assert (Hc : -1 <= cosAngle <= 1).
  { unfold cosAngle. split; [apply Rmax_l|].
    apply Rmax_lub; [lra | apply Rmin_l]. }
  unfold acosF.
  rewrite (proj2 (NumFacts.leb_true _ _) (proj1 Hc)).
  rewrite (proj2 (NumFacts.leb_true _ _) (proj2 Hc)).
  cbn [andb bind].
  eexists. split; [reflexivity|].
  unfold calculateDistance; cbn [x y].
  match goal with
  | |- sqrt ((x p1 + cos ?t * _ - _) ^ 2 + _) = _ =>
      replace (x p1 + cos t * length1 - x p1) with (cos t * length1) by ring;
      replace (y p1 + sin t * length1 - y p1) with (sin t * length1) by ring;
      apply unit_circle_norm; lra
  end.
Qed.

(** X10: for a positive first length and a non-negative second length
    [solveIK] always returns a point (no division by zero, no [acos] outside
    its domain), and in the bent branch (target closer than
    [length1 + length2 - 0.1]) the joint is exactly [length1] from the
    root. *)
Theorem solveIK_joint (p1 p2 : Point) (length1 length2 : R) (bendRight : bool) :
  0 < length1 -> 0 <= length2 ->
  exists q,
    solveIK p1 p2 length1 length2 bendRight = Some q
    /\ (calculateDistance p1 p2 < length1 + length2 - 0.1 ->
        calculateDistance p1 q = length1).
Proof.
  intros H1 H2. unfold solveIK; cbv zeta.
  destruct (calculateDistance p1 p2 >=? length1 + length2 - 0.1) eqn:Hd;
    num_hyp Hd.
  - unfold divF. rewrite (proj2 (NumFacts.eqb_false _ _)) by lra.
    cbn [bind]. eexists. split; [reflexivity | lra].
  - destruct (solveIK_bent p1 p2 length1 length2 bendRight H1 Hd)
      as (q & Hq & Hl).
    unfold solveIK in Hq; cbv zeta in Hq.
    rewrite (proj2 (NumFacts.geb_false _ _) Hd) in Hq.
    exists q. split; [exact Hq | intros _; exact Hl].
Qed.

Lemma solveIK_joint_witness :
  exists q,
    solveIK (mkPoint 0 0) (mkPoint 6 0) 5 5 true = Some q
    /\ (calculateDistance (mkPoint 0 0) (mkPoint 6 0) < 5 + 5 - 0.1 ->
        calculateDistance (mkPoint 0 0) q = 5).
Proof.
  apply (solveIK_joint (mkPoint 0 0) (mkPoint 6 0) 5 5 true); lra.
Defined.

(** *** Auto-detach *)

Lemma checkAndDetach_get c ls l off maxR l' :
  limb_get (checkAndDetach c ls l off maxR) l'
  = match limb_get ls l' with
    | Some v =>
        if (match l, l' with
            | leftHand, leftHand | rightHand, rightHand
            | leftFoot, leftFoot | rightFoot, rightFoot => true
            | _, _ => false
            end)
           && (calculateDistance (mkPoint (x c + x off) (y c + y off)) (pos v)
               >? maxR * 1.05)
        then None else Some v
    | None => None
    end.
Proof.
  unfold checkAndDetach.
  destruct ls as [l1 l2 l3 l4].
  destruct l, l'; cbn [limb_get limb_set lh rh lf rf];
    repeat match goal with
           | |- context [match ?o with Some _ => _ | None => _ end] =>
               destruct o
           | |- context [if (_ >? _) then _ else _] => destruct (_ >? _)
           end; reflexivity.
Qed.

(** X11: after the auto-detach check a limb is still placed exactly when it
    was placed and lies within 105% of its maximum reach from the anchor of
    the proposed centre of mass; surviving limbs keep their value. *)
Theorem autoDetach_survivors (c : Point) (ls : Limbs) (l : Limb) (v : LimbVal) :
  limb_get (autoDetach c ls) l = Some v
  <-> limb_get ls l = Some v
      /\ calculateDistance (anchorOf c l) (pos v) <= maxReachOf l * 1.05.
Proof.
  unfold autoDetach; cbv zeta.
  rewrite !checkAndDetach_get. unfold anchorOf.
  destruct l; cbn [maxReachOf];
    destruct (limb_get ls _) as [w|]; cbn [andb];
    try (split; [discriminate | intros [H _]; discriminate H]);
    destruct (_ >? _) eqn:Ht; num_hyp Ht; cbn [andb];
    (split;
     [ intros H;
       first [ discriminate H
             | injection H as <-; split; [reflexivity | exact Ht] ]
     | intros [H Hd]; injection H as ->; first [reflexivity | lra] ]).
Qed.

(** *** Fatigue *)

(** X12: cutting both feet on an overhang costs a fixed extra core drain:
    for a climber with a hand placed and a wall angle above 0, the core
    drain with both feet off is the core drain with a foot on plus 0.15
    (0.25 in realism mode). *)
Theorem campusing_core_drain (s : ClimberState) (hs : list Hold)
    (drains : HoldType -> R) (wallAngle : R) (realism : bool)
    (f1 f2 : option LimbVal) :
  nonNull [lh (limbs s); rh (limbs s)] <> [] ->
  nonNull [f1; f2] <> [] ->
  0 < wallAngle ->
  core (calculateTickDrain (withFeet s None None) hs drains wallAngle realism)
  = core (calculateTickDrain (withFeet s f1 f2) hs drains wallAngle realism)
    + (if realism then 0.25 else 0.15).
Proof.
  intros Hh Hf Hw.
  unfold calculateTickDrain, feetAttached, withFeet, values; cbv zeta.
  cbn [limbs set_limbs balance lh rh lf rf].
  rewrite (proj2 (NumFacts.gtb_true _ _) Hw).
  assert (Ha : forall g1 g2,
             Nat.eqb (List.length (nonNull [lh (limbs s); rh (limbs s); g1; g2])) 0
             = false).
  { intros g1 g2. cbn [nonNull] in *.
    destruct (lh (limbs s)), (rh (limbs s)); try reflexivity. congruence. }
  rewrite !Ha.
  assert (Hff : Nat.eqb (List.length (nonNull [f1; f2])) 0 = false).
  { destruct (nonNull [f1; f2]); [congruence | reflexivity]. }
  rewrite Hff. cbn [nonNull List.length Nat.eqb andb core]. lra.
Qed.

Lemma campusing_core_drain_witness :
  core (calculateTickDrain (withFeet sDangling None None) [] HOLD_STAMINA_DRAIN
                           30 false)
  = core (calculateTickDrain
            (withFeet sDangling (Some (OnPoint (mkPoint 46 60))) None) []
            HOLD_STAMINA_DRAIN 30 false)
    + (if false then 0.25 else 0.15).
Proof.
  apply (campusing_core_drain sDangling [] HOLD_STAMINA_DRAIN 30 false
           (Some (OnPoint (mkPoint 46 60))) None);
    [discriminate | discriminate | lra].
Defined.

Lemma HOLD_STAMINA_DRAIN_nonneg t : 0 <= HOLD_STAMINA_DRAIN t.
Proof. destruct t; unfold HOLD_STAMINA_DRAIN; lra. Qed.

(** X13: for a hand attached to a hold of the list, with a drain table that
    has no negative entry, the pump delta is the shake-out recovery -0.03
    when the hold is a jug, start or finish hold, balance is below 40 and the
    wall angle below 30, and is strictly positive otherwise: a table entry of
    0 (the start holds) is replaced by 0.05. *)
Theorem calculateArmPump_attached (s : ClimberState) (hs : list Hold)
    (drains : HoldType -> R) (wallAngle : R) (realism : bool)
    (limb : Limb) (p : Point) (holdId : string) (hold : Hold) :
  limb_get (limbs s) limb = Some (OnHold p holdId) ->
  findHold hs holdId = Some hold ->
  (forall t, 0 <= drains t) ->
  if shakeOut s hold wallAngle
  then calculateArmPump s hs drains wallAngle realism limb = - 0.03
  else 0 < calculateArmPump s hs drains wallAngle realism limb.
Proof.
  intros Hl Hf Hd. unfold calculateArmPump, shakeOut; cbv zeta.
  rewrite Hl, Hf.
  destruct (_ && _ && _); [reflexivity|].
  assert (H0 : 0 < Num.orElse (drains (type hold)) 0.05).
  { unfold Num.orElse. destruct (_ =? 0) eqn:E; num_hyp E; [lra|].
    specialize (Hd (type hold)). lra. }
  set (d0 := Num.orElse _ _) in *.
  assert (H1 : 0 < (if realism
                     then let diff := getAngleDiff
                                        (getAngle p (mkPoint (x (centerOfMass s))
                                                       (y (centerOfMass s) - 8)))
                                        (match type hold with
                                         | crimp | sloper =>
                                             Num.fmod (rotation hold + 90) 360
                                         | _ => 90
                                         end) in
                          if diff >? 45 then d0 * (1.5 + diff / 45) else d0
                     else d0)).
  { destruct realism; [|exact H0]. cbv zeta.
    destruct (_ >? 45) eqn:E; [|exact H0]. num_hyp E.
    apply Rmult_lt_0_compat; lra. }
  cbv zeta in H1.
  set (d1 := if realism then _ else _) in *.
  assert (H2 : 0 < (if wallAngle >? 0 then 1 + wallAngle / 30 else 1)).
  { destruct (wallAngle >? 0) eqn:E; [|lra]. num_hyp E. lra. }
  assert (H3 : 0 < (if Nat.eqb (feetAttached s) 0 then 2.5 else 1))
    by (destruct (Nat.eqb _ 0); lra).
  set (o := if wallAngle >? 0 then _ else _) in *.
  set (f := if Nat.eqb _ 0 then _ else _) in *.
  assert (H4 : 0 < d1 * o) by (apply Rmult_lt_0_compat; assumption).
  assert (H5 : 0 < d1 * o * f) by (apply Rmult_lt_0_compat; assumption).
  lra.
Qed.

Lemma calculateArmPump_attached_witness :
  0 < calculateArmPump (climber simCampus) (holds lvlSlab) HOLD_STAMINA_DRAIN
        45 false leftHand.
Proof.
  pose proof (calculateArmPump_attached (climber simCampus) (holds lvlSlab)
                HOLD_STAMINA_DRAIN 45 false leftHand (mkPoint 46.75 35.67) "j1"
                (mkHold "j1" 46.75 35.67 jug 0) eq_refl eq_refl
                HOLD_STAMINA_DRAIN_nonneg) as H.
  unfold shakeOut in H.
  rewrite (proj2 (NumFacts.ltb_false 45 30)) in H by lra.
  rewrite andb_false_r in H. exact H.
Defined.


(** ** Further properties of the frame loop (App.tsx) *)

Ltac num_hyps :=
  repeat match goal with
         | H : _ = true |- _ => num_hyp H
         | H : _ = false |- _ => num_hyp H
         end.

(** *** Status transitions *)

Lemma drainStep_status env s :
  status (fst (drainStep env s)) = status s
  \/ status (fst (drainStep env s)) = falling.
Proof.
  unfold drainStep; cbv zeta. cbn [fst].
  destruct (negb (infiniteStamina env)).
  - rewrite andb_true_r.
    destruct (_ >=? 100); read_field; auto.
  - rewrite andb_false_r. now left.
Qed.

Lemma gameLogic_status env safeDt sim :
  status (climber (gameLogic env safeDt sim)) = status (climber sim)
  \/ (status (climber sim) = climbing
      /\ status (climber (gameLogic env safeDt sim)) = falling).
Proof.
  unfold gameLogic; cbv zeta.
  destruct (status (climber sim)) eqn:Hst; cbn [Status_eqb andb];
    try (left; cbn; exact Hst).
  destruct (negb (isUserDragging env)); [|left; cbn; exact Hst].
  destruct (_ >? 100); [|left; exact Hst].
  pose proof (drainStep_status env (climber sim)) as H.
  destruct (drainStep env (climber sim)) as [s' b]. cbn [fst climber] in *.
  rewrite Hst in H. destruct H; [left | right]; auto.
Qed.

Lemma checkFall_status env s :
  status (checkFall env s) = status s
  \/ (status s = climbing /\ status (checkFall env s) = falling).
Proof.
  unfold checkFall.
  destruct (_ && _ && _); [|now left].
  cbv zeta. cbn [status set_comY set_centerOfMass].
  destruct (status s) eqn:Hst; cbn [Status_eqb]; cbn; auto.
Qed.

Lemma fallingPhysics_status env s :
  status (fallingPhysics env s) = status s
  \/ status (fallingPhysics env s) = idle.
Proof.
  unfold fallingPhysics; cbv zeta. read_field; auto.
Qed.

(** X14: the status edges of a frame: a frame leaves the status unchanged,
    or sets it to [idle], or turns [climbing] into [falling].  In
    particular no frame starts a climb or tops out, and [idle] stays
    [idle]. *)
Theorem tick_status_edges (env : Env) (dt : R) (sim : Sim) :
  let st := status (climber sim) in
  let st' := status (climber (loop env dt sim)) in
  st' = st \/ st' = idle \/ (st = climbing /\ st' = falling).
Proof.
  cbv zeta. unfold loop; cbv zeta.
  destruct (_ >? 0); [|now left].
  unfold updater; cbv zeta.
  set (s0 := set_velocity (climber sim) _).
  assert (H0 : status s0 = status (climber sim)) by reflexivity.
  destruct (Status_eqb (status s0) falling).
  - cbn [climber]. destruct (fallingPhysics_status env s0) as [H | H];
      rewrite H; auto.
  - destruct (isGrounded env s0 && negb (isUserDragging env)).
    + cbn [climber]. rewrite groundedStep_status. auto.
    + cbn [climber].
      set (s1 := if negb (isUserDragging env) then climbingPhysics env s0 else s0).
      assert (H1 : status s1 = status (climber sim))
        by (subst s1; destruct (negb (isUserDragging env)); exact H0).
      set (sim1 := mkSim s1 _ _ _).
      pose proof (checkFall_status env (climber (gameLogic env (Rmin dt 50) sim1)))
        as Hc.
      pose proof (gameLogic_status env (Rmin dt 50) sim1) as Hg'.
      cbn [climber] in Hg'. fold sim1 in Hg'.
      change (climber sim1) with s1 in Hg'. rewrite H1 in Hg'.
      destruct Hc as [Hc | [Hc1 Hc2]].
      * rewrite Hc. destruct Hg' as [Hg' | [Hg1 Hg2]]; auto.
      * rewrite Hc2. destruct Hg' as [Hg' | [Hg1 Hg2]].
        -- right; right. split; [congruence | reflexivity].
        -- congruence.
Qed.

(** *** Hands are never placed by a frame *)

Ltac limb_step :=
  cbn [set_balance set_stamina set_armPump set_status set_comY set_comX
       set_centerOfMass set_limbs set_chalk set_velocity
       limbs stamina armPump chalk balance status centerOfMass velocity
       lh rh lf rf limb_set limb_get noLimbs getStartLimbs fst];
  try match goal with
      | |- context [match ?c with _ => _ end] => destruct c eqn:?
      end.

Ltac read_limb := repeat (progress limb_step).

Lemma keptOrLost_trans a b c :
  keptOrLost a b -> keptOrLost b c -> keptOrLost a c.
Proof. unfold keptOrLost. intros [-> | ->] [-> | ->]; auto. Qed.

Lemma keptOrLost_refl a : keptOrLost a a.
Proof. now left. Qed.

Lemma fallingPhysics_hands env s l :
  l = leftHand \/ l = rightHand ->
  limb_get (limbs (fallingPhysics env s)) l = None.
Proof.
  intros [-> | ->]; unfold fallingPhysics; cbv zeta; read_limb; reflexivity.
Qed.

Lemma groundedStep_hands env s l :
  l = leftHand \/ l = rightHand ->
  limb_get (limbs (groundedStep env s)) l = limb_get (limbs s) l.
Proof.
  intros [-> | ->]; unfold groundedStep; cbv zeta; read_limb; reflexivity.
Qed.

Lemma drainStep_limbs env s l :
  keptOrLost (limb_get (limbs s) l) (limb_get (limbs (fst (drainStep env s))) l).
Proof.
  unfold keptOrLost, drainStep; cbv zeta.
  destruct (negb (infiniteStamina env)).
  - rewrite andb_true_r.
    destruct l; destruct (_ >=? 100); read_limb; auto.
  - rewrite andb_false_r. now left.
Qed.

Lemma gameLogic_limbs env safeDt sim l :
  keptOrLost (limb_get (limbs (climber sim)) l)
             (limb_get (limbs (climber (gameLogic env safeDt sim))) l).
Proof.
  unfold gameLogic; cbv zeta.
  destruct (_ && _); [|now left].
  destruct (_ >? 100); [|now left].
  pose proof (drainStep_limbs env (climber sim) l) as H.
  destruct (drainStep env (climber sim)) as [s' b]. exact H.
Qed.

Lemma checkFall_limbs env s l :
  keptOrLost (limb_get (limbs s) l) (limb_get (limbs (checkFall env s)) l).
Proof.
  unfold keptOrLost, checkFall.
  destruct (_ && _ && _); [|now left].
  cbv zeta. destruct l; read_limb; auto.
Qed.

(** X15: a frame never places or moves a hand: after a frame each hand has
    the value it had before or is detached. *)
Theorem tick_never_places_a_hand (env : Env) (dt : R) (sim : Sim) (l : Limb) :
  l = leftHand \/ l = rightHand ->
  limb_get (limbs (climber (loop env dt sim))) l
  = limb_get (limbs (climber sim)) l
  \/ limb_get (limbs (climber (loop env dt sim))) l = None.
Proof.
  intros Hl. unfold loop; cbv zeta.
  destruct (_ >? 0); [|now left].
  unfold updater; cbv zeta.
  set (s0 := set_velocity (climber sim) _).
  destruct (Status_eqb (status s0) falling).
  - right. cbn [climber]. now apply fallingPhysics_hands.
  - destruct (isGrounded env s0 && negb (isUserDragging env)).
    + left. cbn [climber]. now rewrite groundedStep_hands.
    + cbn [climber].
      set (s1 := if negb (isUserDragging env) then climbingPhysics env s0 else s0).
      assert (H1 : keptOrLost (limb_get (limbs (climber sim)) l)
                              (limb_get (limbs s1) l)).
      { subst s1. destruct (negb (isUserDragging env)); [|now left].
        destruct (climbingPhysics_frame env s0) as (_ & _ & _ & _ & _ & ->).
        apply autoDetach_keeps. }
      set (sim1 := mkSim s1 _ _ _).
      apply (keptOrLost_trans _ _ _ H1).
      apply (keptOrLost_trans _ (limb_get (limbs (climber (gameLogic env (Rmin dt 50) sim1))) l)).
      * apply (gameLogic_limbs env (Rmin dt 50) sim1 l).
      * apply checkFall_limbs.
Qed.

Lemma tick_never_places_a_hand_witness :
  limb_get (limbs (climber (loop envPlay 16 simAirborne))) leftHand
  = limb_get (limbs (climber simAirborne)) leftHand
  \/ limb_get (limbs (climber (loop envPlay 16 simAirborne))) leftHand = None.
Proof.
  apply (tick_never_places_a_hand envPlay 16 simAirborne leftHand).
  left. reflexivity.
Defined.

(** *** Frames while the user drags *)

(** X16: while the user is dragging and the climber is not falling, a frame
    suspends the physics and the drain: it only records the velocity and
    sets [balance] to 0; the drain accumulator is untouched and the slipping
    flag is cleared. *)
Theorem tick_while_dragging (env : Env) (dt : R) (sim : Sim) :
  0 < dt ->
  isUserDragging env = true ->
  status (climber sim) <> falling ->
  loop env dt sim
  = mkSim (set_balance
             (set_velocity (climber sim) (frameVelocity (Rmin dt 50) sim)) 0)
          (staminaAccumulator sim) (centerOfMass (climber sim)) false.
Proof.
  intros Hdt Hd Hst. rewrite loop_runs by exact Hdt.
  unfold updater, gameLogic, checkFall; cbv zeta.
  rewrite Hd. cbn [negb andb status set_velocity climber].
  rewrite !andb_false_r.
  destruct (status (climber sim)) eqn:E; try congruence; reflexivity.
Qed.

Lemma tick_while_dragging_witness :
  loop (mkEnv lvl0 false false true) 16 simAirborne
  = mkSim (set_balance
             (set_velocity (climber simAirborne)
                (frameVelocity (Rmin 16 50) simAirborne)) 0)
          (staminaAccumulator simAirborne)
          (centerOfMass (climber simAirborne)) false.
Proof.
  apply (tick_while_dragging (mkEnv lvl0 false false true) 16 simAirborne);
    [lra | reflexivity | discriminate].
Defined.


(** *** Velocity *)

Lemma fallingPhysics_velocity env s :
  velocity (fallingPhysics env s) = velocity s.
Proof. unfold fallingPhysics; cbv zeta. read_field; reflexivity. Qed.

Lemma groundedStep_velocity env s :
  velocity (groundedStep env s) = velocity s.
Proof. unfold groundedStep; cbv zeta. read_field; reflexivity. Qed.

Lemma drainStep_velocity env s :
  velocity (fst (drainStep env s)) = velocity s.
Proof.
  unfold drainStep; cbv zeta. cbn [fst].
  destruct (negb (infiniteStamina env)).
  - rewrite andb_true_r. destruct (_ >=? 100); read_field; reflexivity.
  - rewrite andb_false_r. reflexivity.
Qed.

Lemma gameLogic_velocity env safeDt sim :
  velocity (climber (gameLogic env safeDt sim)) = velocity (climber sim).
Proof.
  unfold gameLogic; cbv zeta.
  destruct (_ && _); [|reflexivity].
  destruct (_ >? 100); [|reflexivity].
  pose proof (drainStep_velocity env (climber sim)) as H.
  destruct (drainStep env (climber sim)) as [s' b]. exact H.
Qed.

Lemma checkFall_velocity env s : velocity (checkFall env s) = velocity s.
Proof. unfold checkFall; cbv zeta. read_field; reflexivity. Qed.

Lemma updater_velocity env safeDt sim :
  velocity (climber (updater env safeDt sim)) = frameVelocity safeDt sim
  /\ prevCOM (updater env safeDt sim) = centerOfMass (climber sim).
Proof.
  unfold updater; cbv zeta.
  set (s0 := set_velocity (climber sim) _).
  destruct (Status_eqb (status s0) falling).
  - cbn [climber prevCOM]. rewrite fallingPhysics_velocity. now split.
  - destruct (isGrounded env s0 && negb (isUserDragging env)).
    + cbn [climber prevCOM]. rewrite groundedStep_velocity. now split.
    + cbn [climber prevCOM]. rewrite checkFall_velocity, gameLogic_velocity.
      cbn [climber]. split.
      * destruct (negb (isUserDragging env)); reflexivity.
      * unfold gameLogic; cbv zeta.
        destruct (_ && _); [|reflexivity].
        destruct (_ >? 100); [|reflexivity].
        destruct (drainStep env _); reflexivity.
Qed.

(** X17: the velocity a frame records is the displacement of the centre of
    mass over the previous frame, scaled by [16 / safeDt]: after two frames
    that run, the velocity is the difference between the centre of mass
    after the first frame and the one before it, times [16 / min(dt2, 50)]. *)
Theorem velocity_is_previous_displacement (env1 env2 : Env) (dt1 dt2 : R)
    (sim : Sim) :
  0 < dt1 -> 0 < dt2 ->
  let sim1 := loop env1 dt1 sim in
  let sim2 := loop env2 dt2 sim1 in
  velocity (climber sim2)
  = mkPoint ((x (centerOfMass (climber sim1)) - x (centerOfMass (climber sim)))
             * (16 / Rmin dt2 50))
            ((y (centerOfMass (climber sim1)) - y (centerOfMass (climber sim)))
             * (16 / Rmin dt2 50)).
Proof.
  intros H1 H2. cbv zeta.
  rewrite (loop_runs env2 dt2) by exact H2.
  destruct (updater_velocity env2 (Rmin dt2 50) (loop env1 dt1 sim)) as [-> _].
  unfold frameVelocity.
  rewrite (loop_runs env1 dt1 sim) by exact H1.
  destruct (updater_velocity env1 (Rmin dt1 50) sim) as [_ ->].
  reflexivity.
Qed.

Lemma velocity_is_previous_displacement_witness :
  let sim1 := loop envPlay 16 simAirborne in
  let sim2 := loop envPlay 16 sim1 in
  velocity (climber sim2)
  = mkPoint ((x (centerOfMass (climber sim1))
              - x (centerOfMass (climber simAirborne))) * (16 / Rmin 16 50))
            ((y (centerOfMass (climber sim1))
              - y (centerOfMass (climber simAirborne))) * (16 / Rmin 16 50)).
Proof.
  apply (velocity_is_previous_displacement envPlay envPlay 16 16 simAirborne);
    lra.
Defined.

(** *** Falling *)

(** X18: a frame of a falling climber.  Above [groundY - 5] the climber
    keeps falling with all limbs detached, drops by 1.5, and the horizontal
    position stays within the wall, [0 <= x <= 100]; from there on the
    climber lands: status [idle], standing height [groundY - 14], the start
    limbs, stamina 50. *)
Theorem tick_while_falling (env : Env) (dt : R) (sim : Sim) :
  0 < dt ->
  status (climber sim) = falling ->
  let s := climber sim in
  let s' := climber (loop env dt sim) in
  let groundY := getGroundY (level env) in
  if y (centerOfMass s) <? groundY - 5 then
    status s' = falling /\ limbs s' = noLimbs
    /\ y (centerOfMass s') = y (centerOfMass s) + 1.5
    /\ 0 <= x (centerOfMass s') <= 100
    /\ stamina s' = stamina s
  else
    status s' = idle /\ limbs s' = getStartLimbs (level env)
    /\ y (centerOfMass s') = groundY - 14
    /\ x (centerOfMass s') = x (centerOfMass s)
    /\ stamina s' = 50.
Proof.
  intros Hdt Hst. cbv zeta.
  rewrite loop_runs by exact Hdt.
  destruct sim as [[ls st ap ch bal sta [cx cy] vel] acc [px py] sl].
  cbn [climber status] in Hst. subst sta.
  unfold updater, fallingPhysics; simp_rec.
  set (vx := (cx - px) * (16 / Rmin dt 50)).
  destruct (cy <? _ - 5); simp_rec.
  - destruct (cx + vx * 0.95 <? 0) eqn:H1; num_hyp H1; simp_rec;
      destruct (_ >? 100) eqn:H2; num_hyp H2; simp_rec;
      repeat split; try reflexivity; lra.
  - repeat split.
Qed.

Lemma tick_while_falling_witness :
  let sim := loop envPlay 16 simAirborne in
  let s := climber sim in
  let s' := climber (loop envPlay 16 sim) in
  let groundY := getGroundY (level envPlay) in
  if y (centerOfMass s) <? groundY - 5 then
    status s' = falling /\ limbs s' = noLimbs
    /\ y (centerOfMass s') = y (centerOfMass s) + 1.5
    /\ 0 <= x (centerOfMass s') <= 100
    /\ stamina s' = stamina s
  else
    status s' = idle /\ limbs s' = getStartLimbs (level envPlay)
    /\ y (centerOfMass s') = groundY - 14
    /\ x (centerOfMass s') = x (centerOfMass s)
    /\ stamina s' = 50.
Proof.
  apply (tick_while_falling envPlay 16 (loop envPlay 16 simAirborne));
    [lra | apply tick_airborne_falls].
Defined.


(** *** Standing on the ground *)

Ltac xy_cbn :=
  cbn [set_balance set_stamina set_armPump set_status set_comY set_comX
       set_centerOfMass set_limbs set_chalk set_velocity
       limbs stamina armPump chalk balance status centerOfMass velocity x y
       lh rh lf rf limb_set limb_get].

Ltac xy_step :=
  xy_cbn;
  try match goal with
      | |- context [match ?c with _ => _ end] => destruct c eqn:?
      end.

Ltac read_xy := repeat (progress xy_step).

Lemma groundedStep_height env s :
  y (centerOfMass (groundedStep env s))
  = Rmin (getGroundY (level env) - 12)
         (if (x (velocity s) =? 0) && (y (velocity s) =? 0)
          then y (centerOfMass s) * 0.9 + (getGroundY (level env) - 14) * 0.1
          else y (centerOfMass s)).
Proof.
  unfold groundedStep; cbv zeta.
  xy_cbn.
  destruct (negb (Status_eqb (status s) idle));
    destruct ((x (velocity s) =? 0) && (y (velocity s) =? 0));
    read_xy; num_hyps;
    first [ rewrite Rmin_left by lra; reflexivity
          | rewrite Rmin_right by lra; reflexivity ].
Qed.

Lemma groundedStep_feet env s :
  lf (limbs (groundedStep env s)) <> None
  /\ rf (limbs (groundedStep env s)) <> None.
Proof.
  split; unfold groundedStep; cbv zeta; xy_cbn;
    destruct (negb (Status_eqb (status s) idle));
    destruct ((x (velocity s) =? 0) && (y (velocity s) =? 0)); xy_cbn;
    destruct (_ >? _); xy_cbn;
    read_xy;
    cbn [set_balance set_stamina set_armPump set_status set_comY
         set_centerOfMass set_limbs limbs lf rf] in *; congruence.
Qed.

Lemma groundedStep_standing env s :
  standing env s -> standing env (groundedStep env s).
Proof.
  unfold standing. intros H. rewrite groundedStep_height.
  apply Rmin_glb; [lra|].
  destruct (_ && _); lra.
Qed.

Lemma standing_tick env dt sim :
  0 < dt ->
  isUserDragging env = false ->
  status (climber sim) <> falling ->
  standing env (climber sim) ->
  let s' := climber (loop env dt sim) in
  status s' = idle /\ standing env s'
  /\ stamina s' = Rmin 100 (stamina (climber sim) + 0.5)
  /\ armPump s' = mkPump 0 0 /\ balance s' = 0
  /\ lf (limbs s') <> None /\ rf (limbs s') <> None.
Proof.
  intros Hdt Hd Hst Hs. cbv zeta.
  rewrite loop_runs by exact Hdt.
  destruct (updater_grounded env (Rmin dt 50) sim Hst Hd Hs) as [v ->].
  destruct (groundedStep_fields env (set_velocity (climber sim) v))
    as (H1 & H2 & H3 & _).
  split; [apply groundedStep_status|].
  split; [apply groundedStep_standing; exact Hs|].
  split; [exact H1|]. split; [exact H2|]. split; [exact H3|].
  apply groundedStep_feet.
Qed.

Lemma Rmin_100_step a k :
  Rmin 100 (Rmin 100 (a + 0.5 * INR k) + 0.5) = Rmin 100 (a + 0.5 * INR (S k)).
Proof.
  rewrite S_INR. unfold Rmin.
  destruct (Rle_dec 100 (a + 0.5 * INR k));
    repeat match goal with
           | |- context [Rle_dec ?u ?w] => destruct (Rle_dec u w)
           end; lra.
Qed.

(** X19: a climber standing on the ground who is neither falling nor
    dragged stays there: after any number [n >= 1] of frames the status is
    [idle], the climber is still standing with both feet placed, arm pump and
    balance are 0, and stamina has recovered by 0.5 per frame up to 100:
    it is [min(100, stamina + 0.5 n)]. *)
Theorem standing_idle (env : Env) (dt : R) (sim : Sim) (n : nat) :
  0 < dt ->
  isUserDragging env = false ->
  status (climber sim) <> falling ->
  standing env (climber sim) ->
  let s' := climber (Nat.iter (S n) (loop env dt) sim) in
  status s' = idle /\ standing env s'
  /\ stamina s' = Rmin 100 (stamina (climber sim) + 0.5 * INR (S n))
  /\ armPump s' = mkPump 0 0 /\ balance s' = 0
  /\ lf (limbs s') <> None /\ rf (limbs s') <> None.
Proof.
  intros Hdt Hd Hst Hs. cbv zeta.
  induction n as [|n IH].
  - change (Nat.iter 1 (loop env dt) sim) with (loop env dt sim).
    destruct (standing_tick env dt sim Hdt Hd Hst Hs)
      as (H1 & H2 & H3 & H4).
    repeat split; try tauto.
    rewrite H3. cbn [INR]. f_equal. lra.
  - change (Nat.iter (S (S n)) (loop env dt) sim)
      with (loop env dt (Nat.iter (S n) (loop env dt) sim)).
    destruct IH as (I1 & I2 & I3 & _).
    assert (Hnf : status (climber (Nat.iter (S n) (loop env dt) sim)) <> falling)
      by (rewrite I1; discriminate).
    destruct (standing_tick env dt _ Hdt Hd Hnf I2) as (H1 & H2 & H3 & H4).
    repeat split; try tauto.
    rewrite H3, I3. apply Rmin_100_step.
Qed.

Lemma standing_idle_witness :
  let sim := mkSim (initialClimber lvl0) 0 (getStartCom lvl0) false in
  let s' := climber (Nat.iter 10 (loop envPlay 16) sim) in
  status s' = idle /\ standing envPlay s'
  /\ stamina s' = Rmin 100 (stamina (climber sim) + 0.5 * INR 10)
  /\ armPump s' = mkPump 0 0 /\ balance s' = 0
  /\ lf (limbs s') <> None /\ rf (limbs s') <> None.
Proof.
  apply (standing_idle envPlay 16
           (mkSim (initialClimber lvl0) 0 (getStartCom lvl0) false) 9).
  - lra.
  - reflexivity.
  - discriminate.
  - unfold standing. simpl. lra.
Defined.


(** *** Exhaustion and chalk *)

Lemma drainStep_exhausted env s :
  infiniteStamina env = false ->
  stamina s <= 0 ->
  status (fst (drainStep env s)) = falling
  /\ limbs (fst (drainStep env s)) = noLimbs
  /\ stamina (fst (drainStep env s)) = 0.
Proof.
  intros Hi Hs.
  pose proof (calculateStability_range s (holds (level env))
                (wallAngleOf (level env)) (realismMode env)) as Hr.
  unfold drainStep; cbv zeta. rewrite Hi. cbn [negb fst]. rewrite andb_true_r.
  set (score := calculateStability _ _ _ _) in *.
  destruct (score >=? 100).
  - match goal with
    | |- context [calculateTickDrain ?s1 ?hs ?d ?w ?r] =>
        pose proof (calculateTickDrain_core_nonneg s1 hs d w r) as Hc;
        set (drains := calculateTickDrain s1 hs d w r) in *
    end.
    cbn [balance set_limbs set_status set_balance] in Hc.
    specialize (Hc ltac:(lra)).
    repeat match goal with
           | |- context [?a >=? 100] => destruct (a >=? 100)
           end;
      cbn [set_stamina set_armPump set_chalk set_limbs set_status set_balance
           stamina limbs status];
      (rewrite (proj2 (NumFacts.leb_true _ 0))
        by (rewrite Rmax_left by lra; lra));
      cbn [set_stamina set_armPump set_chalk set_limbs set_status set_balance
           stamina limbs status];
      (repeat split; try reflexivity; rewrite Rmax_left by lra; reflexivity).
  - match goal with
    | |- context [calculateTickDrain ?s1 ?hs ?d ?w ?r] =>
        pose proof (calculateTickDrain_core_nonneg s1 hs d w r) as Hc;
        set (drains := calculateTickDrain s1 hs d w r) in *
    end.
    cbn [balance set_limbs set_status set_balance] in Hc.
    specialize (Hc ltac:(lra)).
    repeat match goal with
           | |- context [?a >=? 100] => destruct (a >=? 100)
           end;
      cbn [set_stamina set_armPump set_chalk set_limbs set_status set_balance
           stamina limbs status];
      (rewrite (proj2 (NumFacts.leb_true _ 0))
        by (rewrite Rmax_left by lra; lra));
      cbn [set_stamina set_armPump set_chalk set_limbs set_status set_balance
           stamina limbs status];
      (repeat split; try reflexivity; rewrite Rmax_left by lra; reflexivity).
Qed.

Lemma checkFall_stamina env s : stamina (checkFall env s) = stamina s.
Proof. unfold checkFall; cbv zeta. read_field; reflexivity. Qed.

Lemma drainInput_stamina env safeDt sim :
  stamina (drainInput env safeDt sim) = stamina (climber sim).
Proof.
  unfold drainInput.
  rewrite (proj1 (climbingPhysics_frame env _)). reflexivity.
Qed.

(** X20: a climber who starts a drain tick with no stamina left falls.  When
    the frame runs the drain step (climbing, off the ground, not dragged, the
    accumulator passing 100 ms, stamina not infinite) on a climber whose
    stamina is 0 (or below), the climber ends the frame falling, with every
    limb released and stamina 0, whatever the climber holds on to. *)
Theorem exhausted_climber_falls (env : Env) (dt : R) (sim : Sim) :
  0 < dt ->
  isUserDragging env = false ->
  infiniteStamina env = false ->
  status (climber sim) = climbing ->
  y (centerOfMass (climber sim)) < getGroundY (level env) - 16 ->
  100 < staminaAccumulator sim + Rmin dt 50 ->
  stamina (climber sim) <= 0 ->
  let s' := climber (loop env dt sim) in
  status s' = falling /\ limbs s' = noLimbs /\ stamina s' = 0.
Proof.
  intros Hdt Hdrag Hinf Hst Hy Hacc Hsta. cbv zeta.
  rewrite loop_runs by exact Hdt.
  rewrite updater_airborne by (try congruence; assumption).
  rewrite gameLogic_drain;
    [| cbn [climber]; rewrite drainInput_status; exact Hst
     | exact Hdrag | cbn [staminaAccumulator]; exact Hacc ].
  cbn [climber].
  destruct (drainStep_exhausted env (drainInput env (Rmin dt 50) sim) Hinf)
    as (H1 & H2 & H3).
  { rewrite drainInput_stamina. exact Hsta. }
  destruct (checkFall_falling env _ H1 H2) as [H4 H5].
  rewrite checkFall_stamina. auto.
Qed.

Lemma exhausted_climber_falls_witness :
  let s' := climber (loop (mkEnv lvlSlab false false false) 50 simExhausted) in
  status s' = falling /\ limbs s' = noLimbs /\ stamina s' = 0.
Proof.
  apply (exhausted_climber_falls (mkEnv lvlSlab false false false) 50
           simExhausted).
  - lra.
  - reflexivity.
  - reflexivity.
  - reflexivity.
  - unfold simExhausted, simCampus, with_climber, getGroundY, lvlSlab.
    cbn [climber set_stamina centerOfMass y level height]. lra.
  - unfold simExhausted, simCampus, with_climber.
    cbn [staminaAccumulator]. rewrite Rmin_left by lra. lra.
  - unfold simExhausted, simCampus, with_climber.
    cbn [climber set_stamina stamina]. lra.
Defined.

Lemma drainStep_chalk env s :
  chalk (fst (drainStep env s)) = chalk s
  \/ (infiniteStamina env = false
      /\ chalk (fst (drainStep env s)) = Rmax 0 (chalk s - 0.02)).
Proof.
  unfold drainStep; cbv zeta. cbn [fst].
  destruct (infiniteStamina env); cbn [negb].
  - rewrite andb_false_r. left. reflexivity.
  - rewrite andb_true_r. right. split; [reflexivity|].
    destruct (_ >=? 100); read_field; reflexivity.
Qed.

Lemma gameLogic_chalk env safeDt sim :
  chalk (climber (gameLogic env safeDt sim)) = chalk (climber sim)
  \/ (status (climber sim) = climbing /\ isUserDragging env = false
      /\ infiniteStamina env = false
      /\ chalk (climber (gameLogic env safeDt sim))
         = Rmax 0 (chalk (climber sim) - 0.02)).
Proof.
  unfold gameLogic; cbv zeta.
  destruct (status (climber sim)) eqn:Hst; cbn [Status_eqb andb];
    try (left; reflexivity).
  destruct (isUserDragging env); cbn [negb]; [left; reflexivity|].
  destruct (_ >? 100); [|left; reflexivity].
  pose proof (drainStep_chalk env (climber sim)) as H.
  destruct (drainStep env (climber sim)) as [s' b]. cbn [fst climber] in *.
  destruct H as [H | [H1 H2]]; [left | right]; auto.
Qed.

Lemma checkFall_chalk env s : chalk (checkFall env s) = chalk s.
Proof. unfold checkFall; cbv zeta. read_field; reflexivity. Qed.

Lemma fallingPhysics_chalk env s : chalk (fallingPhysics env s) = chalk s.
Proof. unfold fallingPhysics; cbv zeta. read_field; reflexivity. Qed.

(** X21: no frame adds chalk.  A frame leaves the chalk as it is, or, for a
    climbing climber who is not dragged and whose stamina is not infinite,
    takes 0.02 off it and stops at 0 (the drain tick).  Falling, landing and
    standing on the ground do not change the chalk. *)
Theorem tick_chalk (env : Env) (dt : R) (sim : Sim) :
  let c := chalk (climber sim) in
  let c' := chalk (climber (loop env dt sim)) in
  c' = c
  \/ (status (climber sim) = climbing /\ isUserDragging env = false
      /\ infiniteStamina env = false /\ c' = Rmax 0 (c - 0.02)).
Proof.
  cbv zeta. unfold loop; cbv zeta.
  destruct (_ >? 0); [|now left].
  unfold updater; cbv zeta.
  set (s0 := set_velocity (climber sim) _).
  assert (H0 : status s0 = status (climber sim)) by reflexivity.
  assert (C0 : chalk s0 = chalk (climber sim)) by reflexivity.
  destruct (Status_eqb (status s0) falling).
  - cbn [climber]. rewrite fallingPhysics_chalk. auto.
  - destruct (isGrounded env s0 && negb (isUserDragging env)).
    + cbn [climber].
      rewrite (proj2 (proj2 (proj2 (groundedStep_fields env s0)))). auto.
    + cbn [climber].
      set (s1 := if negb (isUserDragging env) then climbingPhysics env s0 else s0).
      assert (H1 : status s1 = status (climber sim)).
      { subst s1; destruct (negb (isUserDragging env)); [|exact H0].
        rewrite (proj1 (proj2 (proj2 (proj2 (proj2
                   (climbingPhysics_frame env s0)))))). exact H0. }
      assert (C1 : chalk s1 = chalk (climber sim)).
      { subst s1; destruct (negb (isUserDragging env)); [|exact C0].
        rewrite (proj1 (proj2 (proj2 (climbingPhysics_frame env s0)))).
        exact C0. }
      set (sim1 := mkSim s1 _ _ _).
      rewrite checkFall_chalk.
      pose proof (gameLogic_chalk env (Rmin dt 50) sim1) as Hg.
      change (climber sim1) with s1 in Hg. rewrite H1, C1 in Hg.
      exact Hg.
Qed.


(** *** Placing a limb *)

Lemma handlePlaceLimb_limbs lvl val limb prev :
  limbs (handlePlaceLimb lvl val limb prev) = limb_set (limbs prev) limb val.
Proof. reflexivity. Qed.

Lemma handlePlaceLimb_hands lvl val limb prev :
  status (handlePlaceLimb lvl val limb prev)
  = let ls := limb_set (limbs prev) limb val in
    let st := if onFinish lvl (lh ls) && onFinish lvl (rh ls)
              then topped else status prev in
    if Status_eqb st idle && match val with Some _ => true | None => false end
    then climbing else st.
Proof.
  unfold handlePlaceLimb; cbv zeta.
  cbn [status set_status set_limbs].
  assert (Hv : (isAttached val || match val with Some _ => true | None => false end)
               = match val with Some _ => true | None => false end).
  { destruct val as [[|]|]; reflexivity. }
  rewrite Hv.
  assert (Hl : match limb with leftHand => val | _ => lh (limb_set (limbs prev) limb val) end
               = lh (limb_set (limbs prev) limb val)) by (destruct limb; reflexivity).
  assert (Hr : match limb with rightHand => val | _ => rh (limb_set (limbs prev) limb val) end
               = rh (limb_set (limbs prev) limb val)) by (destruct limb; reflexivity).
  rewrite Hl, Hr.
  set (l := lh _). set (r := rh _).
  match goal with
  | |- (if Status_eqb ?a idle && _ then _ else _) = _ =>
      assert (Hst : a = if onFinish lvl l && onFinish lvl r
                        then topped else status prev)
  end.
  { unfold onFinish.
    destruct l as [[pl|pl il]|]; try reflexivity;
      destruct r as [[pr|pr ir]|]; try reflexivity;
      cbn [andb];
      try (destruct (findHold _ il) as [hl|]; [destruct (type hl)|]; reflexivity).
    destruct (findHold _ il) as [hl|]; [|reflexivity].
    destruct (findHold _ ir) as [hr|];
      [destruct (type hl), (type hr) | destruct (type hl)]; reflexivity. }
  rewrite Hst. reflexivity.
Qed.

(** X22: the status after a limb placement.  The climber is [topped]
    afterwards exactly when the status was [topped] before or both hands, after the
    placement, are attached to holds of the level of type [finish]; this
    holds from every status, also [falling] and [idle], and for a placement
    of a foot.  Apart from that, a non-null placement turns [idle] into
    [climbing], and nothing else changes the status: a placement never makes
    the climber fall or go back to [idle]. *)
Theorem handlePlaceLimb_status (lvl : Level) (val : option LimbVal)
    (limb : Limb) (prev : ClimberState) :
  let s' := handlePlaceLimb lvl val limb prev in
  (status s' = topped
   <-> status prev = topped
       \/ onFinish lvl (lh (limbs s')) && onFinish lvl (rh (limbs s')) = true)
  /\ (status s' = climbing
      <-> onFinish lvl (lh (limbs s')) && onFinish lvl (rh (limbs s')) = false
          /\ (status prev = climbing \/ (status prev = idle /\ val <> None)))
  /\ (status s' = falling -> status prev = falling)
  /\ (status s' = idle -> status prev = idle /\ val = None).
Proof.
  cbv zeta. rewrite handlePlaceLimb_hands, handlePlaceLimb_limbs. cbv zeta.
  destruct (onFinish lvl (lh _) && onFinish lvl (rh _));
    destruct (status prev); destruct val; cbn [Status_eqb andb];
    intuition (try congruence; try discriminate).
Qed.


(** *** Releasing a dragged limb *)

Lemma releaseOrigin_anchor com l : releaseOrigin com l = anchorOf com l.
Proof.
  unfold releaseOrigin, anchorOf, anchorOffset.
  destruct l; cbn [isHand x y]; f_equal; lra.
Qed.

Lemma releaseMaxLen_reach l : releaseMaxLen l = maxReachOf l.
Proof. destruct l; reflexivity. Qed.

Lemma point_eta (p : Point) : mkPoint (x p) (y p) = p.
Proof. destruct p; reflexivity. Qed.

Lemma distance_sym p q : calculateDistance p q = calculateDistance q p.
Proof. unfold calculateDistance. f_equal. ring. Qed.

Lemma distance_as_norm p q :
  calculateDistance p q
  = sqrt ((x q - x p) * (x q - x p) + (y q - y p) * (y q - y p)).
Proof. unfold calculateDistance. f_equal. ring. Qed.

Lemma releasedLimb_wellPlaced lvl com l p :
  wellPlaced lvl com l p (releasedLimb lvl com l p).
Proof.
  unfold releasedLimb; cbv zeta.
  rewrite releaseOrigin_anchor, releaseMaxLen_reach, point_eta.
  destruct (closestHold (holds lvl) p) as [h|] eqn:Hc.
  - unfold closestHold in Hc. apply find_some in Hc. destruct Hc as [Hin Hd].
    apply NumFacts.ltb_true in Hd.
    set (dx := x p - hx h) in *. set (dy := y p - hy h) in *.
    assert (Hnorm : calculateDistance p (holdCentre h) = sqrt (dx * dx + dy * dy)).
    { rewrite distance_sym, distance_as_norm. reflexivity. }
    assert (Hrad : 0 < holdRadius h)
      by (unfold holdRadius; destruct (type h); lra).
    destruct (isReachable _ _ _) eqn:Hr; [|exact I].
    unfold isReachable in Hr. apply NumFacts.leb_true in Hr.
    cbn [wellPlaced]. exists h.
    split; [exact Hin|]. split; [reflexivity|]. split; [exact Hd|].
    rewrite Hnorm.
    destruct (sqrt (dx * dx + dy * dy) >? holdRadius h) eqn:Hg;
      num_hyp Hg.
    + split; [|split; [intros; lra | exact Hr]].
      unfold calculateDistance, holdCentre; cbn [x y].
      replace (hx h + dx * (holdRadius h / sqrt (dx * dx + dy * dy)) - hx h)
        with (dx * (holdRadius h / sqrt (dx * dx + dy * dy))) by ring.
      replace (hy h + dy * (holdRadius h / sqrt (dx * dx + dy * dy)) - hy h)
        with (dy * (holdRadius h / sqrt (dx * dx + dy * dy))) by ring.
      rewrite scaled_norm.
      * right. field. lra.
      * apply Rlt_le, Rdiv_lt_0_compat; lra.
    + split; [|split; [reflexivity | exact Hr]].
      rewrite distance_sym, Hnorm. exact Hg.
  - destruct (negb (isHand l) && isReachable (anchorOf com l) p (maxReachOf l))
      eqn:Hb; [|exact I].
    apply andb_true_iff in Hb. destruct Hb as [Hh Hr].
    unfold isReachable in Hr. apply NumFacts.leb_true in Hr.
    cbn [wellPlaced]. split; [now apply negb_true_iff|].
    split; [reflexivity|]. split; [|exact Hr].
    intros h Hin. unfold closestHold in Hc.
    pose proof (find_none _ _ Hc h Hin) as Hn. cbv beta in Hn.
    apply NumFacts.ltb_false in Hn. lra.
Qed.

(** X23: what releasing a dragged limb can place.  After [handleMouseUp]
    the dragged limb is free, or attached to a hold of the level whose
    centre is less than 6 from the pointer, at a point inside that hold's
    disc (the pointer itself when it is inside) and at most 1.2 limb lengths
    from the shoulder or hip; or, for a foot only, smearing at the pointer,
    when no hold centre is within 6 of it and the pointer is within one leg
    length of the hip.  The other three limbs are as before, and with no
    limb dragged (a body drag, or no drag) the climber is unchanged. *)
Theorem handleMouseUp_placement (lvl : Level) (dragTarget : option DragTarget)
    (p : Point) (prev : ClimberState) :
  let s' := handleMouseUp lvl dragTarget p prev in
  match dragTarget with
  | Some (DragLimb l) =>
      wellPlaced lvl (centerOfMass prev) l p (limb_get (limbs s') l)
      /\ forall l', l' <> l -> limb_get (limbs s') l' = limb_get (limbs prev) l'
  | _ => s' = prev
  end.
Proof.
  cbv zeta. destruct dragTarget as [[|l]|]; try reflexivity.
  unfold handleMouseUp. rewrite handlePlaceLimb_limbs. split.
  - replace (limb_get (limb_set (limbs prev) l _) l)
      with (releasedLimb lvl (centerOfMass prev) l p)
      by (destruct l; reflexivity).
    apply releasedLimb_wellPlaced.
  - intros l' Hl. destruct l, l'; try reflexivity; congruence.
Qed.


(** *** Dragging *)

Lemma constrainBodyPosition_unchanged com ls hs :
  (forall l v, limb_get ls l = Some v ->
     anchorDist com v (anchorOffset l) <= reachOf l
     /\ MIN_COMPRESSION <= anchorDist com v (anchorOffset l)) ->
  constrainBodyPosition com ls hs = com.
Proof.
  intros H.
  assert (Hone : forall l, applyConstraint com (limb_get ls l) (reachOf l)
                             (anchorOffset l) MIN_COMPRESSION = com).
  { intros l. destruct (limb_get ls l) as [v|] eqn:E; [|reflexivity].
    destruct (H l v E). apply applyConstraint_within; auto. }
  assert (Hpass : constrainPass ls com = com).
  { unfold constrainPass; cbv zeta.
    pose proof (Hone leftHand) as H1. pose proof (Hone rightHand) as H2.
    pose proof (Hone leftFoot) as H3. pose proof (Hone rightFoot) as H4.
    cbn [limb_get reachOf] in H1, H2, H3, H4.
    now rewrite H1, H2, H3, H4. }
  unfold constrainBodyPosition.
  change (Nat.iter ITERATIONS (constrainPass ls) com)
    with (constrainPass ls (constrainPass ls (constrainPass ls
            (constrainPass ls com)))).
  now rewrite !Hpass.
Qed.

Lemma maxReachOf_value l : 13 <= maxReachOf l <= 16.
Proof.
  destruct l; unfold maxReachOf, MAX_REACH.hand, MAX_REACH.foot,
    ANATOMY.armUpper, ANATOMY.armLower, ANATOMY.legUpper, ANATOMY.legLower; lra.
Qed.

Lemma reachOf_maxReachOf l : reachOf l = maxReachOf l * 0.99.
Proof. destruct l; reflexivity. Qed.

(** X24: the body follows a dragged limb.  While a limb is dragged and the
    other three limbs are free, a pointer move leaves the limb's shoulder or
    hip where it is when the pointer is within 0.9 limb lengths of it, and
    otherwise moves the body so that the shoulder or hip is exactly 0.9 limb
    lengths from the pointer; the drag goes on and no limb is placed or
    released. *)
Theorem limb_drag_pulls_body (lvl : Level) (l : Limb) (dragOffset p : Point)
    (cs : ClimberState) :
  (forall l', l' <> l -> limb_get (limbs cs) l' = None) ->
  let r := handleMouseMove lvl (Some (DragLimb l)) dragOffset p cs in
  snd r = Some (DragLimb l)
  /\ limbs (fst r) = limbs cs
  /\ calculateDistance (anchorOf (centerOfMass (fst r)) l) p
     = Rmin (calculateDistance (anchorOf (centerOfMass cs) l) p)
            (maxReachOf l * 0.9).
Proof.
  intros Hfree. cbv zeta. unfold handleMouseMove; cbv zeta.
  fold (anchorOf (centerOfMass cs) l).
  set (a := anchorOf (centerOfMass cs) l).
  set (lim := maxReachOf l * 0.9).
  pose proof (maxReachOf_value l) as Hm.
  destruct (calculateDistance a p >? lim) eqn:Hd; num_hyp Hd; cbn [fst snd].
  - split; [reflexivity|]. split; [reflexivity|].
    rewrite Rmin_right by lra.
    set (dx := x a - x p). set (dy := y a - y p).
    set (d := sqrt (dx * dx + dy * dy)).
    assert (Hdd : calculateDistance a p = d).
    { rewrite distance_sym, distance_as_norm. reflexivity. }
    assert (Hdpos : lim < d) by lra.
    set (newCOM := mkPoint (x p + dx * (lim / d) - x (anchorOffset l))
                           (y p + dy * (lim / d) - y (anchorOffset l))).
    assert (Hnew : calculateDistance (anchorOf newCOM l) p = lim).
    { rewrite distance_sym. unfold calculateDistance, anchorOf, newCOM; cbn [x y].
      replace (x p + dx * (lim / d) - x (anchorOffset l) + x (anchorOffset l) - x p)
        with (dx * (lim / d)) by ring.
      replace (y p + dy * (lim / d) - y (anchorOffset l) + y (anchorOffset l) - y p)
        with (dy * (lim / d)) by ring.
      rewrite scaled_norm.
      - fold d. field. unfold lim in Hdpos. lra.
      - apply Rlt_le, Rdiv_lt_0_compat; unfold lim in *; lra. }
    rewrite constrainBodyPosition_unchanged; [exact Hnew|].
    intros l' v Hv.
    assert (l' = l).
    { destruct l, l'; try reflexivity; exfalso;
        cbn [limb_get limb_set lh rh lf rf] in Hv;
        first [ pose proof (Hfree leftHand ltac:(discriminate)) as Hn;
                cbn [limb_get] in Hn; congruence
              | pose proof (Hfree rightHand ltac:(discriminate)) as Hn;
                cbn [limb_get] in Hn; congruence
              | pose proof (Hfree leftFoot ltac:(discriminate)) as Hn;
                cbn [limb_get] in Hn; congruence
              | pose proof (Hfree rightFoot ltac:(discriminate)) as Hn;
                cbn [limb_get] in Hn; congruence ]. }
    subst l'.
    assert (v = OnPoint (mkPoint (x p) (y p)))
      by (destruct l; cbn [limb_get limb_set lh rh lf rf] in Hv; congruence).
    subst v.
    assert (Ha : anchorDist newCOM (OnPoint (mkPoint (x p) (y p))) (anchorOffset l)
                 = lim).
    { rewrite <- Hnew. rewrite distance_as_norm.
      unfold anchorDist, anchorOf; cbn [pos x y]. reflexivity. }
    rewrite Ha, reachOf_maxReachOf. unfold MIN_COMPRESSION, lim. lra.
  - split; [reflexivity|]. split; [reflexivity|].
    rewrite Rmin_left by lra. reflexivity.
Qed.

Lemma limb_drag_pulls_body_witness :
  let r := handleMouseMove lvl0 (Some (DragLimb leftHand)) (mkPoint 0 0)
             (mkPoint 20 20) sDangling in
  snd r = Some (DragLimb leftHand)
  /\ limbs (fst r) = limbs sDangling
  /\ calculateDistance (anchorOf (centerOfMass (fst r)) leftHand) (mkPoint 20 20)
     = Rmin (calculateDistance (anchorOf (centerOfMass sDangling) leftHand)
               (mkPoint 20 20))
            (maxReachOf leftHand * 0.9).
Proof.
  apply (limb_drag_pulls_body lvl0 leftHand (mkPoint 0 0) (mkPoint 20 20)
           sDangling).
  intros l' H. destruct l'; [congruence | reflexivity | reflexivity | reflexivity].
Defined.

(** X25: a body drag that may start is not cancelled.  When
    [handleBodyDragStart] starts a drag, the climber is idle or climbing,
    the drag offset is the centre of mass minus the pointer, a climber with
    no attached limb is one the frame loop treats as standing, and a pointer
    move on that climber keeps the drag going, wherever the pointer is. *)
Theorem body_drag_start (env : Env) (isEditorMode : bool) (p : Point)
    (cs : ClimberState) (r : DragTarget * Point) :
  handleBodyDragStart (level env) isEditorMode p cs = Some r ->
  r = (DragCOM, mkPoint (x (centerOfMass cs) - x p) (y (centerOfMass cs) - y p))
  /\ isEditorMode = false
  /\ (status cs = idle \/ status cs = climbing)
  /\ (attachedCount (limbs cs) = 0%nat -> isGrounded env cs = true)
  /\ forall dragOffset p',
       snd (handleMouseMove (level env) (Some DragCOM) dragOffset p' cs)
       = Some DragCOM.
Proof.
  unfold handleBodyDragStart; cbv zeta. intros H.
  destruct isEditorMode; [discriminate|]. cbn [orb] in H.
  destruct (status cs) eqn:Hst; cbn [Status_eqb orb] in H; try discriminate.
  - destruct (Nat.eqb (attachedCount (limbs cs)) 0) eqn:Hc; cbn [andb] in H.
    + destruct (_ >=? _) eqn:Hg in H; cbn [negb] in H; [|discriminate].
      num_hyp Hg. injection H as <-.
      repeat split; auto.
      * intros _. unfold isGrounded. apply NumFacts.geb_true. lra.
      * intros off p'. unfold handleMouseMove; cbv zeta. rewrite Hc.
        rewrite (proj2 (NumFacts.ltb_false _ _)) by lra. reflexivity.
    + injection H as <-. repeat split; auto.
      * intros E. rewrite E in Hc. discriminate.
      * intros off p'. unfold handleMouseMove; cbv zeta. rewrite Hc. reflexivity.
  - destruct (Nat.eqb (attachedCount (limbs cs)) 0) eqn:Hc; cbn [andb] in H.
    + destruct (_ >=? _) eqn:Hg in H; cbn [negb] in H; [|discriminate].
      num_hyp Hg. injection H as <-.
      repeat split; auto.
      * intros _. unfold isGrounded. apply NumFacts.geb_true. lra.
      * intros off p'. unfold handleMouseMove; cbv zeta. rewrite Hc.
        rewrite (proj2 (NumFacts.ltb_false _ _)) by lra. reflexivity.
    + injection H as <-. repeat split; auto.
      * intros E. rewrite E in Hc. discriminate.
      * intros off p'. unfold handleMouseMove; cbv zeta. rewrite Hc. reflexivity.
Qed.

Lemma body_drag_start_witness :
  let cs := initialClimber lvl0 in
  let p := mkPoint 50 80 in
  let r := (DragCOM, mkPoint (x (centerOfMass cs) - x p)
                             (y (centerOfMass cs) - y p)) in
  r = (DragCOM, mkPoint (x (centerOfMass cs) - x p) (y (centerOfMass cs) - y p))
  /\ false = false
  /\ (status cs = idle \/ status cs = climbing)
  /\ (attachedCount (limbs cs) = 0%nat -> isGrounded envPlay cs = true)
  /\ forall dragOffset p',
       snd (handleMouseMove (level envPlay) (Some DragCOM) dragOffset p' cs)
       = Some DragCOM.
Proof.
  cbv zeta.
  apply (body_drag_start envPlay false (mkPoint 50 80) (initialClimber lvl0)).
  unfold handleBodyDragStart; cbv zeta.
  cbn [initialClimber status Status_eqb orb limbs getStartLimbs attachedCount
       values lh rh lf rf filter isAttached List.length Nat.eqb andb
       centerOfMass getStartCom x y level envPlay].
  rewrite (proj2 (NumFacts.geb_true _ _)) by lra.
  reflexivity.
Defined.


(** *** Editing the level *)

Lemma findHold_filter hs removed holdId :
  findHold (filter (fun h => negb (String.eqb (id h) removed)) hs) holdId
  = if String.eqb holdId removed then None else findHold hs holdId.
Proof.
  unfold findHold. induction hs as [|h hs IH]; cbn [filter find].
  - now destruct (String.eqb holdId removed).
  - destruct (String.eqb (id h) removed) eqn:Er; cbn [negb find].
    + rewrite IH. destruct (String.eqb holdId removed) eqn:E; [reflexivity|].
      destruct (String.eqb (id h) holdId) eqn:Eh; [|reflexivity].
      apply String.eqb_eq in Er, Eh. apply String.eqb_neq in E. congruence.
    + destruct (String.eqb (id h) holdId) eqn:Eh.
      * apply String.eqb_eq in Eh. subst holdId. now rewrite Er.
      * exact IH.
Qed.

Lemma findHold_app hs h holdId :
  findHold (hs ++ [h]) holdId
  = match findHold hs holdId with
    | Some h' => Some h'
    | None => if String.eqb (id h) holdId then Some h else None
    end.
Proof.
  unfold findHold. induction hs as [|h0 hs IH]; cbn [app find].
  - reflexivity.
  - destruct (String.eqb (id h0) holdId); [reflexivity | exact IH].
Qed.

Lemma findHold_none_filter hs removed :
  findHold hs removed = None ->
  filter (fun h => negb (String.eqb (id h) removed)) hs = hs.
Proof.
  unfold findHold. induction hs as [|h hs IH]; cbn [filter find]; [reflexivity|].
  destruct (String.eqb (id h) removed); [discriminate|].
  cbn [negb]. intros H. now rewrite IH.
Qed.

(** X26: clicking a hold in the editor removes every hold with that
    identifier and no other: afterwards a lookup of the clicked identifier
    finds nothing, a lookup of any other identifier finds what it found
    before, and the angle and height of the level are kept. *)
Theorem editor_hold_click_lookup (hold : Hold) (lvl : Level) (holdId : string) :
  let lvl' := handleEditorHoldClick hold lvl in
  findHold (holds lvl') holdId
  = (if String.eqb holdId (id hold) then None else findHold (holds lvl) holdId)
  /\ angle lvl' = angle lvl /\ height lvl' = height lvl
  /\ forall h, In h (holds lvl') <-> In h (holds lvl) /\ id h <> id hold.
Proof.
  cbv zeta. unfold handleEditorHoldClick; cbn [holds angle height].
  split; [apply findHold_filter|]. split; [reflexivity|]. split; [reflexivity|].
  intros h. rewrite filter_In, negb_true_iff. split.
  - intros [Hi Hn]. split; [exact Hi|]. now apply String.eqb_neq.
  - intros [Hi Hn]. split; [exact Hi|]. now apply String.eqb_neq.
Qed.

(** X27: placing a hold and clicking it again restores the level.  When the
    identifier drawn for the new hold is not yet used in the level, the new
    hold is found under it, every other lookup is unchanged, and a click on
    the new hold gives back the level as it was. *)
Theorem editor_place_then_remove (newId : string) (x y : R)
    (editorTool : HoldType) (lvl : Level) :
  findHold (holds lvl) newId = None ->
  let newHold := mkHold newId x y editorTool 0 in
  let lvl' := handleEditorCanvasClick newId x y editorTool lvl in
  findHold (holds lvl') newId = Some newHold
  /\ (forall holdId, holdId <> newId ->
        findHold (holds lvl') holdId = findHold (holds lvl) holdId)
  /\ handleEditorHoldClick newHold lvl' = lvl.
Proof.
  intros Hfresh. cbv zeta.
  unfold handleEditorCanvasClick; cbn [holds angle height].
  split; [|split].
  - rewrite findHold_app, Hfresh. cbn [id]. now rewrite String.eqb_refl.
  - intros holdId Hne. rewrite findHold_app. cbn [id].
    destruct (findHold (holds lvl) holdId); [reflexivity|].
    apply not_eq_sym in Hne. apply String.eqb_neq in Hne. now rewrite Hne.
  - unfold handleEditorHoldClick; cbn [holds angle height id].
    rewrite filter_app. cbn [filter id]. rewrite String.eqb_refl. cbn [negb].
    rewrite app_nil_r, (findHold_none_filter _ _ Hfresh).
    destruct lvl; reflexivity.
Qed.

Lemma editor_place_then_remove_witness :
  let newHold := mkHold "k3x9" 50 50 jug 0 in
  let lvl' := handleEditorCanvasClick "k3x9" 50 50 jug lvlLowFinish in
  findHold (holds lvl') "k3x9" = Some newHold
  /\ (forall holdId, holdId <> "k3x9"%string ->
        findHold (holds lvl') holdId = findHold (holds lvlLowFinish) holdId)
  /\ handleEditorHoldClick newHold lvl' = lvlLowFinish.
Proof.
  apply (editor_place_then_remove "k3x9" 50 50 jug lvlLowFinish).
  reflexivity.
Defined.


(** *** The avatar's limbs *)

Lemma sqrt_lt_bound e b : 0 < b -> e < b * b -> sqrt e < b.
Proof.
  intros Hb He.
  destruct (Rle_dec 0 e) as [H0|H0].
  - rewrite <- (sqrt_square b) by lra. apply sqrt_lt_1_alt. lra.
  - rewrite sqrt_neg_0 by lra. exact Hb.
Qed.

Lemma free_limb_distance com limb :
  let dx := x (defaults com limb) - x (bodyAnchor com limb) in
  let dy := y (defaults com limb) - y (bodyAnchor com limb) in
  dx * dx + dy * dy < 11 * 11.
Proof.
  cbv zeta.
  destruct limb; unfold defaults, bodyAnchor, ANATOMY.shoulderWidth,
    ANATOMY.torsoHeight, ANATOMY.hipWidth, ANATOMY.legUpper, ANATOMY.legLower;
    cbn [x y]; nra.
Qed.

Lemma Limb_eqb_eq a b : Limb_eqb a b = true <-> a = b.
Proof. destruct a, b; cbn; split; congruence. Qed.

(** X28: how a free limb is drawn.  For a limb that is neither placed nor
    the one being dragged, [resolveTarget] returns the default hanging
    position (the clamp to the limb's reach never applies at the four call
    sites), and [solveIK] takes its bent branch on it: the elbow or knee is
    drawn exactly one upper-arm or thigh length from the shoulder or hip. *)
Theorem free_limb_pose (state : ClimberState) (draggingLimb : option Limb)
    (dragPos : option Point) (limb : Limb) :
  limb_get (limbs state) limb = None ->
  draggingLimb <> Some limb ->
  limbTarget state draggingLimb dragPos limb
  = defaults (centerOfMass state) limb
  /\ exists q,
       limbJoint state draggingLimb dragPos limb = Some q
       /\ calculateDistance (bodyAnchor (centerOfMass state) limb) q
          = upperLength limb.
Proof.
  intros Hfree Hdrag.
  pose proof (free_limb_distance (centerOfMass state) limb) as Hd.
  cbv zeta in Hd.
  assert (Ht : limbTarget state draggingLimb dragPos limb
               = defaults (centerOfMass state) limb).
  { unfold limbTarget, resolveTarget; cbv zeta.
    assert (Hnd : match draggingLimb, dragPos with
                  | Some d, Some dp => if Limb_eqb d limb then Some dp else None
                  | _, _ => None
                  end = None).
    { destruct draggingLimb as [d|]; [|reflexivity].
      destruct dragPos; [|reflexivity].
      destruct (Limb_eqb d limb) eqn:E; [|reflexivity].
      apply Limb_eqb_eq in E. congruence. }
    rewrite Hnd, Hfree.
    rewrite (proj2 (NumFacts.gtb_false _ _)); [reflexivity|].
    pose proof (maxReachOf_value limb).
    apply Rle_trans with 11; [|lra].
    apply sqrt_le_bound; lra. }
  split; [exact Ht|].
  assert (Hb : calculateDistance (bodyAnchor (centerOfMass state) limb)
                 (defaults (centerOfMass state) limb) < 11).
  { rewrite distance_as_norm. apply sqrt_lt_bound; lra. }
  unfold limbJoint; cbv zeta. rewrite Ht.
  destruct limb; cbn [upperLength]; apply solveIK_bent;
    unfold ANATOMY.armUpper, ANATOMY.armLower, ANATOMY.legUpper,
      ANATOMY.legLower; lra.
Qed.

Lemma free_limb_pose_witness :
  limbTarget sDangling None None rightHand
  = defaults (centerOfMass sDangling) rightHand
  /\ exists q,
       limbJoint sDangling None None rightHand = Some q
       /\ calculateDistance (bodyAnchor (centerOfMass sDangling) rightHand) q
          = upperLength rightHand.
Proof.
  apply (free_limb_pose sDangling None None rightHand);
    [reflexivity | discriminate].
Defined.
